(** * update_readme.py: the README index generator

    A shallow embedding of [src/update_readme.py] and the properties of its
    title extractor, tree builder, renderer and assembler.

    Text.  A Python [str] is modelled by [string]; a character is a code
    point below 256 (the Latin-1 range), on which [str.lower], [str.strip]
    and the regular-expression class [\s] are written out below.

    File system.  A [Path] handed to the program is a name, its POSIX path
    relative to [ROOT_DIR], and the node it designates ([fsnode]).  Reading a
    text file is the sequence of results of its successive [readline]s
    ([line_result]), a file that cannot be opened failing at once; listing a
    directory either raises or yields its entries in the order of the
    operating system.

    Values.  The tree is the Python [dict] of the source, kept as an
    insertion-ordered association list ([pyval]), with the reserved key
    ["__files__"] side by side with the sub-directory names. *)

From Stdlib Require Import List String Ascii Bool Arith NArith Lia.
From Stdlib Require Import Sorted Permutation.
Import ListNotations.
Local Open Scope list_scope.
Local Open Scope string_scope.

Set Implicit Arguments.
Set Warnings "-register-all".

(** ** Exceptions and the error monad *)

Module Py.

(** The exceptions the program can raise. *)
Inductive exn : Type :=
| ListingError        (* OSError raised by [Path.iterdir] *)
| UnicodeDecodeError  (* raised while iterating a text file *)
| FileError           (* OSError raised by [md_file.open] or by a read *)
| AttributeError      (* e.g. ['dict' object has no attribute 'append'] *)
| ValueError          (* tuple unpacking of the wrong length *)
| KeyError            (* subscript with a key the dict lacks *)
| WriteError.         (* OSError raised by [open('w')] *)

Inductive result (A : Type) : Type :=
| Ok (a : A)
| Raise (e : exn).
Arguments Raise {A} e.

Definition bind {A B : Type} (m : result A) (k : A -> result B) : result B :=
  match m with
  | Ok a => k a
  | Raise e => Raise e
  end.

End Py.
Import Py.

Notation "x <- m ;; k" := (Py.bind m (fun x => k))
  (at level 61, m at next level, right associativity).

(** ** Characters and strings *)

Definition code (c : ascii) : N := N_of_ascii c.

(** [Py_UNICODE_ISSPACE] below 256: used by [str.strip] and by [\s]. *)
Definition isspace (c : ascii) : bool :=
  let n := code c in
  ((9 <=? n) && (n <=? 13) || (28 <=? n) && (n <=? 32)
   || (n =? 133) || (n =? 160))%N.

(** [str.lower] on one character below 256: A-Z, and the Latin-1 capitals
    U+00C0..U+00DE except the multiplication sign U+00D7. *)
Definition lower_char (c : ascii) : ascii :=
  let n := code c in
  if ((65 <=? n) && (n <=? 90)
      || (192 <=? n) && (n <=? 222) && negb (n =? 215))%N
  then ascii_of_N (n + 32) else c.

Fixpoint lower (s : string) : string :=
  match s with
  | EmptyString => EmptyString
  | String c s' => String (lower_char c) (lower s')
  end.

Fixpoint drop_while (p : ascii -> bool) (s : string) : string :=
  match s with
  | EmptyString => EmptyString
  | String c s' => if p c then drop_while p s' else s
  end.

Fixpoint string_rev_onto (s acc : string) : string :=
  match s with
  | EmptyString => acc
  | String c s' => string_rev_onto s' (String c acc)
  end.

Definition string_rev (s : string) : string := string_rev_onto s EmptyString.

Definition lstrip (s : string) : string := drop_while isspace s.
Definition rstrip (s : string) : string :=
  string_rev (drop_while isspace (string_rev s)).

(** [str.strip()] *)
Definition strip (s : string) : string := rstrip (lstrip s).

(** [s.startswith('#')] *)
Definition is_hash (c : ascii) : bool := Ascii.eqb c "#".

Definition startswith_hash (s : string) : bool :=
  match s with
  | String c _ => is_hash c
  | EmptyString => false
  end.

(** [re.sub(r'^#+\s*', '', line)]: the pattern is anchored at the start of
    the string, so at most one match is replaced; both repetitions are
    greedy and nothing follows them. *)
Definition re_sub_heading_prefix (line : string) : string :=
  if startswith_hash line
  then drop_while isspace (drop_while is_hash line)
  else line.

(** [re.sub(r'\s+', '-', text)]: every maximal run of whitespace becomes one
    ['-'].  [in_run] records that the scan is inside a run whose ['-'] has
    already been produced. *)
Fixpoint re_sub_spaces_dash_from (in_run : bool) (text : string) : string :=
  match text with
  | EmptyString => EmptyString
  | String c rest =>
      if isspace c
      then if in_run then re_sub_spaces_dash_from true rest
           else String "-" (re_sub_spaces_dash_from true rest)
      else String c (re_sub_spaces_dash_from false rest)
  end.

Definition re_sub_spaces_dash (text : string) : string :=
  re_sub_spaces_dash_from false text.

(** The line feed, and [sep.join(lines)]. *)
Definition nl : string := String (ascii_of_nat 10) EmptyString.

Fixpoint join (sep : string) (lines : list string) : string :=
  match lines with
  | [] => EmptyString
  | [x] => x
  | x :: rest => x ++ sep ++ join sep rest
  end.

(** ["#" * n] *)
Fixpoint str_repeat (s : string) (n : nat) : string :=
  match n with
  | O => EmptyString
  | S n' => s ++ str_repeat s n'
  end.

(** [name in NAMES] for a set of strings. *)
Definition mem (name : string) (names : list string) : bool :=
  existsb (String.eqb name) names.

(** ** pathlib: suffix and stem

    [i = name.rfind('.')]; the suffix is [name[i:]] and the stem [name[:i]]
    when [0 < i < len(name) - 1], else the suffix is empty and the stem is
    the whole name. *)
Fixpoint rsplit_dot (name : string) : option (string * string) :=
  match name with
  | EmptyString => None
  | String c rest =>
      match rsplit_dot rest with
      | Some (before, from_dot) => Some (String c before, from_dot)
      | None => if Ascii.eqb c "." then Some (EmptyString, name) else None
      end
  end.

Definition has_suffix_split (name : string) : option (string * string) :=
  match rsplit_dot name with
  | Some (before, from_dot) =>
      if ((0 <? String.length before) && (1 <? String.length from_dot))%nat
      then Some (before, from_dot) else None
  | None => None
  end.

Definition suffix (name : string) : string :=
  match has_suffix_split name with
  | Some (_, from_dot) => from_dot
  | None => EmptyString
  end.

Definition stem (name : string) : string :=
  match has_suffix_split name with
  | Some (before, _) => before
  | None => name
  end.

(** ** Constants of the module *)

Definition IGNORE_DIRS : list string :=
  [".git"; ".github"; "scripts"; "__pycache__"; "node_modules"].

Definition IGNORE_FILES : list string := ["README.md"].

Definition FILES_KEY : string := "__files__".

(** ** The file system as the program reads it *)

(** What [with md_file.open(...) as f: for line in f] meets, step by step:
    a decoded line, the decoder raising, or the system raising (a file that
    cannot be opened has [Unreadable] first).  The decoder works on blocks
    of the file, so a read can fail on bytes that lie beyond the line asked
    for: the outcomes are those of the reads, not a cut of the bytes. *)
Inductive line_result : Type :=
| Line (text : string)
| Undecodable
| Unreadable.

(** An entry is a directory or not ([RegularFile]: anything [is_dir] denies).
    [listing = None]: [iterdir] raises.  The entries come in the order of
    the operating system, each with its name. *)
Inductive fsnode : Type :=
| RegularFile (lines : list line_result)
| Directory (listing : option (list (string * fsnode))).

Definition is_dir (node : fsnode) : bool :=
  match node with
  | Directory _ => true
  | RegularFile _ => false
  end.

(** ** [extract_title_from_md] *)

Fixpoint first_heading (lines : list line_result) : result (option string) :=
  match lines with
  | [] => Ok None
  | Undecodable :: _ => Raise UnicodeDecodeError
  | Unreadable :: _ => Raise FileError
  | Line text :: rest =>
      let line := strip text in
      if startswith_hash line
      then Ok (Some (strip (re_sub_heading_prefix line)))
      else first_heading rest
  end.

Definition extract_title_from_md (name : string) (lines : list line_result)
  : result string :=
  found <- first_heading lines ;;
  match found with
  | Some title => Ok title
  | None => Ok (stem name)
  end.

(** ** [sorted(xs, key=...)]: a stable sort on the keys, compared as Python
    compares [str], code point by code point. *)
Section Sorted.
Variable A : Type.
Variable key : A -> string.

Fixpoint insert_by (x : A) (l : list A) : list A :=
  match l with
  | [] => [x]
  | y :: l' =>
      if String.leb (key x) (key y) then x :: l else y :: insert_by x l'
  end.

Definition sorted_by (l : list A) : list A := fold_right insert_by [] l.
End Sorted.

(** ** The tree: a Python dict *)

Inductive pyval : Type :=
| PyList (elems : list (string * string))   (* list of (title, path) tuples *)
| PyDict (items : list (string * pyval)).   (* dict, in insertion order *)

Definition pydict : Type := list (string * pyval).

Section Dict.
Variable V : Type.

(** [d[k]] / [d.get(k)] *)
Fixpoint dict_get (k : string) (d : list (string * V)) : option V :=
  match d with
  | [] => None
  | (k', v) :: d' => if String.eqb k k' then Some v else dict_get k d'
  end.

(** [d[k] = v]: an existing key keeps its position. *)
Fixpoint dict_set (k : string) (v : V) (d : list (string * V))
  : list (string * V) :=
  match d with
  | [] => [(k, v)]
  | (k', v') :: d' =>
      if String.eqb k k' then (k, v) :: d' else (k', v') :: dict_set k v d'
  end.

Definition dict_keys (d : list (string * V)) : list string := map fst d.
End Dict.

(** [tree[key].append(x)] *)
Definition list_append (key : string) (x : string * string) (tree : pydict)
  : result pydict :=
  match dict_get key tree with
  | None => Raise KeyError
  | Some (PyList elems) => Ok (dict_set key (PyList (elems ++ [x])%list) tree)
  | Some (PyDict _) => Raise AttributeError
  end.

(** ** [build_directory_tree] *)

(** An entry of [current_dir.iterdir()] as the loop sees it.  [item_tree] is
    [build_directory_tree(item)]: the loop takes it only when it reaches a
    directory that is not ignored, which is when the source makes the call.
    (The call cannot stand under [sorted] as a structural recursion, so it
    is attached to the entry before the sort.) *)
Record dir_item : Type := mk_item {
  item_name : string;
  item_node : fsnode;
  item_tree : result pyval
}.

(** [key=lambda p: p.name.lower()] *)
Definition item_key (it : dir_item) : string := lower (item_name it).

(** The body of the [for item in sorted(...)] loop; [rel] is
    [current_dir.relative_to(ROOT_DIR).as_posix()]. *)
Definition build_step (rel : string) (tree : pydict) (item : dir_item)
  : result pydict :=
  if is_dir (item_node item) then
    if mem (item_name item) IGNORE_DIRS then Ok tree
    else
      subtree <- item_tree item ;;
      Ok (dict_set (item_name item) subtree tree)
  else
    if String.eqb (suffix (item_name item)) ".md"
       && negb (mem (item_name item) IGNORE_FILES)
    then
      match item_node item with
      | RegularFile lines =>
          title <- extract_title_from_md (item_name item) lines ;;
          let relative_path := rel ++ "/" ++ item_name item in
          list_append FILES_KEY (title, relative_path) tree
      | Directory _ => Ok tree
      end
    else Ok tree.

Fixpoint build_loop (rel : string) (items : list dir_item) (tree : pydict)
  : result pydict :=
  match items with
  | [] => Ok tree
  | item :: rest =>
      tree' <- build_step rel tree item ;;
      build_loop rel rest tree'
  end.

Fixpoint build_directory_tree (rel : string) (current_dir : fsnode)
  : result pyval :=
  match current_dir with
  | RegularFile _ => Raise ListingError
  | Directory None => Raise ListingError
  | Directory (Some listing) =>
      let items :=
        map (fun entry : string * fsnode =>
               let (name, node) := entry in
               mk_item name node
                 (build_directory_tree (rel ++ "/" ++ name) node))
            listing in
      tree <- build_loop rel (sorted_by item_key items)
                [(FILES_KEY, PyList [])] ;;
      Ok (PyDict tree)
  end.

(** ** [render_subtree] *)

(** [if files:] *)
Definition truthy (v : pyval) : bool :=
  match v with
  | PyList [] => false
  | PyDict [] => false
  | _ => true
  end.

(** [(title, rel_path) = x] for [x] a [str]: it must have two characters. *)
Definition unpack_str (x : string) : result (string * string) :=
  match x with
  | String a (String b EmptyString) =>
      Ok (String a EmptyString, String b EmptyString)
  | _ => Raise ValueError
  end.

(** What [for (title, rel_path) in files] binds at each turn: the tuples of
    a list, the keys of a dict. *)
Definition iter_unpack (files : pyval) : list (result (string * string)) :=
  match files with
  | PyList elems => map (fun x => Ok x) elems
  | PyDict items => map (fun kv => unpack_str (fst kv)) items
  end.

Definition link_line (title rel_path : string) : string :=
  "- [" ++ title ++ "](" ++ rel_path ++ ")".

Fixpoint render_files (turns : list (result (string * string)))
  (lines : list string) : result (list string) :=
  match turns with
  | [] => Ok lines
  | turn :: rest =>
      x <- turn ;;
      render_files rest (lines ++ [link_line (fst x) (snd x)])%list
  end.

Definition heading_line (heading_level : nat) (subdir : string) : string :=
  str_repeat "#" heading_level ++ " " ++ subdir.

(** The loop over [subdirs]; [rendered] maps each key of the tree to
    [render_subtree(tree[key], heading_level + 1, parent_path/key)]. *)
Fixpoint render_subdirs (heading_level : nat)
  (rendered : list (string * result string)) (subdirs : list string)
  (lines : list string) : result (list string) :=
  match subdirs with
  | [] => Ok lines
  | subdir :: rest =>
      match dict_get subdir rendered with
      | None => Raise KeyError
      | Some call =>
          subtree_md <- call ;;
          render_subdirs heading_level rendered rest
            (lines ++ [heading_line heading_level subdir; ""; subtree_md; ""])%list
      end
  end.

(** [subdirs = [k for k in tree.keys() if k != "__files__"]],
    then [subdirs.sort(key=str.lower)]. *)
Definition subdirs_of (tree : pydict) : list string :=
  sorted_by lower
    (filter (fun k => negb (String.eqb k FILES_KEY)) (dict_keys tree)).

Fixpoint render_subtree (tree : pyval) (heading_level : nat)
  (parent_path : string) : result string :=
  match tree with
  | PyList _ => Raise AttributeError
  | PyDict items =>
      let files :=
        match dict_get FILES_KEY items with
        | Some v => v
        | None => PyList []
        end in
      lines <- (if truthy files
                then lines <- render_files (iter_unpack files) [] ;;
                     Ok (lines ++ [""])%list
                else Ok []) ;;
      let rendered :=
        map (fun kv : string * pyval =>
               let (subdir, subtree) := kv in
               (subdir,
                render_subtree subtree (heading_level + 1)
                  (parent_path ++ "/" ++ subdir)))
            items in
      lines <- render_subdirs heading_level rendered (subdirs_of items) lines ;;
      Ok (join nl lines)
  end.

(** ** [make_anchor] and [generate_readme] *)

Definition make_anchor (text : string) : string :=
  re_sub_spaces_dash (lower text).

Definition topic_names (all_topics_data : pydict) : list string :=
  sorted_by lower (dict_keys all_topics_data).

Definition category_line (topic_name : string) : string :=
  "- [" ++ topic_name ++ "](#" ++ make_anchor topic_name ++ ")".

Definition categories_lines (all_topics_data : pydict) : list string :=
  map category_line (topic_names all_topics_data).

Definition topic_heading (topic_name : string) : string :=
  "### " ++ topic_name.

Fixpoint articles_loop (all_topics_data : pydict) (names : list string)
  (lines : list string) : result (list string) :=
  match names with
  | [] => Ok lines
  | topic_name :: rest =>
      match dict_get topic_name all_topics_data with
      | None => Raise KeyError
      | Some topic_tree =>
          subtree_md <- render_subtree topic_tree 4 topic_name ;;
          articles_loop all_topics_data rest
            (lines ++ [topic_heading topic_name; subtree_md])%list
      end
  end.

Definition articles_lines (all_topics_data : pydict) : result (list string) :=
  articles_loop all_topics_data (topic_names all_topics_data) [].

(** The fixed head of the document, as the UTF-8 bytes of the literal; no
    operation of the program looks into it. *)
Definition preamble : string :=
  "# TIL (Today I Learned)" ++ nl ++ nl ++
  "日々学習したことを簡単にまとめたリポジトリです。" ++ nl ++ nl ++
  "あくまで個人的な学習メモであり、正確性を保証するものではありません。" ++ nl ++ nl ++
  "※こちらのファイルは自動生成されており直接修正することは禁止です。" ++ nl ++ nl.

(** [linesep] is [os.linesep]. *)
Definition generate_readme (linesep : string) (all_topics_data : pydict)
  : result string :=
  articles <- articles_lines all_topics_data ;;
  Ok (preamble ++
      "## Categories" ++ nl ++
      join linesep (categories_lines all_topics_data) ++ nl ++ nl ++
      "## Articles" ++ nl ++
      join linesep articles ++ nl).

(** ** [main]: the run over the file system *)

(** The world [main] acts on: the directory [ROOT_DIR] and the standard
    output. *)
Record world : Type := mk_world {
  root_dir : fsnode;
  stdout : list string
}.

(** A command either returns or raises, and leaves a world behind. *)
Definition io (A : Type) : Type := world -> result A * world.

Definition io_bind {A B : Type} (m : io A) (k : A -> io B) : io B :=
  fun w =>
    match m w with
    | (Ok a, w') => k a w'
    | (Raise e, w') => (Raise e, w')
    end.

(** A computation that only reads what it was handed. *)
Definition io_lift {A : Type} (r : result A) : io A := fun w => (r, w).

Notation "x <~ m ;; k" := (io_bind m (fun x => k))
  (at level 61, m at next level, right associativity).

(** [ROOT_DIR.iterdir()] *)
Definition iterdir_root : io (list (string * fsnode)) :=
  fun w =>
    match root_dir w with
    | Directory (Some listing) => (Ok listing, w)
    | _ => (Raise ListingError, w)
    end.

(** The lines of a text, each with its line feed. *)
Fixpoint text_lines (text : string) : list string :=
  match text with
  | EmptyString => []
  | String c rest =>
      if Ascii.eqb c (ascii_of_nat 10) then String c EmptyString :: text_lines rest
      else match text_lines rest with
           | [] => [String c EmptyString]
           | line :: more => String c line :: more
           end
  end.

Definition README_NAME : string := "README.md".

Definition INFO_MESSAGE : string := "[INFO] README.md updated!".

(** [with README_PATH.open('w') as f: f.write(content)]: the file is
    created, or replaced where it stands; opening a directory raises. *)
Definition write_readme (content : string) : io unit :=
  fun w =>
    match root_dir w with
    | Directory (Some listing) =>
        match dict_get README_NAME listing with
        | Some (Directory _) => (Raise WriteError, w)
        | _ =>
            (Ok tt,
             mk_world
               (Directory
                  (Some (dict_set README_NAME
                           (RegularFile (map Line (text_lines content)))
                           listing)))
               (stdout w))
        end
    | _ => (Raise WriteError, w)
    end.

Definition print (line : string) : io unit :=
  fun w => (Ok tt, mk_world (root_dir w) (stdout w ++ [line])%list).

(** [topic_dirs], after [topic_dirs.sort(key=lambda d: d.name.lower())]. *)
Definition topic_dirs_of (listing : list (string * fsnode))
  : list (string * fsnode) :=
  sorted_by (fun d => lower (fst d))
    (filter (fun item => is_dir (snd item) && negb (mem (fst item) IGNORE_DIRS))
       listing).

Fixpoint topics_loop (topic_dirs : list (string * fsnode))
  (all_topics_data : pydict) : result pydict :=
  match topic_dirs with
  | [] => Ok all_topics_data
  | (name, node) :: rest =>
      tree <- build_directory_tree name node ;;
      topics_loop rest (dict_set name tree all_topics_data)
  end.

Definition main (linesep : string) : io unit :=
  listing <~ iterdir_root ;;
  all_topics_data <~ io_lift (topics_loop (topic_dirs_of listing) []) ;;
  new_readme_content <~ io_lift (generate_readme linesep all_topics_data) ;;
  _ <~ write_readme new_readme_content ;;
  print INFO_MESSAGE.

(** ** Notions used to state the properties *)

(** A line made of heading markers and whitespace only. *)
Definition only_markers_and_space (text : string) : bool :=
  match drop_while (fun c => is_hash c || isspace c) text with
  | EmptyString => true
  | _ => false
  end.

(** The entries of a listing as the loop of the builder meets them. *)
Definition attach (rel : string) (entry : string * fsnode) : dir_item :=
  let (name, node) := entry in
  mk_item name node (build_directory_tree (rel ++ "/" ++ name) node).

(** A qualifying document, and a sub-directory that is kept. *)
Definition is_document (name : string) (node : fsnode) : bool :=
  negb (is_dir node) && String.eqb (suffix name) ".md"
  && negb (mem name IGNORE_FILES).

Definition is_subdir (name : string) (node : fsnode) : bool :=
  is_dir node && negb (mem name IGNORE_DIRS).

(** A listing with no qualifying file and no sub-directory that is kept. *)
Definition holds_nothing (listing : list (string * fsnode)) : bool :=
  forallb (fun entry =>
             negb (is_document (fst entry) (snd entry))
             && negb (is_subdir (fst entry) (snd entry)))
    listing.

(** The tree of a directory with no document and no child. *)
Definition EMPTY_NODE : pyval := PyDict [(FILES_KEY, PyList [])].

(** The order of the sort on the keys. *)
Definition key_le (A : Type) (key : A -> string) (x y : A) : Prop :=
  String.leb (key x) (key y) = true.

(** Names compared without regard to case. *)
Definition ci_le (a b : string) : Prop :=
  String.leb (lower a) (lower b) = true.

(** [mapM] in the error monad: the first exception in list order wins. *)
Fixpoint mapM {A B : Type} (f : A -> result B) (l : list A)
  : result (list B) :=
  match l with
  | [] => Ok []
  | x :: rest =>
      y <- f x ;;
      ys <- mapM f rest ;;
      Ok (y :: ys)
  end.

(** The four lines a sub-directory contributes. *)
Definition section_block (heading_level : nat) (subdir body : string)
  : list string :=
  [heading_line heading_level subdir; ""; body; ""].

(** *** The DirectoryNode of the specification, inside the dict

    A dict is a DirectoryNode when its reserved key holds a list of
    documents and every other key holds a DirectoryNode. *)
Fixpoint is_node (tree : pyval) : bool :=
  match tree with
  | PyList _ => false
  | PyDict items =>
      match dict_get FILES_KEY items with
      | Some (PyList _) => true
      | _ => false
      end
      && forallb (fun kv : string * pyval =>
                    String.eqb (fst kv) FILES_KEY || is_node (snd kv))
           items
  end.

Definition documents_of (items : pydict) : list (string * string) :=
  match dict_get FILES_KEY items with
  | Some (PyList docs) => docs
  | _ => []
  end.

(** The lines of a node in the words of the specification: a link per
    document, a blank line if there was one, then for each child its
    heading, a blank line, its own text one level down, a blank line. *)
Fixpoint node_lines (node : pyval) (headingLevel : nat) : list string :=
  match node with
  | PyList _ => []
  | PyDict items =>
      let documents := documents_of items in
      let child_text :=
        map (fun kv : string * pyval =>
               (fst kv, join nl (node_lines (snd kv) (headingLevel + 1))))
            items in
      (map (fun d => link_line (fst d) (snd d)) documents
       ++ (match documents with [] => [] | _ => [""] end)
       ++ flat_map
            (fun child =>
               section_block headingLevel child
                 (match dict_get child child_text with
                  | Some text => text
                  | None => ""
                  end))
            (subdirs_of items))%list
  end.

(** The call of the renderer on a child, as the loop takes it. *)
Definition render_child (items : pydict) (heading_level : nat)
  (parent_path : string) (subdir : string) : result (list string) :=
  match dict_get subdir items with
  | None => Raise KeyError
  | Some subtree =>
      body <- render_subtree subtree (heading_level + 1)
                (parent_path ++ "/" ++ subdir) ;;
      Ok (section_block heading_level subdir body)
  end.

(** The lines the renderer puts out for the documents. *)
Definition render_documents (items : pydict) : result (list string) :=
  let files :=
    match dict_get FILES_KEY items with
    | Some v => v
    | None => PyList []
    end in
  if truthy files
  then lines <- render_files (iter_unpack files) [] ;; Ok (lines ++ [""])%list
  else Ok [].


(** A tree as the builder returns it: a dict whose first key is the
    reserved one. *)
Definition built (tree : pyval) : Prop :=
  exists files rest, tree = PyDict ((FILES_KEY, files) :: rest).

Definition item_is_document (item : dir_item) : bool :=
  is_document (item_name item) (item_node item).

(** The order of the index at a directory and below it: the documents
    listed at [rel] are files of [rel] in case-insensitive order of name,
    the sub-directories are rendered in case-insensitive order of name, and
    the same holds in every child. *)
Inductive ordered_at : string -> pyval -> Prop :=
| ordered_dict (rel : string) (items : pydict) :
    (forall docs,
        dict_get FILES_KEY items = Some (PyList docs) ->
        exists names,
          map snd docs = map (fun name => rel ++ "/" ++ name) names
          /\ StronglySorted ci_le names) ->
    StronglySorted ci_le (subdirs_of items) ->
    (forall k v, In (k, v) items -> k <> FILES_KEY ->
                 ordered_at (rel ++ "/" ++ k) v) ->
    ordered_at rel (PyDict items).

(** The directory of the ordering example: two documents and two
    sub-directories, with any content. *)
Definition example_listing (file_a file_B : list line_result)
  (dir_Z dir_c : option (list (string * fsnode))) : list (string * fsnode) :=
  [("B.md", RegularFile file_B); ("a.md", RegularFile file_a);
   ("Z", Directory dir_Z); ("c", Directory dir_c)].

(** *** Exclusion

    An entry is excluded when it is a directory of the deny-list or a file
    named like the generated index. *)
Definition excluded (name : string) (node : fsnode) : bool :=
  if is_dir node then mem name IGNORE_DIRS else mem name IGNORE_FILES.

(** The same directory with every excluded entry removed, at every depth. *)
Fixpoint prune (node : fsnode) : fsnode :=
  match node with
  | RegularFile lines => RegularFile lines
  | Directory None => Directory None
  | Directory (Some listing) =>
      Directory
        (Some
           ((fix entries (l : list (string * fsnode))
               : list (string * fsnode) :=
               match l with
               | [] => []
               | (name, child) :: l' =>
                   if excluded name child then entries l'
                   else (name, prune child) :: entries l'
               end) listing))
  end.

Definition prune_listing (listing : list (string * fsnode))
  : list (string * fsnode) :=
  map (fun entry => (fst entry, prune (snd entry)))
    (filter (fun entry => negb (excluded (fst entry) (snd entry))) listing).

(** The text of the index for a listing of [ROOT_DIR]: scan, build and
    render, before anything is written. *)
Definition scan_build_render (linesep : string)
  (listing : list (string * fsnode)) : result string :=
  all_topics_data <- topics_loop (topic_dirs_of listing) [] ;;
  generate_readme linesep all_topics_data.

Definition item_kept (item : dir_item) : bool :=
  negb (excluded (item_name item) (item_node item)).

(** No excluded entry is represented at a directory or below it: the
    documents are files not named like the index, the keys are not in the
    deny-list. *)
Inductive clean_at : string -> pyval -> Prop :=
| clean_dict (rel : string) (items : pydict) :
    (forall docs,
        dict_get FILES_KEY items = Some (PyList docs) ->
        exists names,
          map snd docs = map (fun name => rel ++ "/" ++ name) names
          /\ Forall (fun name => mem name IGNORE_FILES = false) names) ->
    (forall k v, In (k, v) items -> k <> FILES_KEY ->
                 mem k IGNORE_DIRS = false /\ clean_at (rel ++ "/" ++ k) v) ->
    clean_at rel (PyDict items).

(** Two worlds in which the scan fails: a directory that cannot be listed
    below a topic, and a document that cannot be decoded. *)
Definition world_with_locked_directory : world :=
  mk_world
    (Directory
       (Some [("README.md", RegularFile [Line "old index"]);
              ("go",
               Directory
                 (Some [("intro.md", RegularFile [Line "# Intro"]);
                        ("locked", Directory None)]))]))
    [].

Definition world_with_undecodable_document : world :=
  mk_world
    (Directory
       (Some [("rust",
               Directory
                 (Some [("macros.md",
                         RegularFile [Line "text"; Undecodable])]))]))
    [].

(** A world with one topic, and a topic holding a folder named like the
    reserved key. *)
Definition world_with_one_topic : world :=
  mk_world
    (Directory
       (Some [("go",
               Directory
                 (Some [("intro.md", RegularFile [Line "# Goroutines"]);
                        ("advanced",
                         Directory
                           (Some [("channels.md",
                                   RegularFile [Line "no heading"])]))]))]))
    [].

Definition topic_with_reserved_name : fsnode :=
  Directory
    (Some [("1.md", RegularFile [Line "# One"]);
           ("__files__", Directory (Some []))]).

(** The four ways through the body of the loop. *)
Inductive step_kind (rel : string) (tree : pydict) (item : dir_item)
  : result pydict -> Prop :=
| step_ignored_dir :
    is_dir (item_node item) = true ->
    mem (item_name item) IGNORE_DIRS = true ->
    step_kind rel tree item (Ok tree)
| step_subdir :
    is_dir (item_node item) = true ->
    mem (item_name item) IGNORE_DIRS = false ->
    step_kind rel tree item
      (subtree <- item_tree item ;;
       Ok (dict_set (item_name item) subtree tree))
| step_document lines :
    item_node item = RegularFile lines ->
    item_is_document item = true ->
    step_kind rel tree item
      (title <- extract_title_from_md (item_name item) lines ;;
       list_append FILES_KEY (title, rel ++ "/" ++ item_name item) tree)
| step_other_file :
    is_dir (item_node item) = false ->
    item_is_document item = false ->
    step_kind rel tree item (Ok tree).


(** What a turn of the loop that does not raise has done. *)
Inductive step_ok (rel : string) (tree : pydict) (item : dir_item)
  (tree' : pydict) : Prop :=
| step_ok_skip :
    item_is_document item = false ->
    is_subdir (item_name item) (item_node item) = false ->
    tree' = tree ->
    step_ok rel tree item tree'
| step_ok_subdir subtree :
    is_subdir (item_name item) (item_node item) = true ->
    item_tree item = Ok subtree ->
    tree' = dict_set (item_name item) subtree tree ->
    step_ok rel tree item tree'
| step_ok_document lines title elems :
    item_node item = RegularFile lines ->
    item_is_document item = true ->
    extract_title_from_md (item_name item) lines = Ok title ->
    dict_get FILES_KEY tree = Some (PyList elems) ->
    tree' = dict_set FILES_KEY
              (PyList (elems ++ [(title, (rel ++ "/" ++ item_name item)%string)])%list)
              tree ->
    step_ok rel tree item tree'.


(** *** Induction over directories and over trees *)

Section FsnodeInduction.
Variable P : fsnode -> Prop.
Hypothesis Hfile : forall lines, P (RegularFile lines).
Hypothesis Hunreadable : P (Directory None).
Hypothesis Hdir :
  forall listing,
    Forall (fun entry => P (snd entry)) listing ->
    P (Directory (Some listing)).

Fixpoint fsnode_induction (node : fsnode) : P node :=
  match node with
  | RegularFile lines => Hfile lines
  | Directory None => Hunreadable
  | Directory (Some listing) =>
      Hdir
        ((fix entries (l : list (string * fsnode))
            : Forall (fun entry => P (snd entry)) l :=
            match l with
            | [] => Forall_nil _
            | entry :: l' =>
                Forall_cons entry (fsnode_induction (snd entry)) (entries l')
            end) listing)
  end.
End FsnodeInduction.

Section PyvalInduction.
Variable P : pyval -> Prop.
Hypothesis Hlist : forall elems, P (PyList elems).
Hypothesis Hdict :
  forall items, Forall (fun kv => P (snd kv)) items -> P (PyDict items).

Fixpoint pyval_induction (v : pyval) : P v :=
  match v with
  | PyList elems => Hlist elems
  | PyDict items =>
      Hdict
        ((fix entries (l : list (string * pyval))
            : Forall (fun kv => P (snd kv)) l :=
            match l with
            | [] => Forall_nil _
            | kv :: l' =>
                Forall_cons kv (pyval_induction (snd kv)) (entries l')
            end) items)
  end.
End PyvalInduction.


(** *** The text of the index, written out

    The lines of a text stand one below the other, a line feed between two;
    a heading of level [n] begins with [n] markers. *)
Fixpoint lines_text (lines : list string) : string :=
  match lines with
  | [] => ""
  | [line] => line
  | line :: rest => line ++ String "010" (lines_text rest)
  end.

Fixpoint markers (n : nat) : string :=
  match n with
  | O => ""
  | S n' => String "#" (markers n')
  end.

(** The lines of a node, character by character: for each document the
    link ["- [title](path)"]; a blank line if there was a document; for each
    child directory the heading ["#...# name"], a blank line, the text of the
    child one level down, a blank line. *)
Fixpoint layout_lines (node : pyval) (headingLevel : nat) : list string :=
  match node with
  | PyList _ => []
  | PyDict items =>
      let documents := documents_of items in
      let child_text :=
        map (fun kv : string * pyval =>
               (fst kv, lines_text (layout_lines (snd kv) (headingLevel + 1))))
            items in
      (map (fun d => ("- [" ++ fst d ++ "](" ++ snd d ++ ")")%string) documents
       ++ (match documents with [] => [] | _ => [""] end)
       ++ flat_map
            (fun child =>
               [(markers headingLevel ++ " " ++ child)%string;
                "";
                match dict_get child child_text with
                | Some text => text
                | None => ""
                end;
                ""])
            (subdirs_of items))%list
  end.

(** The names of the child directories of a node, as its dict holds them. *)
Definition child_names (items : pydict) : list string :=
  filter (fun k => negb (String.eqb k "__files__")) (map fst items).

(** The lines of the two lists of the index are put together with the
    line separator of the platform between two lines. *)
Fixpoint separated (sep : string) (lines : list string) : string :=
  match lines with
  | [] => ""
  | first :: rest =>
      match rest with
      | [] => first
      | _ :: _ => first ++ sep ++ separated sep rest
      end
  end.

(** ** Further notions: text *)

(** Every character of a string passes a test. *)
Fixpoint string_forall (p : ascii -> bool) (s : string) : bool :=
  match s with
  | EmptyString => true
  | String c rest => p c && string_forall p rest
  end.

(** The last character of a string, if any. *)
Fixpoint last_char (s : string) : option ascii :=
  match s with
  | EmptyString => None
  | String c EmptyString => Some c
  | String _ rest => last_char rest
  end.

Definition first_char (s : string) : option ascii :=
  match s with
  | EmptyString => None
  | String c _ => Some c
  end.

(** No whitespace at either end. *)
Definition trimmed (s : string) : Prop :=
  (forall c, first_char s = Some c -> isspace c = false)
  /\ (forall c, last_char s = Some c -> isspace c = false).

(** ** Further notions: directories *)

(** No sub-directory that the builder enters bears the reserved name, at
    any depth. *)
Fixpoint reserved_free (node : fsnode) : bool :=
  match node with
  | RegularFile _ => true
  | Directory None => true
  | Directory (Some listing) =>
      forallb (fun entry : string * fsnode =>
                 negb (is_subdir (fst entry) (snd entry))
                 || (negb (String.eqb (fst entry) FILES_KEY)
                     && reserved_free (snd entry)))
        listing
  end.

(** Opening the file and reading its lines raise nothing before a heading
    line is read, or the end of the file is met. *)
Definition decodes (node : fsnode) : bool :=
  match node with
  | RegularFile lines =>
      match first_heading lines with
      | Ok _ => true
      | Raise _ => false
      end
  | Directory _ => true
  end.

(** Every directory the builder enters can be listed, and every document
    can be opened and read until a heading line or its end is met. *)
Fixpoint readable (node : fsnode) : bool :=
  match node with
  | RegularFile _ => true
  | Directory None => false
  | Directory (Some listing) =>
      forallb (fun entry : string * fsnode =>
                 (negb (is_subdir (fst entry) (snd entry))
                  || readable (snd entry))
                 && (negb (is_document (fst entry) (snd entry))
                     || decodes (snd entry)))
        listing
  end.

(** The errors of the scan: a directory that cannot be listed, a document
    that cannot be opened or read, a document that cannot be decoded. *)
Definition scan_error (e : exn) : Prop :=
  e = ListingError \/ e = FileError \/ e = UnicodeDecodeError.

(** The entries of a directory in the order in which the loop takes them. *)
Definition sorted_entries (listing : list (string * fsnode))
  : list (string * fsnode) :=
  sorted_by (fun entry => lower (fst entry)) listing.

(** A document of the tree and the file it stands for; a key of the tree
    and the sub-directory it stands for. *)
Definition document_of (rel : string) (doc : string * string)
  (entry : string * fsnode) : Prop :=
  snd doc = rel ++ "/" ++ fst entry
  /\ exists lines,
      snd entry = RegularFile lines
      /\ extract_title_from_md (fst entry) lines = Ok (fst doc).

Definition child_of (rel : string) (kv : string * pyval)
  (entry : string * fsnode) : Prop :=
  fst kv = fst entry
  /\ build_directory_tree (rel ++ "/" ++ fst entry) (snd entry) = Ok (snd kv).

Definition item_is_subdir (item : dir_item) : bool :=
  is_subdir (item_name item) (item_node item).

(** The same directory, its entries possibly listed in another order, at
    every depth. *)
Inductive same_entries : fsnode -> fsnode -> Prop :=
| same_file (lines : list line_result) :
    same_entries (RegularFile lines) (RegularFile lines)
| same_unlisted :
    same_entries (Directory None) (Directory None)
| same_dir (listing reordered listing' : list (string * fsnode)) :
    Permutation listing reordered ->
    Forall2 (fun entry entry' =>
               fst entry = fst entry'
               /\ same_entries (snd entry) (snd entry'))
      reordered listing' ->
    same_entries (Directory (Some listing)) (Directory (Some listing')).

(** No two names of a directory differ by case only, at every depth. *)
Inductive case_distinct : fsnode -> Prop :=
| case_distinct_file (lines : list line_result) :
    case_distinct (RegularFile lines)
| case_distinct_unlisted :
    case_distinct (Directory None)
| case_distinct_dir (listing : list (string * fsnode)) :
    NoDup (map (fun entry => lower (fst entry)) listing) ->
    Forall (fun entry => case_distinct (snd entry)) listing ->
    case_distinct (Directory (Some listing)).

(** A top-level directory that [main] takes as a topic. *)
Definition is_topic (item : string * fsnode) : bool :=
  is_dir (snd item) && negb (mem (fst item) IGNORE_DIRS).

(** The two lines of the Articles section for a topic directory: its
    heading, then the render of the tree built for it. *)
Definition topic_block (block : list string) (topic_dir : string * fsnode)
  : Prop :=
  exists tree body,
    build_directory_tree (fst topic_dir) (snd topic_dir) = Ok tree
    /\ render_subtree tree 4 (fst topic_dir) = Ok body
    /\ block = [topic_heading (fst topic_dir); body].

(** A root with one topic, and the index generated for it. *)
Definition one_topic_listing : list (string * fsnode) :=
  [("go",
    Directory
      (Some [("intro.md", RegularFile [Line "# Goroutines"]);
             ("advanced",
              Directory
                (Some [("channels.md", RegularFile [Line "no heading"])]))]))].

Definition one_topic_text : string :=
  preamble ++ "## Categories" ++ nl ++ "- [go](#go)" ++ nl ++ nl ++
  "## Articles" ++ nl ++ "### go" ++ nl ++
  join nl ["- [Goroutines](go/intro.md)"; ""; "#### advanced"; "";
           join nl ["- [channels](go/advanced/channels.md)"; ""]; ""] ++ nl.

(** Every topic of a root can be scanned, and none holds a sub-directory
    bearing the reserved name. *)
Definition topics_scannable (listing : list (string * fsnode)) : Prop :=
  forall topic_dir,
    In topic_dir listing -> is_topic topic_dir = true ->
    readable (snd topic_dir) = true /\ reserved_free (snd topic_dir) = true.
(** * Properties *)

(** ** The order on keys *)

Lemma str_compare_trans_le (a b c : string) :
  String.compare a b <> Gt -> String.compare b c <> Gt ->
  String.compare a c <> Gt.
Proof.
  revert b c.
  induction a as [| x a IH]; intros [| y b] [| z c]; simpl;
    try congruence.
  unfold Ascii.compare.
  destruct (N.compare_spec (N_of_ascii x) (N_of_ascii y)) as [Exy | Lxy | Gxy];
    destruct (N.compare_spec (N_of_ascii y) (N_of_ascii z)) as [Eyz | Lyz | Gyz];
    destruct (N.compare_spec (N_of_ascii x) (N_of_ascii z)) as [Exz | Lxz | Gxz];
    try congruence; try lia.
  apply IH.
Qed.

Lemma str_leb_trans (a b c : string) :
  String.leb a b = true -> String.leb b c = true -> String.leb a c = true.
Proof.
  unfold String.leb.
  intros Hab Hbc.
  assert (H : String.compare a c <> Gt).
  { apply str_compare_trans_le with b.
    - destruct (String.compare a b); congruence.
    - destruct (String.compare b c); congruence. }
  destruct (String.compare a c); congruence.
Qed.

Lemma str_leb_false_flip (a b : string) :
  String.leb a b = false -> String.leb b a = true.
Proof.
  intros H.
  destruct (String.leb_total a b) as [H' | H']; congruence.
Qed.

(** ** The stable sort *)

Section SortedFacts.
Variable A : Type.
Variable key : A -> string.

Lemma insert_by_perm (x : A) (l : list A) :
  Permutation (x :: l) (insert_by key x l).
Proof.
  induction l as [| y l IH]; simpl.
  - apply Permutation_refl.
  - destruct (String.leb (key x) (key y)).
    + apply Permutation_refl.
    + eapply perm_trans; [apply perm_swap |].
      apply perm_skip, IH.
Qed.

Lemma sorted_by_perm (l : list A) : Permutation l (sorted_by key l).
Proof.
  induction l as [| x l IH]; simpl.
  - apply perm_nil.
  - eapply perm_trans; [apply perm_skip, IH |].
    apply insert_by_perm.
Qed.

Lemma sorted_by_In (x : A) (l : list A) :
  In x (sorted_by key l) <-> In x l.
Proof.
  split; intros H.
  - eapply Permutation_in; [apply Permutation_sym, sorted_by_perm | exact H].
  - eapply Permutation_in; [apply sorted_by_perm | exact H].
Qed.

Lemma insert_by_strongly_sorted (x : A) (l : list A) :
  StronglySorted (key_le key) l -> StronglySorted (key_le key) (insert_by key x l).
Proof.
  induction 1 as [| y l Hl IH Hy]; simpl.
  - constructor; constructor.
  - destruct (String.leb (key x) (key y)) eqn:E.
    + constructor.
      * constructor; assumption.
      * constructor; [exact E |].
        eapply Forall_impl; [| exact Hy].
        intros z Hz. unfold key_le in *.
        eapply str_leb_trans; eassumption.
    + constructor; [exact IH |].
      apply Forall_forall. intros z Hz.
      apply (Permutation_in _ (Permutation_sym (insert_by_perm x l))) in Hz.
      destruct Hz as [<- | Hz].
      * apply str_leb_false_flip, E.
      * rewrite Forall_forall in Hy. apply Hy, Hz.
Qed.

Lemma sorted_by_strongly_sorted (l : list A) :
  StronglySorted (key_le key) (sorted_by key l).
Proof.
  induction l as [| x l IH]; simpl.
  - constructor.
  - apply insert_by_strongly_sorted, IH.
Qed.

(** Stability: the sort commutes with taking a sub-list by a predicate. *)
Lemma insert_by_filter (p : A -> bool) (x : A) (l : list A) :
  StronglySorted (key_le key) l ->
  filter p (insert_by key x l) =
    if p x then insert_by key x (filter p l) else filter p l.
Proof.
  induction 1 as [| y l Hl IH Hy]; simpl.
  - destruct (p x); reflexivity.
  - destruct (String.leb (key x) (key y)) eqn:E; simpl.
    + destruct (p x) eqn:Px; destruct (p y) eqn:Py; simpl;
        rewrite ?E; try reflexivity.
      (* [y] is dropped: [x] still goes in front of what is left *)
      assert (Hall : Forall (key_le key x) (filter p l)).
      { apply Forall_forall. intros z Hz.
        apply filter_In in Hz. destruct Hz as [Hz _].
        rewrite Forall_forall in Hy. unfold key_le.
        eapply str_leb_trans; [exact E | apply Hy, Hz]. }
      destruct (filter p l) as [| z r]; simpl; [reflexivity |].
      inversion Hall as [| ? ? Hz _]; subst.
      unfold key_le in Hz. rewrite Hz. reflexivity.
    + rewrite IH.
      destruct (p x) eqn:Px; destruct (p y) eqn:Py; simpl;
        rewrite ?E; reflexivity.
Qed.

Lemma sorted_by_filter (p : A -> bool) (l : list A) :
  sorted_by key (filter p l) = filter p (sorted_by key l).
Proof.
  induction l as [| x l IH]; simpl; [reflexivity |].
  rewrite insert_by_filter by apply sorted_by_strongly_sorted.
  destruct (p x); simpl; rewrite IH; reflexivity.
Qed.
End SortedFacts.

Section SortedUnique.
Variable A : Type.
Variable R : A -> A -> Prop.

Lemma strongly_sorted_perm_eq (l1 l2 : list A) :
  StronglySorted R l1 -> StronglySorted R l2 -> Permutation l1 l2 ->
  (forall x y, In x l1 -> In y l1 -> R x y -> R y x -> x = y) ->
  l1 = l2.
Proof.
  revert l2.
  induction l1 as [| a l1 IH]; intros l2 H1 H2 Hperm Hanti.
  - apply Permutation_nil in Hperm. subst. reflexivity.
  - destruct l2 as [| b l2].
    + apply Permutation_sym, Permutation_nil in Hperm. discriminate.
    + apply StronglySorted_inv in H1. destruct H1 as [H1 Ha].
      apply StronglySorted_inv in H2. destruct H2 as [H2 Hb].
      rewrite Forall_forall in Ha, Hb.
      assert (Hab : a = b).
      { assert (Hain : In a (b :: l2))
          by (eapply Permutation_in; [exact Hperm | left; reflexivity]).
        assert (Hbin : In b (a :: l1))
          by (eapply Permutation_in;
              [apply Permutation_sym; exact Hperm | left; reflexivity]).
        destruct Hain as [Hain | Hain]; [symmetry; exact Hain |].
        destruct Hbin as [Hbin | Hbin]; [exact Hbin |].
        apply Hanti.
        - left; reflexivity.
        - right; exact Hbin.
        - apply Ha, Hbin.
        - apply Hb, Hain. }
      subst b. f_equal.
      apply IH; try assumption.
      * eapply Permutation_cons_inv. exact Hperm.
      * intros x y Hx Hy. apply Hanti; right; assumption.
Qed.
End SortedUnique.

(** With keys that are pairwise distinct the sort does not depend on the
    order of its input. *)
Lemma sorted_by_perm_unique (A : Type) (key : A -> string) (l1 l2 : list A) :
  Permutation l1 l2 -> NoDup (map key l1) ->
  sorted_by key l1 = sorted_by key l2.
Proof.
  intros Hperm Hnd.
  apply strongly_sorted_perm_eq with (R := key_le key).
  - apply sorted_by_strongly_sorted.
  - apply sorted_by_strongly_sorted.
  - eapply perm_trans; [apply Permutation_sym, sorted_by_perm |].
    eapply perm_trans; [exact Hperm | apply sorted_by_perm].
  - intros x y Hx Hy Hxy Hyx.
    apply sorted_by_In in Hx. apply sorted_by_In in Hy.
    assert (Hk : key x = key y) by (apply String.leb_antisym; assumption).
    clear Hxy Hyx Hperm.
    induction l1 as [| a l1 IH]; [destruct Hx |].
    cbn [map] in Hnd. inversion Hnd as [| ? ? Hnotin Hnd']; subst.
    destruct Hx as [-> | Hx]; destruct Hy as [-> | Hy].
    + reflexivity.
    + exfalso. apply Hnotin. rewrite Hk. apply in_map, Hy.
    + exfalso. apply Hnotin. rewrite <- Hk. apply in_map, Hx.
    + apply IH; assumption.
Qed.

Section SortedShape.
Variables A B : Type.
Variable R : B -> B -> Prop.

Lemma strongly_sorted_filter (p : B -> bool) (l : list B) :
  StronglySorted R l -> StronglySorted R (filter p l).
Proof.
  induction 1 as [| x l Hl IH Hx]; simpl; [constructor |].
  destruct (p x); [| exact IH].
  constructor; [exact IH |].
  apply Forall_forall. intros y Hy. apply filter_In in Hy.
  rewrite Forall_forall in Hx. apply Hx, Hy.
Qed.

Lemma strongly_sorted_map (f : A -> B) (l : list A) :
  StronglySorted (fun x y => R (f x) (f y)) l ->
  StronglySorted R (map f l).
Proof.
  induction 1 as [| x l Hl IH Hx]; simpl; [constructor |].
  constructor; [exact IH |].
  apply Forall_forall. intros y Hy. apply in_map_iff in Hy.
  destruct Hy as [z [<- Hz]].
  rewrite Forall_forall in Hx. apply Hx, Hz.
Qed.
End SortedShape.

Section SortedMap.
Variables A B : Type.
Variable f : A -> B.
Variable key : B -> string.

Lemma insert_by_map (x : A) (l : list A) :
  insert_by key (f x) (map f l) =
    map f (insert_by (fun a => key (f a)) x l).
Proof.
  induction l as [| y l IH]; simpl; [reflexivity |].
  destruct (String.leb (key (f x)) (key (f y))); simpl;
    [reflexivity | rewrite IH; reflexivity].
Qed.

Lemma sorted_by_map (l : list A) :
  sorted_by key (map f l) = map f (sorted_by (fun a => key (f a)) l).
Proof.
  induction l as [| x l IH]; simpl; [reflexivity |].
  rewrite IH. apply insert_by_map.
Qed.
End SortedMap.

(** ** Text *)

Lemma drop_while_idem (p : ascii -> bool) (s : string) :
  drop_while p (drop_while p s) = drop_while p s.
Proof.
  induction s as [| c s IH]; simpl; [reflexivity |].
  destruct (p c) eqn:E; [exact IH |].
  simpl. rewrite E. reflexivity.
Qed.

Lemma strip_lstrip (s : string) : strip (drop_while isspace s) = strip s.
Proof.
  unfold strip, lstrip. rewrite drop_while_idem. reflexivity.
Qed.

Lemma rsplit_dot_app (name before from_dot : string) :
  rsplit_dot name = Some (before, from_dot) -> name = before ++ from_dot.
Proof.
  revert before from_dot.
  induction name as [| c name IH]; simpl; intros before from_dot H.
  - discriminate.
  - destruct (rsplit_dot name) as [[b f] |].
    + inversion H; subst. simpl. f_equal. apply IH. reflexivity.
    + destruct (Ascii.eqb c "."); inversion H; subst. reflexivity.
  Qed.

Lemma suffix_stem (name : string) :
  suffix name <> "" -> name = stem name ++ suffix name.
Proof.
  unfold suffix, stem, has_suffix_split.
  destruct (rsplit_dot name) as [[b f] |] eqn:E; [| congruence].
  destruct ((0 <? String.length b) && (1 <? String.length f))%nat;
    [| congruence].
  intros _. apply rsplit_dot_app, E.
Qed.

(** ** The title extractor *)

Lemma first_heading_skip (pre : list string) (rest : list line_result) :
  (forall p, In p pre -> startswith_hash (strip p) = false) ->
  first_heading (map Line pre ++ rest)%list = first_heading rest.
Proof.
  induction pre as [| p pre IH]; simpl; intros H; [reflexivity |].
  rewrite (H p) by (left; reflexivity).
  apply IH. intros q Hq. apply H. right. exact Hq.
Qed.

Lemma extract_title_at_heading (name : string) (pre : list string)
  (text : string) (rest : list line_result) :
  (forall p, In p pre -> startswith_hash (strip p) = false) ->
  startswith_hash (strip text) = true ->
  extract_title_from_md name (map Line pre ++ Line text :: rest)%list =
    Ok (strip (drop_while is_hash (strip text))).
Proof.
  intros Hpre Hhead.
  unfold extract_title_from_md.
  rewrite first_heading_skip by exact Hpre.
  simpl. rewrite Hhead. simpl.
  unfold re_sub_heading_prefix. rewrite Hhead.
  rewrite strip_lstrip. reflexivity.
Qed.

(** C2. The title is the content of the first line whose trimmed form
    begins with ['#'], with the leading run of ['#'] and the surrounding
    whitespace stripped; a file without such a line gets the base name of
    the file with its extension removed. *)
Theorem extract_title_first_heading_or_stem
  (name : string) (pre : list string) (text : string)
  (rest : list line_result)
  (Hpre : forall p, In p pre -> startswith_hash (strip p) = false) :
  (startswith_hash (strip text) = true ->
   extract_title_from_md name (map Line pre ++ Line text :: rest)%list =
     Ok (strip (drop_while is_hash (strip text))))
  /\ extract_title_from_md name (map Line pre) = Ok (stem name)
  /\ (suffix name = ".md" -> name = stem name ++ ".md").
Proof.
  split; [| split].
  - intros Hhead. apply extract_title_at_heading; assumption.
  - unfold extract_title_from_md.
    rewrite <- (app_nil_r (map Line pre)).
    rewrite first_heading_skip by exact Hpre.
    reflexivity.
  - intros Hsuf.
    rewrite <- Hsuf. apply suffix_stem. rewrite Hsuf. discriminate.
Qed.

Lemma extract_title_first_heading_or_stem_witness :
  extract_title_from_md "notes.md"
    [Line ""; Line "intro"; Line "  ## Hello World  "; Line "# Later"] =
    Ok "Hello World"
  /\ extract_title_from_md "notes.md" [Line ""; Line "intro"] = Ok "notes".
Proof.
  assert (Hpre : forall p, In p [""; "intro"] ->
                           startswith_hash (strip p) = false).
  { intros p [<- | [<- | []]]; reflexivity. }
  destruct (@extract_title_first_heading_or_stem "notes.md" [""; "intro"]
              "  ## Hello World  " [Line "# Later"] Hpre) as [H1 [H2 _]].
  split.
  - exact (H1 eq_refl).
  - exact H2.
Defined.

(** ** The anchor *)

Lemma isspace_lower_char (c : ascii) : isspace (lower_char c) = isspace c.
Proof.
  destruct c as [[] [] [] [] [] [] [] []]; reflexivity.
Qed.

Lemma re_sub_spaces_dash_in_run (text : string) :
  re_sub_spaces_dash_from true text =
    re_sub_spaces_dash_from false (drop_while isspace text).
Proof.
  induction text as [| c text IH]; simpl; [reflexivity |].
  destruct (isspace c) eqn:E; [exact IH |].
  simpl. rewrite E. reflexivity.
Qed.

Lemma lower_drop_while_isspace (text : string) :
  lower (drop_while isspace text) = drop_while isspace (lower text).
Proof.
  induction text as [| c text IH]; simpl; [reflexivity |].
  rewrite isspace_lower_char.
  destruct (isspace c); [exact IH | reflexivity].
Qed.

(** C7. The anchor of a topic is its name with every run of whitespace
    collapsed to one ['-'] and every other character lower-cased and
    otherwise kept (punctuation included); the Categories section links
    every topic to exactly this anchor. *)
Theorem make_anchor_collapse_lower :
  make_anchor "" = ""
  /\ (forall c rest, isspace c = true ->
        make_anchor (String c rest) =
          String "-" (make_anchor (drop_while isspace rest)))
  /\ (forall c rest, isspace c = false ->
        make_anchor (String c rest) =
          String (lower_char c) (make_anchor rest))
  /\ (forall all_topics_data,
        categories_lines all_topics_data =
          map (fun topic_name =>
                 "- [" ++ topic_name ++ "](#" ++ make_anchor topic_name ++ ")")
              (sorted_by lower (dict_keys all_topics_data)))
  /\ (forall linesep all_topics_data text,
        generate_readme linesep all_topics_data = Ok text ->
        exists articles,
          text = preamble ++ "## Categories" ++ nl ++
                 join linesep (categories_lines all_topics_data) ++ nl ++ nl ++
                 "## Articles" ++ nl ++ join linesep articles ++ nl)
  /\ make_anchor "Advanced  Topics" = "advanced-topics"
  /\ make_anchor "C++ & Rust!" = "c++-&-rust!".
Proof.
  repeat split; try reflexivity.
  - intros c rest Hc.
    unfold make_anchor, re_sub_spaces_dash. simpl.
    rewrite isspace_lower_char, Hc.
    rewrite re_sub_spaces_dash_in_run, lower_drop_while_isspace.
    reflexivity.
  - intros c rest Hc.
    unfold make_anchor, re_sub_spaces_dash. simpl.
    rewrite isspace_lower_char, Hc. reflexivity.
  - intros linesep all_topics_data text H.
    unfold generate_readme in H.
    destruct (articles_lines all_topics_data) as [articles | e]; simpl in H;
      [| discriminate].
    exists articles. inversion H. reflexivity.
Qed.

Lemma make_anchor_collapse_lower_witness :
  make_anchor (String " " (String " " "Go")) = String "-" (make_anchor "Go")
  /\ make_anchor "Go" = String "g" (make_anchor "o").
Proof.
  destruct make_anchor_collapse_lower as [_ [Hrun [Hchar _]]].
  split.
  - exact (Hrun " "%char (String " " "Go") eq_refl).
  - exact (Hchar "G"%char "o" eq_refl).
Defined.

(** ** A heading line made of markers only *)

(** C10, as stated, fails: the line ["# #"] consists of heading markers and
    whitespace only, its trimmed form begins with a marker, and the title
    extracted is ["#"], not the empty string. *)
Lemma marker_only_line_counterexample :
  only_markers_and_space "# #" = true
  /\ startswith_hash (strip "# #") = true
  /\ extract_title_from_md "x.md" [Line "# #"] = Ok "#"
  /\ extract_title_from_md "x.md" [Line "# #"] <> Ok "".
Proof.
  repeat split; try reflexivity.
  discriminate.
Qed.

Lemma append_assoc (a b c : string) : (a ++ b) ++ c = a ++ (b ++ c).
Proof.
  induction a as [| x a IH]; simpl; [reflexivity | rewrite IH; reflexivity].
Qed.

(** C10, amended. When the first heading line, once trimmed, is a single
    run of heading markers (for example a line that is exactly ["#"]), the
    title is the empty string and not the base name of the file, and the
    link rendered for the document has an empty label. *)
Theorem marker_run_line_gives_empty_title
  (name : string) (pre : list string) (text : string)
  (rest : list line_result)
  (Hpre : forall p, In p pre -> startswith_hash (strip p) = false)
  (Hhead : startswith_hash (strip text) = true)
  (Hrun : drop_while is_hash (strip text) = "") :
  let lines := (map Line pre ++ Line text :: rest)%list in
  extract_title_from_md name lines = Ok ""
  /\ (suffix name = ".md" -> mem name IGNORE_FILES = false ->
      forall rel level,
        (tree <- build_directory_tree rel
                   (Directory (Some [(name, RegularFile lines)])) ;;
         render_subtree tree level rel) =
          Ok ("- [](" ++ rel ++ "/" ++ name ++ ")" ++ nl)).
Proof.
  intros lines.
  assert (Htitle : extract_title_from_md name lines = Ok "").
  { unfold lines.
    rewrite (@extract_title_at_heading name pre text rest Hpre Hhead), Hrun.
    reflexivity. }
  split; [exact Htitle |].
  intros Hsuf Hmem rel level.
  simpl. unfold build_step. simpl.
  simpl in Hmem. rewrite Hsuf, Hmem. simpl.
  rewrite Htitle. simpl.
  rewrite !append_assoc. reflexivity.
Qed.

Lemma marker_run_line_gives_empty_title_witness :
  extract_title_from_md "x.md" [Line "intro"; Line " ## "; Line "# T"] = Ok ""
  /\ (tree <- build_directory_tree "go"
                (Directory (Some [("x.md", RegularFile
                   [Line "intro"; Line " ## "; Line "# T"])])) ;;
      render_subtree tree 4 "go") = Ok ("- [](go/x.md)" ++ nl).
Proof.
  assert (Hpre : forall p, In p ["intro"] ->
                           startswith_hash (strip p) = false).
  { intros p [<- | []]; reflexivity. }
  destruct (@marker_run_line_gives_empty_title "x.md" ["intro"] " ## "
              [Line "# T"] Hpre eq_refl eq_refl) as [H1 H2].
  split.
  - exact H1.
  - exact (H2 eq_refl eq_refl "go" 4).
Defined.

(** ** Dicts *)

Section DictFacts.
Variable V : Type.

Lemma dict_get_set_same (k : string) (v : V) (d : list (string * V)) :
  dict_get k (dict_set k v d) = Some v.
Proof.
  induction d as [| [k' v'] d IH]; simpl.
  - rewrite String.eqb_refl. reflexivity.
  - destruct (String.eqb k k') eqn:E; simpl.
    + rewrite String.eqb_refl. reflexivity.
    + rewrite E. exact IH.
Qed.

Lemma dict_get_set_other (k k0 : string) (v : V) (d : list (string * V)) :
  k0 <> k -> dict_get k0 (dict_set k v d) = dict_get k0 d.
Proof.
  intros Hne.
  induction d as [| [k' v'] d IH]; simpl.
  - apply String.eqb_neq in Hne. rewrite Hne. reflexivity.
  - destruct (String.eqb k k') eqn:E; simpl.
    + apply String.eqb_eq in E. subst k'.
      apply String.eqb_neq in Hne. rewrite Hne. reflexivity.
    + rewrite IH. reflexivity.
Qed.

Lemma dict_set_In (k k0 : string) (v v0 : V) (d : list (string * V)) :
  In (k0, v0) (dict_set k v d) -> (k0, v0) = (k, v) \/ In (k0, v0) d.
Proof.
  induction d as [| [k' v'] d IH]; simpl.
  - intros [H | []]. left. symmetry. exact H.
  - destruct (String.eqb k k'); simpl.
    + intros [H | H]; [left; symmetry; exact H | right; right; exact H].
    + intros [H | H]; [right; left; exact H |].
      destruct (IH H) as [H' | H']; [left; exact H' | right; right; exact H'].
Qed.

Lemma dict_get_In (k : string) (v : V) (d : list (string * V)) :
  dict_get k d = Some v -> In (k, v) d.
Proof.
  induction d as [| [k' v'] d IH]; simpl; [discriminate |].
  destruct (String.eqb k k') eqn:E.
  - apply String.eqb_eq in E. subst k'.
    intros H. inversion H. left. reflexivity.
  - intros H. right. apply IH, H.
Qed.

Lemma dict_get_key_In (k : string) (d : list (string * V)) :
  In k (dict_keys d) -> exists v, dict_get k d = Some v.
Proof.
  induction d as [| [k' v'] d IH]; simpl; [intros [] |].
  destruct (String.eqb k k') eqn:E.
  - intros _. exists v'. reflexivity.
  - intros [H | H].
    + subst k'. rewrite String.eqb_refl in E. discriminate.
    + apply IH, H.
Qed.

End DictFacts.

Lemma dict_get_map_values (A B : Type) (f : string -> A -> B) (k : string)
  (d : list (string * A)) :
  dict_get k (map (fun kv => (fst kv, f (fst kv) (snd kv))) d) =
    option_map (f k) (dict_get k d).
Proof.
  induction d as [| [k' v'] d IH]; simpl; [reflexivity |].
  destruct (String.eqb k k') eqn:E.
  - apply String.eqb_eq in E. subst k'. reflexivity.
  - exact IH.
Qed.

(** ** The renderer *)

Lemma mapM_ext (A B : Type) (f g : A -> result B) (l : list A) :
  (forall x, In x l -> f x = g x) -> mapM f l = mapM g l.
Proof.
  induction l as [| x l IH]; simpl; intros H; [reflexivity |].
  rewrite (H x) by (left; reflexivity).
  rewrite IH by (intros y Hy; apply H; right; exact Hy).
  reflexivity.
Qed.

Lemma mapM_ok_split (A B : Type) (f : A -> result B) (l : list A)
  (ys : list B) (x : A) :
  mapM f l = Ok ys -> In x l ->
  exists before y after,
    f x = Ok y /\ ys = (before ++ y :: after)%list.
Proof.
  revert ys.
  induction l as [| a l IH]; simpl; intros ys H Hin; [destruct Hin |].
  destruct (f a) as [y |] eqn:Ea; simpl in H; [| discriminate].
  destruct (mapM f l) as [ys' |] eqn:El; simpl in H; [| discriminate].
  inversion H; subst ys.
  destruct Hin as [-> | Hin].
  - exists [], y, ys'. split; [exact Ea | reflexivity].
  - destruct (IH ys' eq_refl Hin) as [before [y' [after [Hy Hs]]]].
    exists (y :: before), y', after. split; [exact Hy |].
    rewrite Hs. reflexivity.
Qed.

Lemma render_files_tuples (docs : list (string * string))
  (lines : list string) :
  render_files (map (fun x => Ok x) docs) lines =
    Ok (lines ++ map (fun d => link_line (fst d) (snd d)) docs)%list.
Proof.
  revert lines.
  induction docs as [| d docs IH]; intros lines; simpl.
  - rewrite app_nil_r. reflexivity.
  - rewrite IH, <- app_assoc. reflexivity.
Qed.

Lemma render_subdirs_blocks (heading_level : nat)
  (rendered : list (string * result string)) (subdirs : list string)
  (lines : list string) :
  render_subdirs heading_level rendered subdirs lines =
    (blocks <- mapM (fun subdir =>
                       match dict_get subdir rendered with
                       | None => Raise KeyError
                       | Some call =>
                           body <- call ;;
                           Ok (section_block heading_level subdir body)
                       end) subdirs ;;
     Ok (lines ++ List.concat blocks)%list).
Proof.
  revert lines.
  induction subdirs as [| subdir rest IH]; intros lines; simpl.
  - rewrite app_nil_r. reflexivity.
  - destruct (dict_get subdir rendered) as [[body | e] |]; simpl;
      try reflexivity.
    rewrite IH.
    destruct (mapM _ rest) as [blocks | e]; simpl; [| reflexivity].
    rewrite <- app_assoc. reflexivity.
Qed.

Lemma dict_get_rendered (items : pydict) (heading_level : nat)
  (parent_path subdir : string) :
  dict_get subdir
    (map (fun kv : string * pyval =>
            let (subdir, subtree) := kv in
            (subdir,
             render_subtree subtree (heading_level + 1)
               (parent_path ++ "/" ++ subdir)))
       items) =
    option_map
      (fun subtree =>
         render_subtree subtree (heading_level + 1)
           (parent_path ++ "/" ++ subdir))
      (dict_get subdir items).
Proof.
  induction items as [| [k v] items IH]; [reflexivity |].
  cbn [map dict_get].
  destruct (String.eqb subdir k) eqn:E.
  - apply String.eqb_eq in E. subst k. reflexivity.
  - exact IH.
Qed.

Lemma render_subtree_unfold (items : pydict) (heading_level : nat)
  (parent_path : string) :
  render_subtree (PyDict items) heading_level parent_path =
    (lines <- render_documents items ;;
     blocks <- mapM (render_child items heading_level parent_path)
                 (subdirs_of items) ;;
     Ok (join nl (lines ++ List.concat blocks)%list)).
Proof.
  change (render_subtree (PyDict items) heading_level parent_path)
    with (lines <- render_documents items ;;
          lines <- render_subdirs heading_level
                     (map (fun kv : string * pyval =>
                             let (subdir, subtree) := kv in
                             (subdir,
                              render_subtree subtree (heading_level + 1)
                                (parent_path ++ "/" ++ subdir)))
                        items)
                     (subdirs_of items) lines ;;
          Ok (join nl lines)).
  destruct (render_documents items) as [lines | e]; simpl; [| reflexivity].
  rewrite render_subdirs_blocks.
  rewrite (mapM_ext _ (render_child items heading_level parent_path)).
  - destruct (mapM _ (subdirs_of items)); reflexivity.
  - intros subdir _. unfold render_child.
    rewrite dict_get_rendered.
    destruct (dict_get subdir items); reflexivity.
Qed.

Lemma mapM_ok_map (A B : Type) (f : A -> result B) (g : A -> B)
  (l : list A) :
  (forall x, In x l -> f x = Ok (g x)) -> mapM f l = Ok (map g l).
Proof.
  induction l as [| x l IH]; simpl; intros H; [reflexivity |].
  rewrite (H x) by (left; reflexivity). simpl.
  rewrite IH by (intros y Hy; apply H; right; exact Hy).
  reflexivity.
Qed.

Lemma subdirs_of_In (items : pydict) (subdir : string) :
  In subdir (subdirs_of items) <->
  In subdir (dict_keys items) /\ subdir <> FILES_KEY.
Proof.
  unfold subdirs_of.
  rewrite sorted_by_In, filter_In.
  rewrite negb_true_iff, String.eqb_neq. reflexivity.
Qed.

Lemma render_documents_list (items : pydict) (docs : list (string * string)) :
  dict_get FILES_KEY items = Some (PyList docs) ->
  render_documents items =
    Ok (map (fun d => link_line (fst d) (snd d)) docs
        ++ match docs with [] => [] | _ => [""] end)%list.
Proof.
  intros H. unfold render_documents. rewrite H.
  destruct docs as [| d docs]; [reflexivity |].
  cbn [truthy iter_unpack].
  rewrite render_files_tuples. reflexivity.
Qed.

Lemma node_lines_unfold (items : pydict) (headingLevel : nat) :
  node_lines (PyDict items) headingLevel =
    (map (fun d => link_line (fst d) (snd d)) (documents_of items)
     ++ (match documents_of items with [] => [] | _ => [""] end)
     ++ flat_map
          (fun child =>
             section_block headingLevel child
               (match dict_get child
                        (map (fun kv : string * pyval =>
                                (fst kv,
                                 join nl (node_lines (snd kv)
                                            (headingLevel + 1))))
                           items) with
                | Some text => text
                | None => ""
                end))
          (subdirs_of items))%list.
Proof. reflexivity. Qed.

Lemma lines_text_join (lines : list string) :
  lines_text lines = join nl lines.
Proof.
  induction lines as [| line rest IH]; [reflexivity |].
  destruct rest as [| next rest]; [reflexivity |].
  change (lines_text (line :: next :: rest))
    with (line ++ String "010" (lines_text (next :: rest))).
  rewrite IH. reflexivity.
Qed.

Lemma markers_repeat (n : nat) : markers n = str_repeat "#" n.
Proof.
  induction n as [| n IH]; [reflexivity |].
  cbn [markers str_repeat]. rewrite IH. reflexivity.
Qed.

Lemma layout_lines_unfold (items : pydict) (headingLevel : nat) :
  layout_lines (PyDict items) headingLevel =
    (map (fun d => ("- [" ++ fst d ++ "](" ++ snd d ++ ")")%string)
       (documents_of items)
     ++ (match documents_of items with [] => [] | _ => [""] end)
     ++ flat_map
          (fun child =>
             [(markers headingLevel ++ " " ++ child)%string;
              "";
              match dict_get child
                      (map (fun kv : string * pyval =>
                              (fst kv,
                               lines_text (layout_lines (snd kv)
                                             (headingLevel + 1))))
                         items) with
              | Some text => text
              | None => ""
              end;
              ""])
          (subdirs_of items))%list.
Proof. reflexivity. Qed.

Lemma layout_lines_node_lines (node : pyval) :
  forall headingLevel,
    layout_lines node headingLevel = node_lines node headingLevel.
Proof.
  induction node as [elems | items IH] using pyval_induction;
    intros headingLevel; [reflexivity |].
  rewrite layout_lines_unfold, node_lines_unfold.
  f_equal. f_equal.
  assert (Htexts :
            map (fun kv : string * pyval =>
                   (fst kv,
                    lines_text (layout_lines (snd kv) (headingLevel + 1))))
              items =
            map (fun kv : string * pyval =>
                   (fst kv, join nl (node_lines (snd kv) (headingLevel + 1))))
              items).
  { apply map_ext_in. intros kv Hkv. rewrite Forall_forall in IH.
    rewrite (IH kv Hkv), lines_text_join. reflexivity. }
  rewrite Htexts. apply flat_map_ext. intros child.
  unfold section_block, heading_line. rewrite markers_repeat. reflexivity.
Qed.

Lemma render_subtree_node_lines (node : pyval) :
  forall (headingLevel : nat) (pathPrefix : string),
    is_node node = true ->
    render_subtree node headingLevel pathPrefix =
      Ok (join nl (node_lines node headingLevel)).
Proof.
  induction node as [elems | items IH] using pyval_induction;
    intros headingLevel pathPrefix Hnode.
  - discriminate.
  - cbn [is_node] in Hnode.
    apply andb_true_iff in Hnode. destruct Hnode as [Hfiles Hkids].
    destruct (dict_get FILES_KEY items) as [[docs | ?] |] eqn:Eget;
      try discriminate.
    rewrite forallb_forall in Hkids. rewrite Forall_forall in IH.
    rewrite render_subtree_unfold, node_lines_unfold.
    rewrite (render_documents_list _ Eget). cbn [bind].
    unfold documents_of. rewrite Eget.
    rewrite (mapM_ok_map _
               (fun child =>
                  section_block headingLevel child
                    (match dict_get child
                             (map (fun kv : string * pyval =>
                                     (fst kv,
                                      join nl (node_lines (snd kv)
                                                 (headingLevel + 1))))
                                items) with
                     | Some text => text
                     | None => ""
                     end))).
    + cbn [bind]. rewrite flat_map_concat_map, app_assoc. reflexivity.
    + intros child Hchild.
      apply subdirs_of_In in Hchild. destruct Hchild as [Hkey Hne].
      destruct (dict_get_key_In _ _ Hkey) as [subtree Hsub].
      unfold render_child. rewrite Hsub.
      rewrite (dict_get_map_values
                 (fun _ v => join nl (node_lines v (headingLevel + 1)))).
      rewrite Hsub. cbn [option_map].
      pose proof (dict_get_In _ _ Hsub) as Hin.
      specialize (Hkids _ Hin). cbn [fst snd] in Hkids.
      apply orb_true_iff in Hkids. destruct Hkids as [Heq | Hsubnode].
      * apply String.eqb_eq in Heq. contradiction.
      * specialize (IH _ Hin (headingLevel + 1)
                      (pathPrefix ++ "/" ++ child) Hsubnode).
        cbn [snd] in IH. rewrite IH. reflexivity.
Qed.


(** C1. For every DirectoryNode and every heading level the renderer puts
    out, in this order, a link line per document (["- [title](path)"]), one
    blank line if and only if there was a document, then for each child
    directory, each once, a heading line with as many ['#'] as the level,
    a space and the name of the child, a blank line, the render of the child
    one level down, and a blank line, the children in the order of their
    names without regard to case; the lines stand one below the other,
    a line feed between two. *)
Theorem render_subtree_layout (node : pyval) :
  forall (headingLevel : nat) (pathPrefix : string),
    is_node node = true ->
    render_subtree node headingLevel pathPrefix =
      Ok (lines_text (layout_lines node headingLevel))
    /\ render_subtree node headingLevel pathPrefix =
         Ok (join nl (node_lines node headingLevel))
    /\ (forall items, node = PyDict items ->
          Permutation (child_names items) (subdirs_of items)
          /\ StronglySorted ci_le (subdirs_of items)).
Proof.
  intros headingLevel pathPrefix Hnode.
  split; [| split].
  - rewrite layout_lines_node_lines, lines_text_join.
    apply render_subtree_node_lines, Hnode.
  - apply render_subtree_node_lines, Hnode.
  - intros items _. split.
    + apply (sorted_by_perm lower).
    + apply (sorted_by_strongly_sorted lower).
Qed.

Lemma render_subtree_layout_witness :
  render_subtree
    (PyDict [("__files__", PyList [("Goroutines", "go/intro.md")]);
             ("Basics", PyDict [("__files__", PyList [])]);
             ("advanced",
              PyDict [("__files__",
                       PyList [("channels", "go/advanced/channels.md")])])])
    4 "go" =
    Ok "- [Goroutines](go/intro.md)

#### advanced

- [channels](go/advanced/channels.md)


#### Basics


".
Proof.
  exact (proj1 (@render_subtree_layout
                  (PyDict [("__files__",
                            PyList [("Goroutines", "go/intro.md")]);
                           ("Basics", PyDict [("__files__", PyList [])]);
                           ("advanced",
                            PyDict [("__files__",
                                     PyList [("channels",
                                              "go/advanced/channels.md")])])])
                  4 "go" eq_refl)).
Defined.

(** ** The builder *)

Lemma build_directory_tree_unfold (rel : string)
  (listing : list (string * fsnode)) :
  build_directory_tree rel (Directory (Some listing)) =
    (tree <- build_loop rel (sorted_by item_key (map (attach rel) listing))
               [(FILES_KEY, PyList [])] ;;
     Ok (PyDict tree)).
Proof. reflexivity. Qed.

Lemma attach_name (rel : string) (entry : string * fsnode) :
  item_name (attach rel entry) = fst entry.
Proof. destruct entry; reflexivity. Qed.

Lemma attach_node (rel : string) (entry : string * fsnode) :
  item_node (attach rel entry) = snd entry.
Proof. destruct entry; reflexivity. Qed.

Lemma attach_tree (rel : string) (entry : string * fsnode) :
  item_tree (attach rel entry) =
    build_directory_tree (rel ++ "/" ++ fst entry) (snd entry).
Proof. destruct entry; reflexivity. Qed.

Lemma build_step_kind (rel : string) (tree : pydict) (item : dir_item) :
  step_kind rel tree item (build_step rel tree item).
Proof.
  unfold build_step.
  destruct (is_dir (item_node item)) eqn:Edir.
  - destruct (mem (item_name item) IGNORE_DIRS) eqn:Eign.
    + apply step_ignored_dir; assumption.
    + apply step_subdir; assumption.
  - destruct (String.eqb (suffix (item_name item)) ".md"
              && negb (mem (item_name item) IGNORE_FILES)) eqn:Edoc.
    + destruct (item_node item) as [lines | listing] eqn:Enode;
        [| discriminate].
      apply step_document with (lines := lines); [exact Enode |].
      unfold item_is_document, is_document. rewrite Enode.
      cbn [is_dir negb andb]. exact Edoc.
    + apply step_other_file; [exact Edir |].
      unfold item_is_document, is_document. rewrite Edir.
      cbn [negb andb]. exact Edoc.
Qed.

Lemma list_append_ok (key : string) (x : string * string)
  (tree tree' : pydict) :
  list_append key x tree = Ok tree' ->
  exists elems,
    dict_get key tree = Some (PyList elems)
    /\ tree' = dict_set key (PyList (elems ++ [x])%list) tree.
Proof.
  unfold list_append.
  destruct (dict_get key tree) as [[elems | d] |]; try discriminate.
  intros H. inversion H. exists elems. split; reflexivity.
Qed.

Lemma build_directory_tree_built (rel : string) (node : fsnode)
  (tree : pyval) :
  build_directory_tree rel node = Ok tree -> built tree.
Proof.
  destruct node as [lines | [listing |]]; try discriminate.
  rewrite build_directory_tree_unfold.
  generalize (sorted_by item_key (map (attach rel) listing)).
  intros items.
  assert (Hloop : forall tree0 tree1,
             (exists files rest, tree0 = (FILES_KEY, files) :: rest) ->
             build_loop rel items tree0 = Ok tree1 ->
             exists files rest, tree1 = (FILES_KEY, files) :: rest).
  { induction items as [| item items IH]; intros tree0 tree1 H0 H.
    - inversion H; subst. exact H0.
    - cbn [build_loop] in H.
      destruct (build_step rel tree0 item) as [tree0' |] eqn:Estep;
        [| discriminate].
      cbn [bind] in H. apply (IH tree0' tree1); [| exact H].
      destruct H0 as [files [rest ->]].
      destruct (build_step_kind rel ((FILES_KEY, files) :: rest) item)
        as [_ _ | _ _ | lines _ _ | _ _].
      + inversion Estep; subst. eauto.
      + destruct (item_tree item) as [subtree |]; [| discriminate].
        inversion Estep; subst. cbn [dict_set].
        destruct (String.eqb (item_name item) FILES_KEY) eqn:E.
        * apply String.eqb_eq in E. rewrite E. eauto.
        * eauto.
      + destruct (extract_title_from_md (item_name item) lines);
          [| discriminate].
        cbn [bind] in Estep.
        apply list_append_ok in Estep. destruct Estep as [elems [_ ->]].
        cbn [dict_set]. rewrite String.eqb_refl. eauto.
      + inversion Estep; subst. eauto. }
  intros H.
  destruct (build_loop rel items [(FILES_KEY, PyList [])]) as [tree1 |] eqn:E;
    [| discriminate].
  inversion H; subst.
  destruct (Hloop _ _ (ex_intro _ _ (ex_intro _ _ eq_refl)) E)
    as [files [rest ->]].
  exists files, rest. reflexivity.
Qed.

Lemma build_step_ok (rel : string) (tree : pydict) (item : dir_item)
  (tree' : pydict) :
  build_step rel tree item = Ok tree' -> step_ok rel tree item tree'.
Proof.
  intros H.
  destruct (build_step_kind rel tree item)
    as [Hdir Hign | Hdir Hign | lines Hnode Hdoc | Hdir Hdoc].
  - inversion H; subst. apply step_ok_skip; [| | reflexivity].
    + unfold item_is_document, is_document. rewrite Hdir. reflexivity.
    + unfold is_subdir. rewrite Hdir, Hign. reflexivity.
  - destruct (item_tree item) as [subtree |] eqn:Etree; [| discriminate].
    inversion H; subst.
    apply step_ok_subdir with (subtree := subtree);
      [| exact Etree | reflexivity].
    unfold is_subdir. rewrite Hdir, Hign. reflexivity.
  - destruct (extract_title_from_md (item_name item) lines) as [title |]
      eqn:Etitle; [| discriminate].
    cbn [bind] in H. apply list_append_ok in H.
    destruct H as [elems [Hget ->]].
    apply step_ok_document with (lines := lines) (title := title)
                                (elems := elems); auto.
  - inversion H; subst. apply step_ok_skip; [exact Hdoc | | reflexivity].
    unfold is_subdir. rewrite Hdir. reflexivity.
Qed.

(** The invariant rule of the loop. *)
Lemma build_loop_invariant (rel : string)
  (P : dir_item -> Prop) (I : list dir_item -> pydict -> Prop) :
  (forall done item tree tree',
      P item -> I done tree -> step_ok rel tree item tree' ->
      I (done ++ [item])%list tree') ->
  forall items done tree tree',
    Forall P items -> I done tree ->
    build_loop rel items tree = Ok tree' ->
    I (done ++ items)%list tree'.
Proof.
  intros Hstep.
  induction items as [| item items IH]; intros done tree tree' HP HI H.
  - inversion H; subst. rewrite app_nil_r. exact HI.
  - cbn [build_loop] in H.
    destruct (build_step rel tree item) as [tree1 |] eqn:E; [| discriminate].
    cbn [bind] in H.
    inversion HP as [| ? ? HPitem HPrest]; subst.
    replace (done ++ item :: items)%list
      with ((done ++ [item]) ++ items)%list
      by (rewrite <- app_assoc; reflexivity).
    apply IH with (tree := tree1); [exact HPrest | | exact H].
    apply Hstep with (tree := tree); [exact HPitem | exact HI |].
    apply build_step_ok, E.
Qed.

(** Every value under a name other than the reserved key was built from
    the sub-directory of that name. *)
Lemma build_loop_children (rel : string) (Q : string -> pyval -> Prop)
  (items : list dir_item) (tree tree' : pydict) :
  Forall (fun item =>
            is_subdir (item_name item) (item_node item) = true ->
            forall t, item_tree item = Ok t -> Q (item_name item) t) items ->
  (forall k v, In (k, v) tree -> k <> FILES_KEY -> Q k v) ->
  build_loop rel items tree = Ok tree' ->
  forall k v, In (k, v) tree' -> k <> FILES_KEY -> Q k v.
Proof.
  intros HP HI H.
  apply (@build_loop_invariant rel
           (fun item =>
              is_subdir (item_name item) (item_node item) = true ->
              forall t, item_tree item = Ok t -> Q (item_name item) t)
           (fun _ tr => forall k v, In (k, v) tr -> k <> FILES_KEY -> Q k v))
    with (items := items) (done := []) (tree := tree); try assumption.
  clear. intros _ item tree tree' HP HI Hstep k v Hin Hne.
  destruct Hstep as [_ _ -> | subtree Hsub Htree ->
                    | lines title elems _ _ _ _ ->].
  - apply HI; assumption.
  - apply dict_set_In in Hin. destruct Hin as [Heq | Hin].
    + inversion Heq; subst. apply HP; assumption.
    + apply HI; assumption.
  - apply dict_set_In in Hin. destruct Hin as [Heq | Hin].
    + inversion Heq; subst. contradiction.
    + apply HI; assumption.
Qed.

(** While the reserved key holds a list, the list is that of the documents
    met so far, in the order of the loop. *)
Lemma build_loop_documents (rel : string) (items : list dir_item)
  (tree' : pydict) (docs : list (string * string)) :
  Forall (fun item => forall t, item_tree item = Ok t -> built t) items ->
  build_loop rel items [(FILES_KEY, PyList [])] = Ok tree' ->
  dict_get FILES_KEY tree' = Some (PyList docs) ->
  map snd docs =
    map (fun item => rel ++ "/" ++ item_name item)
      (filter item_is_document items).
Proof.
  intros HP H.
  revert docs.
  apply (@build_loop_invariant rel
           (fun item => forall t, item_tree item = Ok t -> built t)
           (fun done tr =>
              forall docs, dict_get FILES_KEY tr = Some (PyList docs) ->
                map snd docs =
                  map (fun item => rel ++ "/" ++ item_name item)
                    (filter item_is_document done)))
    with (items := items) (done := []) (tree := [(FILES_KEY, PyList [])]);
    try assumption.
  - clear. intros done item tree tree' HP HI Hstep docs Hget.
    rewrite filter_app, map_app. cbn [filter].
    destruct Hstep as [Hdoc _ -> | subtree Hsub Htree ->
                      | lines title elems _ Hdoc _ Hold ->].
    + rewrite Hdoc. cbn [map]. rewrite app_nil_r. apply HI, Hget.
    + destruct (String.eqb FILES_KEY (item_name item)) eqn:E.
      * apply String.eqb_eq in E. rewrite <- E in Hget.
        rewrite dict_get_set_same in Hget.
        destruct (HP _ Htree) as [files [rest ->]]. discriminate.
      * apply String.eqb_neq in E.
        rewrite dict_get_set_other in Hget by exact E.
        assert (Hnd : item_is_document item = false).
        { unfold item_is_document, is_document.
          unfold is_subdir in Hsub.
          destruct (is_dir (item_node item)); [reflexivity | discriminate]. }
        rewrite Hnd. cbn [map]. rewrite app_nil_r. apply HI, Hget.
    + rewrite dict_get_set_same in Hget. inversion Hget; subst docs.
      rewrite Hdoc, map_app. cbn [map snd].
      rewrite (HI _ Hold). reflexivity.
  - intros docs Hget. cbv in Hget. inversion Hget. reflexivity.
Qed.

(** ** Order of documents and of sections *)

Lemma attached_items_forall (rel : string) (listing : list (string * fsnode))
  (P : dir_item -> Prop) :
  (forall entry, In entry listing -> P (attach rel entry)) ->
  Forall P (sorted_by item_key (map (attach rel) listing)).
Proof.
  intros H. apply Forall_forall. intros item Hin.
  apply sorted_by_In in Hin. apply in_map_iff in Hin.
  destruct Hin as [entry [<- Hentry]]. apply H, Hentry.
Qed.

Lemma attached_items_built (rel : string) (listing : list (string * fsnode)) :
  Forall (fun item => forall t, item_tree item = Ok t -> built t)
    (sorted_by item_key (map (attach rel) listing)).
Proof.
  apply attached_items_forall. intros entry _ t Ht.
  rewrite attach_tree in Ht.
  eapply build_directory_tree_built, Ht.
Qed.

Lemma build_ordered (node : fsnode) :
  forall rel tree,
    build_directory_tree rel node = Ok tree -> ordered_at rel tree.
Proof.
  induction node as [lines | | listing IH] using fsnode_induction;
    intros rel tree H; try discriminate.
  rewrite build_directory_tree_unfold in H.
  destruct (build_loop rel _ _) as [items |] eqn:Eloop; [| discriminate].
  inversion H; subst tree. clear H.
  constructor.
  - intros docs Hdocs.
    exists (map item_name
              (filter item_is_document
                 (sorted_by item_key (map (attach rel) listing)))).
    split.
    + rewrite map_map.
      eapply build_loop_documents;
        [apply attached_items_built | exact Eloop | exact Hdocs].
    + apply strongly_sorted_map, strongly_sorted_filter.
      apply (sorted_by_strongly_sorted item_key).
  - apply (sorted_by_strongly_sorted lower).
  - apply (@build_loop_children rel
             (fun k v => ordered_at (rel ++ "/" ++ k) v)
             (sorted_by item_key (map (attach rel) listing))
             [(FILES_KEY, PyList [])] items).
    + apply attached_items_forall. intros entry Hentry _ t Ht.
      rewrite attach_tree in Ht. rewrite attach_name.
      rewrite Forall_forall in IH. apply (IH entry Hentry), Ht.
    + intros k v [Heq | []] Hne. inversion Heq; subst. contradiction.
    + exact Eloop.
Qed.

Lemma render_children_bodies (items : pydict) (heading_level : nat)
  (parent_path : string) (subdirs : list string)
  (blocks : list (list string)) :
  mapM (render_child items heading_level parent_path) subdirs = Ok blocks ->
  exists bodies,
    List.length bodies = List.length subdirs
    /\ blocks =
         map (fun kb => section_block heading_level (fst kb) (snd kb))
           (combine subdirs bodies).
Proof.
  revert blocks.
  induction subdirs as [| subdir rest IH]; intros blocks H; cbn [mapM] in H.
  - inversion H. exists []. split; reflexivity.
  - destruct (render_child items heading_level parent_path subdir)
      as [block |] eqn:Eblock; [| discriminate].
    cbn [bind] in H.
    destruct (mapM _ rest) as [blocks' |]; [| discriminate].
    inversion H; subst blocks. clear H.
    destruct (IH blocks' eq_refl) as [bodies [Hlen ->]].
    unfold render_child in Eblock.
    destruct (dict_get subdir items) as [subtree |]; [| discriminate].
    destruct (render_subtree subtree _ _) as [body |]; [| discriminate].
    inversion Eblock; subst block.
    exists (body :: bodies). split.
    + cbn [List.length]. rewrite Hlen. reflexivity.
    + reflexivity.
Qed.

Lemma render_subtree_shape (items : pydict) (docs : list (string * string))
  (heading_level : nat) (parent_path text : string) :
  dict_get FILES_KEY items = Some (PyList docs) ->
  render_subtree (PyDict items) heading_level parent_path = Ok text ->
  exists bodies,
    List.length bodies = List.length (subdirs_of items)
    /\ text =
         join nl
           (map (fun d => link_line (fst d) (snd d)) docs
            ++ match docs with [] => [] | _ => [""] end
            ++ List.concat
                 (map (fun kb => section_block heading_level (fst kb) (snd kb))
                    (combine (subdirs_of items) bodies)))%list.
Proof.
  intros Hdocs H.
  rewrite render_subtree_unfold, (render_documents_list _ Hdocs) in H.
  cbn [bind] in H.
  destruct (mapM _ (subdirs_of items)) as [blocks |] eqn:Eblocks;
    [| discriminate].
  destruct (render_children_bodies _ _ _ _ Eblocks) as [bodies [Hlen ->]].
  exists bodies. split; [exact Hlen |].
  inversion H. rewrite <- app_assoc. reflexivity.
Qed.

Lemma example_listing_sorted (file_a file_B : list line_result)
  (dir_Z dir_c : option (list (string * fsnode)))
  (listing : list (string * fsnode)) (rel : string) :
  Permutation listing (example_listing file_a file_B dir_Z dir_c) ->
  sorted_by item_key (map (attach rel) listing) =
    map (attach rel)
      [("a.md", RegularFile file_a); ("B.md", RegularFile file_B);
       ("c", Directory dir_c); ("Z", Directory dir_Z)].
Proof.
  intros Hperm.
  rewrite <- (@sorted_by_perm_unique _ item_key
                (map (attach rel)
                   (example_listing file_a file_B dir_Z dir_c))
                (map (attach rel) listing)).
  - reflexivity.
  - apply Permutation_map, Permutation_sym, Hperm.
  - rewrite map_map. cbn.
    repeat (constructor; [cbn; intuition discriminate |]).
    constructor.
Qed.

(** C3. At every directory of the tree the document links come in
    case-insensitive order of file name and the section headings in
    case-insensitive order of directory name; a directory holding [B.md],
    [a.md], [Z] and [c], however the system lists them, is rendered with the
    links to [a.md] then [B.md] and the headings [c] then [Z]. *)
Theorem index_order_case_insensitive :
  (forall node rel tree,
      build_directory_tree rel node = Ok tree -> ordered_at rel tree)
  /\ (forall items docs heading_level parent_path text,
         dict_get FILES_KEY items = Some (PyList docs) ->
         render_subtree (PyDict items) heading_level parent_path = Ok text ->
         exists bodies,
           List.length bodies = List.length (subdirs_of items)
           /\ text =
                join nl
                  (map (fun d => link_line (fst d) (snd d)) docs
                   ++ match docs with [] => [] | _ => [""] end
                   ++ List.concat
                        (map (fun kb =>
                                section_block heading_level (fst kb) (snd kb))
                           (combine (subdirs_of items) bodies)))%list)
  /\ (forall file_a file_B dir_Z dir_c listing rel tree,
         Permutation listing (example_listing file_a file_B dir_Z dir_c) ->
         build_directory_tree rel (Directory (Some listing)) = Ok tree ->
         exists title_a title_B tree_c tree_Z,
           tree =
             PyDict [(FILES_KEY,
                      PyList [(title_a, rel ++ "/a.md");
                              (title_B, rel ++ "/B.md")]);
                     ("c", tree_c); ("Z", tree_Z)]
           /\ forall heading_level text,
               render_subtree tree heading_level rel = Ok text ->
               exists body_c body_Z,
                 text =
                   join nl
                     [link_line title_a (rel ++ "/a.md");
                      link_line title_B (rel ++ "/B.md"); "";
                      heading_line heading_level "c"; ""; body_c; "";
                      heading_line heading_level "Z"; ""; body_Z; ""]).
Proof.
  split; [| split].
  - intros node. apply build_ordered.
  - intros items docs heading_level parent_path text.
    apply render_subtree_shape.
  - intros file_a file_B dir_Z dir_c listing rel tree Hperm H.
    rewrite build_directory_tree_unfold in H.
    rewrite (example_listing_sorted _ Hperm) in H.
    cbn [map attach build_loop] in H.
    remember (build_directory_tree _ (Directory dir_c)) as built_c.
    remember (build_directory_tree _ (Directory dir_Z)) as built_Z.
    remember (extract_title_from_md "a.md" file_a) as found_a.
    remember (extract_title_from_md "B.md" file_B) as found_B.
    unfold build_step in H. cbn in H.
    rewrite <- Heqfound_a, <- Heqfound_B in H.
    destruct found_a as [title_a |]; [| discriminate].
    destruct found_B as [title_B |]; [| discriminate].
    destruct built_c as [tree_c |]; [| discriminate].
    destruct built_Z as [tree_Z |]; [| discriminate].
    cbn in H. inversion H; subst tree. clear H.
    eexists _, _, tree_c, tree_Z. split; [reflexivity |].
    intros heading_level text Hrender.
    eapply render_subtree_shape in Hrender; [| reflexivity].
    destruct Hrender as [bodies [Hlen ->]].
    destruct bodies as [| body_c [| body_Z [| ? ?]]]; try discriminate.
    exists body_c, body_Z. reflexivity.
Qed.

Lemma index_order_case_insensitive_witness :
  ordered_at "t"
    (PyDict [(FILES_KEY, PyList [("Alpha", "t/a.md"); ("B", "t/B.md")]);
             ("c", PyDict [(FILES_KEY, PyList [])]);
             ("Z", PyDict [(FILES_KEY, PyList [])])])
  /\ exists title_a title_B tree_c tree_Z,
      PyDict [(FILES_KEY, PyList [("Alpha", "t/a.md"); ("B", "t/B.md")]);
              ("c", PyDict [(FILES_KEY, PyList [])]);
              ("Z", PyDict [(FILES_KEY, PyList [])])] =
        PyDict [(FILES_KEY,
                 PyList [(title_a, "t/a.md"); (title_B, "t/B.md")]);
                ("c", tree_c); ("Z", tree_Z)].
Proof.
  destruct index_order_case_insensitive as [Hordered [_ Hexample]].
  split.
  - exact (Hordered
             (Directory
                (Some [("Z", Directory (Some []));
                       ("B.md", RegularFile [Line "text"]);
                       ("c", Directory (Some []));
                       ("a.md", RegularFile [Line "# Alpha"])]))
             "t" _ eq_refl).
  - destruct (Hexample [Line "# Alpha"] [Line "text"] (Some []) (Some [])
                [("a.md", RegularFile [Line "# Alpha"]);
                 ("B.md", RegularFile [Line "text"]);
                 ("Z", Directory (Some []));
                 ("c", Directory (Some []))]
                "t" _ (perm_swap _ _ _) eq_refl)
      as [title_a [title_B [tree_c [tree_Z [Htree _]]]]].
    exists title_a, title_B, tree_c, tree_Z. exact Htree.
Defined.

(** ** Exclusion *)

Lemma prune_directory (listing : list (string * fsnode)) :
  prune (Directory (Some listing)) = Directory (Some (prune_listing listing)).
Proof.
  cbn [prune]. do 2 f_equal. unfold prune_listing.
  induction listing as [| [name child] listing IH]; [reflexivity |].
  cbn [filter map fst snd].
  destruct (excluded name child); cbn [negb map fst snd]; rewrite IH;
    reflexivity.
Qed.

Lemma prune_is_dir (node : fsnode) : is_dir (prune node) = is_dir node.
Proof. destruct node as [lines | [listing |]]; reflexivity. Qed.

Lemma sorted_by_ext (A : Type) (key1 key2 : A -> string) (l : list A) :
  (forall x, key1 x = key2 x) -> sorted_by key1 l = sorted_by key2 l.
Proof.
  intros Hext.
  induction l as [| x l IH]; simpl; [reflexivity |].
  rewrite IH. generalize (sorted_by key2 l). intros s.
  induction s as [| y s IHs]; simpl; [reflexivity |].
  rewrite !Hext, IHs. reflexivity.
Qed.

Lemma build_step_excluded (rel : string) (tree : pydict) (item : dir_item) :
  item_kept item = false -> build_step rel tree item = Ok tree.
Proof.
  unfold item_kept, excluded, build_step.
  destruct (is_dir (item_node item)); intros H;
    apply negb_false_iff in H; rewrite H; [reflexivity |].
  rewrite andb_false_r. reflexivity.
Qed.

Lemma build_loop_kept (rel : string) (items : list dir_item) (tree : pydict) :
  build_loop rel (filter item_kept items) tree = build_loop rel items tree.
Proof.
  revert tree.
  induction items as [| item items IH]; intros tree; [reflexivity |].
  cbn [filter build_loop].
  destruct (item_kept item) eqn:E.
  - cbn [build_loop].
    destruct (build_step rel tree item); cbn [bind]; [apply IH | reflexivity].
  - rewrite (build_step_excluded rel tree _ E). cbn [bind]. apply IH.
Qed.

Lemma build_step_pruned_node (rel : string) (tree : pydict)
  (name : string) (node : fsnode) (subtree : result pyval) :
  build_step rel tree (mk_item name (prune node) subtree) =
    build_step rel tree (mk_item name node subtree).
Proof.
  unfold build_step. cbn [item_name item_node item_tree].
  rewrite prune_is_dir.
  destruct node as [lines | [listing |]]; reflexivity.
Qed.

Lemma build_loop_pointwise (A : Type) (rel : string) (f g : A -> dir_item)
  (l : list A) (tree : pydict) :
  (forall x tr, In x l -> build_step rel tr (f x) = build_step rel tr (g x)) ->
  build_loop rel (map f l) tree = build_loop rel (map g l) tree.
Proof.
  revert tree.
  induction l as [| x l IH]; intros tree H; [reflexivity |].
  cbn [map build_loop].
  rewrite (H x tree) by (left; reflexivity).
  destruct (build_step rel tree (g x)); cbn [bind]; [| reflexivity].
  apply IH. intros y tr Hy. apply H. right. exact Hy.
Qed.

Lemma build_prune (node : fsnode) :
  forall rel,
    build_directory_tree rel (prune node) = build_directory_tree rel node.
Proof.
  induction node as [lines | | listing IH] using fsnode_induction;
    intros rel; try reflexivity.
  rewrite prune_directory, !build_directory_tree_unfold.
  f_equal.
  rewrite <- (build_loop_kept rel
                (sorted_by item_key (map (attach rel) listing))).
  rewrite <- sorted_by_filter.
  unfold prune_listing.
  set (keep := fun entry : string * fsnode =>
                 negb (excluded (fst entry) (snd entry))).
  assert (Hfilter : filter item_kept (map (attach rel) listing) =
                    map (attach rel) (filter keep listing)).
  { clear IH. induction listing as [| [name child] listing IHl];
      [reflexivity |].
    cbn [map filter]. unfold item_kept at 1, keep at 1.
    cbn [attach item_name item_node fst snd].
    destruct (excluded name child); cbn [negb map]; rewrite IHl;
      reflexivity. }
  rewrite Hfilter, map_map, !sorted_by_map.
  rewrite (sorted_by_ext
             (fun a => item_key (attach rel (fst a, prune (snd a))))
             (fun a => item_key (attach rel a)))
    by (intros [name child]; reflexivity).
  apply build_loop_pointwise.
  intros [name child] tr Hin.
  apply sorted_by_In, filter_In in Hin. destruct Hin as [Hin _].
  rewrite Forall_forall in IH. specialize (IH _ Hin). cbn [snd] in IH.
  cbn [attach fst snd]. rewrite IH.
  apply build_step_pruned_node.
Qed.

Lemma filter_filter_implied (A : Type) (p q : A -> bool) (l : list A) :
  (forall x, p x = true -> q x = true) ->
  filter p (filter q l) = filter p l.
Proof.
  intros H.
  induction l as [| x l IH]; simpl; [reflexivity |].
  destruct (q x) eqn:Eq; simpl.
  - rewrite IH. reflexivity.
  - destruct (p x) eqn:Ep; [| exact IH].
    rewrite (H x Ep) in Eq. discriminate.
Qed.

Lemma filter_map_swap (A B : Type) (f : A -> B) (p : B -> bool)
  (l : list A) :
  filter p (map f l) = map f (filter (fun x => p (f x)) l).
Proof.
  induction l as [| x l IH]; simpl; [reflexivity |].
  destruct (p (f x)); simpl; rewrite IH; reflexivity.
Qed.

Lemma topics_loop_pointwise (f : string * fsnode -> string * fsnode)
  (l : list (string * fsnode)) (acc : pydict) :
  (forall entry, In entry l ->
     fst (f entry) = fst entry
     /\ build_directory_tree (fst entry) (snd (f entry)) =
          build_directory_tree (fst entry) (snd entry)) ->
  topics_loop (map f l) acc = topics_loop l acc.
Proof.
  revert acc.
  induction l as [| [name node] l IH]; intros acc H; [reflexivity |].
  cbn [map topics_loop].
  destruct (H (name, node) (or_introl eq_refl)) as [Hname Hbuild].
  destruct (f (name, node)) as [name' node'].
  cbn [fst snd] in Hname, Hbuild. subst name'. rewrite Hbuild.
  destruct (build_directory_tree name node); cbn [bind]; [| reflexivity].
  apply IH. intros entry Hentry. apply H. right. exact Hentry.
Qed.

Lemma topic_dirs_of_pruned (listing : list (string * fsnode)) :
  topic_dirs_of (prune_listing listing) =
    map (fun entry => (fst entry, prune (snd entry))) (topic_dirs_of listing).
Proof.
  unfold topic_dirs_of, prune_listing.
  rewrite filter_map_swap. cbn [fst snd].
  rewrite (filter_ext _
             (fun item : string * fsnode =>
                is_dir (snd item) && negb (mem (fst item) IGNORE_DIRS)))
    by (intros [name node]; cbn [fst snd]; rewrite prune_is_dir; reflexivity).
  rewrite filter_filter_implied.
  - rewrite sorted_by_map. f_equal.
  - intros [name node]. cbn [fst snd]. unfold excluded.
    destruct (is_dir node); [| discriminate].
    cbn [andb]. intros H. exact H.
Qed.

Lemma scan_build_render_pruned (linesep : string)
  (listing : list (string * fsnode)) :
  scan_build_render linesep (prune_listing listing) =
    scan_build_render linesep listing.
Proof.
  unfold scan_build_render.
  rewrite topic_dirs_of_pruned, topics_loop_pointwise; [reflexivity |].
  intros [name node] _. cbn [fst snd]. split; [reflexivity |].
  apply build_prune.
Qed.

Lemma build_clean (node : fsnode) :
  forall rel tree,
    build_directory_tree rel node = Ok tree -> clean_at rel tree.
Proof.
  induction node as [lines | | listing IH] using fsnode_induction;
    intros rel tree H; try discriminate.
  rewrite build_directory_tree_unfold in H.
  destruct (build_loop rel _ _) as [items |] eqn:Eloop; [| discriminate].
  inversion H; subst tree. clear H.
  constructor.
  - intros docs Hdocs.
    exists (map item_name
              (filter item_is_document
                 (sorted_by item_key (map (attach rel) listing)))).
    split.
    + rewrite map_map.
      eapply build_loop_documents;
        [apply attached_items_built | exact Eloop | exact Hdocs].
    + apply Forall_forall. intros name Hname.
      apply in_map_iff in Hname. destruct Hname as [item [<- Hitem]].
      apply filter_In in Hitem. destruct Hitem as [_ Hdoc].
      unfold item_is_document, is_document in Hdoc.
      apply andb_true_iff in Hdoc. destruct Hdoc as [_ Hdoc].
      apply negb_true_iff, Hdoc.
  - apply (@build_loop_children rel
             (fun k v => mem k IGNORE_DIRS = false
                         /\ clean_at (rel ++ "/" ++ k) v)
             (sorted_by item_key (map (attach rel) listing))
             [(FILES_KEY, PyList [])] items).
    + apply attached_items_forall. intros entry Hentry Hsub t Ht.
      rewrite attach_tree in Ht. rewrite attach_name in *.
      split.
      * unfold is_subdir in Hsub.
        apply andb_true_iff in Hsub. destruct Hsub as [_ Hsub].
        apply negb_true_iff, Hsub.
      * rewrite Forall_forall in IH. apply (IH entry Hentry), Ht.
    + intros k v [Heq | []] Hne. inversion Heq; subst. contradiction.
    + exact Eloop.
Qed.

(** C4. A file named like the generated index and a directory of the
    deny-list contribute nothing, at any depth: the tree built and the text
    generated are those of the input with every such entry removed, the
    excluded directories are not entered, and the tree holds no document of
    an excluded file name and no key of the deny-list. *)
Theorem excluded_entries_contribute_nothing :
  (forall node rel,
      build_directory_tree rel node = build_directory_tree rel (prune node))
  /\ (forall linesep listing,
         scan_build_render linesep listing =
           scan_build_render linesep (prune_listing listing))
  /\ (forall node rel tree,
         build_directory_tree rel node = Ok tree -> clean_at rel tree)
  /\ (forall rel listing name,
         mem name IGNORE_DIRS = true ->
         build_directory_tree rel
           (Directory (Some ((name, Directory None) :: listing))) =
           build_directory_tree rel (Directory (Some listing))).
Proof.
  split; [| split; [| split]].
  - intros node rel. symmetry. apply build_prune.
  - intros linesep listing. symmetry. apply scan_build_render_pruned.
  - intros node. apply build_clean.
  - intros rel listing name Hname.
    rewrite <- (build_prune (Directory (Some ((name, Directory None)
                                               :: listing)))).
    rewrite <- (build_prune (Directory (Some listing))).
    rewrite !prune_directory. unfold prune_listing.
    cbn [filter fst snd excluded is_dir]. rewrite Hname. reflexivity.
Qed.

Lemma excluded_entries_contribute_nothing_witness :
  clean_at "go"
    (PyDict [(FILES_KEY, PyList [("Intro", "go/intro.md")]);
             ("deep", PyDict [(FILES_KEY, PyList [])])])
  /\ build_directory_tree "go"
       (Directory (Some [(".git", Directory None);
                         ("intro.md", RegularFile [Line "# Intro"])])) =
     build_directory_tree "go"
       (Directory (Some [("intro.md", RegularFile [Line "# Intro"])])).
Proof.
  destruct excluded_entries_contribute_nothing as [_ [_ [Hclean Hskip]]].
  split.
  - exact (Hclean
             (Directory
                (Some [("README.md", RegularFile [Line "# Index"]);
                       ("intro.md", RegularFile [Line "# Intro"]);
                       ("node_modules",
                        Directory (Some [("x.md", RegularFile [Undecodable])]));
                       ("deep",
                        Directory
                          (Some [(".git", Directory None);
                                 ("README.md", RegularFile [])]))]))
             "go" _ eq_refl).
  - exact (Hskip "go" [("intro.md", RegularFile [Line "# Intro"])] ".git"
             eq_refl).
Defined.

(** ** Sub-directories are kept, empty or not *)

(** Entries with distinct names keep distinct names when some are dropped
    or when they are sorted. *)
Lemma names_distinct_filter (A : Type) (name : A -> string)
  (keep : A -> bool) (entries : list A)
  (Hnd : NoDup (map name entries)) :
  NoDup (map name (filter keep entries)).
Proof.
  induction entries as [| entry entries IH]; cbn [filter map] in *.
  - exact Hnd.
  - apply NoDup_cons_iff in Hnd. destruct Hnd as [Hfresh Hnd].
    destruct (keep entry); cbn [map]; [| exact (IH Hnd)].
    apply NoDup_cons_iff. split; [| exact (IH Hnd)].
    intros Hin. apply Hfresh.
    apply in_map_iff in Hin. destruct Hin as [other [Hname Hother]].
    apply filter_In in Hother. rewrite <- Hname.
    apply in_map. exact (proj1 Hother).
Qed.

Lemma names_distinct_sorted (A : Type) (name key : A -> string)
  (entries : list A)
  (Hnd : NoDup (map name entries)) :
  NoDup (map name (sorted_by key entries)).
Proof.
  revert Hnd. apply Permutation_NoDup, Permutation_map, sorted_by_perm.
Qed.

Lemma build_loop_keeps (rel name : string) (subtree : pyval)
  (items : list dir_item) (tree tree' : pydict) :
  built subtree ->
  Forall (fun item => item_name item <> name) items ->
  dict_get name tree = Some subtree ->
  build_loop rel items tree = Ok tree' ->
  dict_get name tree' = Some subtree.
Proof.
  intros Hbuilt Hnames Hget H.
  apply (@build_loop_invariant rel
           (fun item => item_name item <> name)
           (fun _ tr => dict_get name tr = Some subtree))
    with (items := items) (done := []) (tree := tree); try assumption.
  clear - Hbuilt. intros _ item tree tree' Hne HI Hstep.
  destruct Hstep as [_ _ -> | st _ _ -> | lines title elems _ _ _ Hold ->].
  - exact HI.
  - rewrite dict_get_set_other by (intros E; apply Hne; symmetry; exact E).
    exact HI.
  - destruct (String.eqb name FILES_KEY) eqn:E.
    + apply String.eqb_eq in E. subst name.
      rewrite HI in Hold. destruct Hbuilt as [files [rest ->]]. discriminate.
    + apply String.eqb_neq in E.
      rewrite dict_get_set_other by exact E. exact HI.
Qed.

Lemma build_loop_inserted (rel : string) (items : list dir_item) :
  NoDup (map item_name items) ->
  Forall (fun item => forall t, item_tree item = Ok t -> built t) items ->
  forall tree tree' item,
    In item items ->
    is_subdir (item_name item) (item_node item) = true ->
    build_loop rel items tree = Ok tree' ->
    exists subtree,
      item_tree item = Ok subtree
      /\ dict_get (item_name item) tree' = Some subtree.
Proof.
  induction items as [| head items IH];
    intros Hnd Hbuilt tree tree' item Hin Hsub H; [destruct Hin |].
  cbn [map] in Hnd. inversion Hnd as [| ? ? Hnotin Hnd']; subst.
  inversion Hbuilt as [| ? ? Hhead Hrest]; subst.
  cbn [build_loop] in H.
  destruct (build_step rel tree head) as [tree1 |] eqn:Estep;
    [| discriminate].
  cbn [bind] in H.
  destruct Hin as [-> | Hin].
  - apply build_step_ok in Estep.
    destruct Estep as [_ Hno _ | subtree _ Htree -> | lines ? ? Hnode Hdoc _ _ _].
    + rewrite Hsub in Hno. discriminate.
    + exists subtree. split; [exact Htree |].
      apply build_loop_keeps with (rel := rel) (items := items)
                                  (tree := dict_set (item_name item) subtree tree).
      * apply Hhead, Htree.
      * apply Forall_forall. intros other Hother Heq.
        apply Hnotin. rewrite <- Heq. apply in_map, Hother.
      * apply dict_get_set_same.
      * exact H.
    + unfold is_subdir in Hsub. rewrite Hnode in Hsub. discriminate.
  - apply (IH Hnd' Hrest tree1 tree' item Hin Hsub H).
Qed.

Lemma attached_names (rel : string) (listing : list (string * fsnode)) :
  map item_name (map (attach rel) listing) = map fst listing.
Proof.
  rewrite map_map. apply map_ext. intros entry. apply attach_name.
Qed.

Lemma build_inserts_subdir (rel : string) (listing : list (string * fsnode))
  (name : string) (child : fsnode) (tree : pyval) :
  NoDup (map fst listing) ->
  In (name, child) listing ->
  is_subdir name child = true ->
  build_directory_tree rel (Directory (Some listing)) = Ok tree ->
  exists items subtree,
    tree = PyDict items
    /\ build_directory_tree (rel ++ "/" ++ name) child = Ok subtree
    /\ dict_get name items = Some subtree.
Proof.
  intros Hnd Hin Hsub H.
  rewrite build_directory_tree_unfold in H.
  destruct (build_loop rel _ _) as [items |] eqn:Eloop; [| discriminate].
  inversion H; subst tree. clear H.
  destruct (@build_loop_inserted rel
              (sorted_by item_key (map (attach rel) listing)))
    with (tree := [(FILES_KEY, PyList [])]) (tree' := items)
         (item := attach rel (name, child))
    as [subtree [Htree Hget]].
  - apply names_distinct_sorted. rewrite attached_names. exact Hnd.
  - apply attached_items_built.
  - apply sorted_by_In, in_map, Hin.
  - exact Hsub.
  - exact Eloop.
  - exists items, subtree. split; [reflexivity |].
    split; [exact Htree | exact Hget].
Qed.

(** A built tree under the reserved key makes the renderer raise. *)
Lemma render_documents_built (items : pydict) (subtree : pyval) :
  built subtree ->
  dict_get FILES_KEY items = Some subtree ->
  render_documents items = Raise ValueError.
Proof.
  intros [files [rest ->]] Hget.
  unfold render_documents. rewrite Hget. reflexivity.
Qed.

Lemma render_shows_subdir (items : pydict) (name : string) (subtree : pyval)
  (heading_level : nat) (parent_path text : string) :
  built subtree ->
  dict_get name items = Some subtree ->
  render_subtree (PyDict items) heading_level parent_path = Ok text ->
  exists body before after,
    render_subtree subtree (heading_level + 1) (parent_path ++ "/" ++ name) =
      Ok body
    /\ text =
         join nl (before ++ section_block heading_level name body ++ after)%list.
Proof.
  intros Hbuilt Hget H.
  rewrite render_subtree_unfold in H.
  destruct (render_documents items) as [lines |] eqn:Edocs; [| discriminate].
  cbn [bind] in H.
  destruct (mapM _ (subdirs_of items)) as [blocks |] eqn:Eblocks;
    [| discriminate].
  inversion H; subst text. clear H.
  assert (Hname : In name (subdirs_of items)).
  { apply subdirs_of_In. split.
    - change (In (fst (name, subtree)) (map fst items)).
      apply in_map, dict_get_In, Hget.
    - intros ->. rewrite (@render_documents_built _ _ Hbuilt Hget) in Edocs.
      discriminate. }
  destruct (mapM_ok_split _ _ _ Eblocks Hname)
    as [before [block [after [Hblock ->]]]].
  unfold render_child in Hblock. rewrite Hget in Hblock.
  destruct (render_subtree subtree _ _) as [body |]; [| discriminate].
  inversion Hblock; subst block.
  exists body, (lines ++ List.concat before)%list, (List.concat after).
  split; [reflexivity |].
  rewrite concat_app. cbn [List.concat].
  rewrite <- !app_assoc. reflexivity.
Qed.

Lemma topics_loop_keeps (name : string) (tree : pyval)
  (topic_dirs : list (string * fsnode)) (acc all_topics_data : pydict) :
  Forall (fun entry => fst entry <> name) topic_dirs ->
  dict_get name acc = Some tree ->
  topics_loop topic_dirs acc = Ok all_topics_data ->
  dict_get name all_topics_data = Some tree.
Proof.
  revert acc.
  induction topic_dirs as [| [n node] rest IH]; intros acc Hne Hget H.
  - inversion H; subst. exact Hget.
  - cbn [topics_loop] in H.
    destruct (build_directory_tree n node) as [t |]; [| discriminate].
    cbn [bind] in H.
    inversion Hne as [| ? ? Hn Hrest]; subst. cbn [fst] in Hn.
    apply (IH (dict_set n t acc)); [exact Hrest | | exact H].
    rewrite dict_get_set_other by (intros E; apply Hn; symmetry; exact E).
    exact Hget.
Qed.

Lemma topics_loop_inserted (topic_dirs : list (string * fsnode)) :
  NoDup (map fst topic_dirs) ->
  forall acc all_topics_data name node,
    In (name, node) topic_dirs ->
    topics_loop topic_dirs acc = Ok all_topics_data ->
    exists tree,
      build_directory_tree name node = Ok tree
      /\ dict_get name all_topics_data = Some tree.
Proof.
  induction topic_dirs as [| [n nd] rest IH];
    intros Hnd acc all_topics_data name node Hin H; [destruct Hin |].
  cbn [map fst] in Hnd. inversion Hnd as [| ? ? Hnotin Hnd']; subst.
  cbn [topics_loop] in H.
  destruct (build_directory_tree n nd) as [t |] eqn:Ebuild; [| discriminate].
  cbn [bind] in H.
  destruct Hin as [Heq | Hin].
  - inversion Heq; subst n nd.
    exists t. split; [exact Ebuild |].
    apply topics_loop_keeps with (topic_dirs := rest)
                                 (acc := dict_set name t acc).
    + apply Forall_forall. intros entry Hentry Heq'.
      apply Hnotin. rewrite <- Heq'. apply in_map, Hentry.
    + apply dict_get_set_same.
    + exact H.
  - apply (IH Hnd' (dict_set n t acc) all_topics_data name node Hin H).
Qed.

Lemma articles_loop_blocks (all_topics_data : pydict) (names : list string)
  (lines : list string) :
  articles_loop all_topics_data names lines =
    (blocks <- mapM (fun topic_name =>
                       match dict_get topic_name all_topics_data with
                       | None => Raise KeyError
                       | Some topic_tree =>
                           subtree_md <- render_subtree topic_tree 4
                                           topic_name ;;
                           Ok [topic_heading topic_name; subtree_md]
                       end) names ;;
     Ok (lines ++ List.concat blocks)%list).
Proof.
  revert lines.
  induction names as [| topic_name rest IH]; intros lines;
    cbn [articles_loop mapM].
  - cbn [bind List.concat]. rewrite app_nil_r. reflexivity.
  - destruct (dict_get topic_name all_topics_data) as [topic_tree |];
      [| reflexivity].
    destruct (render_subtree topic_tree 4 topic_name) as [md |];
      cbn [bind]; [| reflexivity].
    rewrite IH.
    destruct (mapM _ rest) as [blocks |]; cbn [bind]; [| reflexivity].
    cbn [List.concat]. rewrite <- app_assoc. reflexivity.
Qed.

Lemma build_loop_all_skipped (rel : string) (items : list dir_item)
  (tree : pydict) :
  Forall (fun item =>
            item_is_document item = false
            /\ is_subdir (item_name item) (item_node item) = false) items ->
  build_loop rel items tree = Ok tree.
Proof.
  induction items as [| item items IH]; intros H; [reflexivity |].
  inversion H as [| ? ? [Hdoc Hsub] Hrest]; subst.
  cbn [build_loop].
  assert (Hstep : build_step rel tree item = Ok tree).
  { destruct (build_step_kind rel tree item)
      as [_ _ | Hdir Hign | lines _ Hd | _ _]; try reflexivity.
    - unfold is_subdir in Hsub. rewrite Hdir, Hign in Hsub. discriminate.
    - rewrite Hd in Hdoc. discriminate. }
  rewrite Hstep. cbn [bind]. apply IH, Hrest.
Qed.

Lemma build_holds_nothing (rel : string) (listing : list (string * fsnode)) :
  holds_nothing listing = true ->
  build_directory_tree rel (Directory (Some listing)) = Ok EMPTY_NODE.
Proof.
  intros H. rewrite build_directory_tree_unfold.
  rewrite build_loop_all_skipped; [reflexivity |].
  apply attached_items_forall. intros entry Hentry.
  unfold holds_nothing in H. rewrite forallb_forall in H.
  specialize (H entry Hentry).
  apply andb_true_iff in H. destruct H as [Hdoc Hsub].
  unfold item_is_document. rewrite attach_name, attach_node.
  split; apply negb_true_iff; assumption.
Qed.

Lemma render_empty_node (heading_level : nat) (parent_path : string) :
  render_subtree EMPTY_NODE heading_level parent_path = Ok "".
Proof. reflexivity. Qed.

Lemma empty_topic_listed (linesep : string)
  (listing : list (string * fsnode)) (name text : string)
  (content : list (string * fsnode)) :
  NoDup (map fst listing) ->
  In (name, Directory (Some content)) listing ->
  holds_nothing content = true ->
  mem name IGNORE_DIRS = false ->
  scan_build_render linesep listing = Ok text ->
  exists all_topics_data before after,
    topics_loop (topic_dirs_of listing) [] = Ok all_topics_data
    /\ In (category_line name) (categories_lines all_topics_data)
    /\ articles_lines all_topics_data =
         Ok (before ++ [topic_heading name; ""] ++ after)%list
    /\ text =
         preamble ++ "## Categories" ++ nl ++
         join linesep (categories_lines all_topics_data) ++ nl ++ nl ++
         "## Articles" ++ nl ++
         join linesep (before ++ [topic_heading name; ""] ++ after)%list ++ nl.
Proof.
  intros Hnd Hin Hcontent Hname H.
  unfold scan_build_render in H.
  destruct (topics_loop (topic_dirs_of listing) []) as [all_topics_data |]
    eqn:Etopics; [| discriminate].
  cbn [bind] in H.
  destruct (@topics_loop_inserted (topic_dirs_of listing))
    with (acc := @nil (string * pyval)) (all_topics_data := all_topics_data)
         (name := name) (node := Directory (Some content))
    as [tree [Hbuild Hget]].
  - unfold topic_dirs_of. apply names_distinct_sorted, names_distinct_filter, Hnd.
  - unfold topic_dirs_of. apply sorted_by_In, filter_In.
    split; [exact Hin |]. cbn [fst snd is_dir andb]. rewrite Hname.
    reflexivity.
  - exact Etopics.
  - rewrite (build_holds_nothing _ _ Hcontent) in Hbuild.
    inversion Hbuild; subst tree. clear Hbuild.
    assert (Htopic : In name (topic_names all_topics_data)).
    { unfold topic_names. apply sorted_by_In.
      change (In (fst (name, EMPTY_NODE)) (map fst all_topics_data)).
      apply in_map, dict_get_In, Hget. }
    unfold generate_readme in H.
    destruct (articles_lines all_topics_data) as [articles |] eqn:Earticles;
      [| discriminate].
    cbn [bind] in H. inversion H; subst text. clear H.
    pose proof Earticles as Harticles.
    unfold articles_lines in Earticles.
    rewrite articles_loop_blocks in Earticles.
    destruct (mapM _ (topic_names all_topics_data)) as [blocks |] eqn:Eblocks;
      [| discriminate].
    cbn [bind app] in Earticles. inversion Earticles; subst articles.
    destruct (mapM_ok_split _ _ _ Eblocks Htopic)
      as [before [block [after [Hblock ->]]]].
    rewrite Hget in Hblock.
    rewrite render_empty_node in Hblock. cbn [bind] in Hblock.
    inversion Hblock; subst block.
    exists all_topics_data, (List.concat before), (List.concat after).
    split; [reflexivity |].
    split; [unfold categories_lines; apply in_map, Htopic |].
    rewrite Harticles, concat_app. cbn [List.concat app].
    split; reflexivity.
Qed.

Lemma separated_join (sep : string) (lines : list string) :
  separated sep lines = join sep lines.
Proof.
  induction lines as [| line rest IH]; [reflexivity |].
  destruct rest as [| next rest]; [reflexivity |].
  change (separated sep (line :: next :: rest))
    with (line ++ sep ++ separated sep (next :: rest)).
  rewrite IH. reflexivity.
Qed.

(** C5. The node built for a sub-directory that is not ignored is put in
    the tree of its parent under its name, also when it holds no document
    and no child (its node is then [{"__files__": []}]), and is rendered as
    a section: the heading ["#...# name"], a blank line, the body, a blank
    line, the body being empty in that case; a topic directory with no
    qualifying file and no sub-directory has its link
    ["- [name](#anchor)"] in the Categories list and its heading
    ["### name"], followed by an empty body, in the Articles section of the
    text of the index. *)
Theorem empty_directories_are_kept :
  (forall rel listing name child tree,
      NoDup (map fst listing) ->
      In (name, child) listing ->
      is_subdir name child = true ->
      build_directory_tree rel (Directory (Some listing)) = Ok tree ->
      exists items subtree,
        tree = PyDict items
        /\ build_directory_tree (rel ++ "/" ++ name) child = Ok subtree
        /\ dict_get name items = Some subtree
        /\ (forall content,
               child = Directory (Some content) ->
               holds_nothing content = true ->
               subtree = PyDict [("__files__", PyList [])])
        /\ forall heading_level text,
            render_subtree tree heading_level rel = Ok text ->
            exists body before after,
              render_subtree subtree (heading_level + 1)
                (rel ++ "/" ++ name) = Ok body
              /\ text =
                   lines_text
                     (before
                      ++ [(markers heading_level ++ " " ++ name)%string;
                          ""; body; ""]
                      ++ after)%list
              /\ (forall content,
                     child = Directory (Some content) ->
                     holds_nothing content = true ->
                     body = ""))
  /\ (forall linesep listing name text content,
         NoDup (map fst listing) ->
         In (name, Directory (Some content)) listing ->
         holds_nothing content = true ->
         mem name IGNORE_DIRS = false ->
         scan_build_render linesep listing = Ok text ->
         exists all_topics_data before after,
           topics_loop (topic_dirs_of listing) [] = Ok all_topics_data
           /\ In ("- [" ++ name ++ "](#" ++ make_anchor name ++ ")")
                (categories_lines all_topics_data)
           /\ articles_lines all_topics_data =
                Ok (before ++ [("### " ++ name)%string; ""] ++ after)%list
           /\ text =
                preamble ++
                lines_text
                  ["## Categories";
                   separated linesep (categories_lines all_topics_data);
                   "";
                   "## Articles";
                   separated linesep
                     (before ++ [("### " ++ name)%string; ""] ++ after)%list;
                   ""]).
Proof.
  split.
  - intros rel listing name child tree Hnd Hin Hsub H.
    destruct (@build_inserts_subdir rel listing name child tree Hnd Hin Hsub H)
      as [items [subtree [-> [Hbuild Hget]]]].
    exists items, subtree.
    split; [reflexivity |]. split; [exact Hbuild |]. split; [exact Hget |].
    split.
    + intros content -> Hcontent.
      rewrite (build_holds_nothing _ _ Hcontent) in Hbuild.
      inversion Hbuild. reflexivity.
    + intros heading_level text Hrender.
      destruct (@render_shows_subdir items name subtree heading_level rel text)
        as [body [before [after [Hbody ->]]]];
        [eapply build_directory_tree_built, Hbuild | exact Hget
        | exact Hrender |].
      exists body, before, after.
      split; [exact Hbody |]. split.
      * rewrite lines_text_join, markers_repeat. reflexivity.
      * intros content -> Hcontent.
        rewrite (build_holds_nothing _ _ Hcontent) in Hbuild.
        inversion Hbuild; subst subtree.
        rewrite render_empty_node in Hbody. inversion Hbody. reflexivity.
  - intros linesep listing name text content Hnd Hin Hcontent Hname H.
    destruct (@empty_topic_listed linesep listing name text content
                Hnd Hin Hcontent Hname H)
      as [all_topics_data [before [after [Htopics [Hcat [Harticles ->]]]]]].
    exists all_topics_data, before, after.
    split; [exact Htopics |]. split; [exact Hcat |].
    split; [exact Harticles |].
    rewrite (separated_join linesep (categories_lines all_topics_data)).
    rewrite (separated_join linesep
               (before ++ [("### " ++ name)%string; ""] ++ after)%list).
    reflexivity.
Qed.

Lemma empty_directories_are_kept_witness :
  (build_directory_tree "go"
     (Directory
        (Some [("empty", Directory (Some [("notes.txt", RegularFile [])]));
               ("a.md", RegularFile [Line "text"])])) =
     Ok (PyDict [("__files__", PyList [("a", "go/a.md")]);
                 ("empty", PyDict [("__files__", PyList [])])])
   /\ render_subtree
        (PyDict [("__files__", PyList [("a", "go/a.md")]);
                 ("empty", PyDict [("__files__", PyList [])])])
        4 "go" =
        Ok "- [a](go/a.md)

#### empty


"
   /\ exists before after,
       "- [a](go/a.md)

#### empty


" = lines_text (before ++ ["#### empty"; ""; ""; ""] ++ after)%list)
  /\ exists all_topics_data before after,
      topics_loop
        (topic_dirs_of
           [("Empty Dir", Directory (Some [("notes.txt", RegularFile [])]));
            ("a.md", RegularFile [Line "text"])])
        [] = Ok all_topics_data
      /\ In "- [Empty Dir](#empty-dir)" (categories_lines all_topics_data)
      /\ articles_lines all_topics_data =
           Ok (before ++ ["### Empty Dir"; ""] ++ after)%list
      /\ scan_build_render (String "010" "")
           [("Empty Dir", Directory (Some [("notes.txt", RegularFile [])]));
            ("a.md", RegularFile [Line "text"])] =
           Ok (preamble ++ "## Categories
- [Empty Dir](#empty-dir)

## Articles
### Empty Dir

").
Proof.
  destruct empty_directories_are_kept as [Hsub Htopic].
  split.
  - assert (Hnd : NoDup (map fst
                           [("empty",
                             Directory (Some [("notes.txt", RegularFile [])]));
                            ("a.md", RegularFile [Line "text"])])).
    { repeat (constructor; [cbn; intuition discriminate |]). constructor. }
    destruct (Hsub "go"
                [("empty", Directory (Some [("notes.txt", RegularFile [])]));
                 ("a.md", RegularFile [Line "text"])]
                "empty" (Directory (Some [("notes.txt", RegularFile [])]))
                (PyDict [("__files__", PyList [("a", "go/a.md")]);
                         ("empty", PyDict [("__files__", PyList [])])])
                Hnd (or_introl eq_refl) eq_refl eq_refl)
      as [items [subtree [_ [_ [_ [_ Hrender]]]]]].
    destruct (Hrender 4 "- [a](go/a.md)

#### empty


" eq_refl) as [body [before [after [_ [Htext Hbody]]]]].
    rewrite (Hbody _ eq_refl eq_refl) in Htext.
    split; [reflexivity |]. split; [reflexivity |].
    exists before, after. exact Htext.
  - assert (Hnd : NoDup (map fst
                           [("Empty Dir",
                             Directory (Some [("notes.txt", RegularFile [])]));
                            ("a.md", RegularFile [Line "text"])])).
    { repeat (constructor; [cbn; intuition discriminate |]). constructor. }
    destruct (Htopic (String "010" "")
                [("Empty Dir",
                  Directory (Some [("notes.txt", RegularFile [])]));
                 ("a.md", RegularFile [Line "text"])]
                "Empty Dir"
                (preamble ++ "## Categories
- [Empty Dir](#empty-dir)

## Articles
### Empty Dir

")
                [("notes.txt", RegularFile [])] Hnd
                (or_introl eq_refl) eq_refl eq_refl eq_refl)
      as [all_topics_data [before [after [Htopics [Hcat [Harticles _]]]]]].
    exists all_topics_data, before, after.
    split; [exact Htopics |]. split; [exact Hcat |].
    split; [exact Harticles | reflexivity].
Defined.

(** ** The run *)

Lemma main_unfold (linesep : string) (w : world) :
  main linesep w =
    match root_dir w with
    | Directory (Some listing) =>
        match scan_build_render linesep listing with
        | Raise e => (Raise e, w)
        | Ok content =>
            match dict_get README_NAME listing with
            | Some (Directory _) => (Raise WriteError, w)
            | _ =>
                (Ok tt,
                 mk_world
                   (Directory
                      (Some (dict_set README_NAME
                               (RegularFile (map Line (text_lines content)))
                               listing)))
                   (stdout w ++ [INFO_MESSAGE])%list)
            end
        end
    | _ => (Raise ListingError, w)
    end.
Proof.
  unfold main, io_bind, iterdir_root, io_lift, scan_build_render.
  destruct (root_dir w) as [lines | [listing |]] eqn:Eroot;
    try reflexivity.
  destruct (topics_loop (topic_dirs_of listing) []) as [all_topics_data |];
    cbn [bind]; [| reflexivity].
  destruct (generate_readme linesep all_topics_data) as [content |];
    [| reflexivity].
  unfold write_readme. rewrite Eroot.
  destruct (dict_get README_NAME listing) as [[lines | l] |]; reflexivity.
Qed.

Lemma main_raise_unchanged (linesep : string) (w w' : world) (e : exn) :
  main linesep w = (Raise e, w') -> w' = w.
Proof.
  intros H. rewrite main_unfold in H.
  destruct (root_dir w) as [lines | [listing |]];
    try (inversion H; reflexivity).
  destruct (scan_build_render linesep listing) as [content |];
    [| inversion H; reflexivity].
  destruct (dict_get README_NAME listing) as [[lines | l] |];
    inversion H; reflexivity.
Qed.

(** C9. A run in which listing a directory or decoding a document fails
    aborts and writes nothing: whenever the run raises, the world is left as
    it was found; the index is written only once scan, build and render
    have all returned, and then in full. *)
Theorem output_is_all_or_nothing :
  (forall linesep w e w',
      main linesep w = (Raise e, w') -> w' = w)
  /\ (forall linesep w listing e,
         root_dir w = Directory (Some listing) ->
         scan_build_render linesep listing = Raise e ->
         main linesep w = (Raise e, w))
  /\ (forall linesep w w',
         main linesep w = (Ok tt, w') ->
         exists listing content,
           root_dir w = Directory (Some listing)
           /\ scan_build_render linesep listing = Ok content
           /\ w' = mk_world
                     (Directory
                        (Some (dict_set README_NAME
                                 (RegularFile (map Line (text_lines content)))
                                 listing)))
                     (stdout w ++ [INFO_MESSAGE])%list)
  /\ (forall rel, build_directory_tree rel (Directory None) =
                  Raise ListingError)
  /\ (forall name pre rest,
         (forall p, In p pre -> startswith_hash (strip p) = false) ->
         extract_title_from_md name (map Line pre ++ Undecodable :: rest)%list =
           Raise UnicodeDecodeError).
Proof.
  split; [| split; [| split; [| split]]].
  - intros linesep w e w'. apply main_raise_unchanged.
  - intros linesep w listing e Hroot Hscan.
    rewrite main_unfold, Hroot, Hscan. reflexivity.
  - intros linesep w w' H.
    rewrite main_unfold in H.
    destruct (root_dir w) as [lines | [listing |]]; try discriminate.
    destruct (scan_build_render linesep listing) as [content |] eqn:Escan;
      [| discriminate].
    exists listing, content.
    split; [reflexivity |]. split; [exact Escan |].
    destruct (dict_get README_NAME listing) as [[lines | l] |];
      inversion H; reflexivity.
  - reflexivity.
  - intros name pre rest Hpre.
    unfold extract_title_from_md.
    rewrite first_heading_skip by exact Hpre. reflexivity.
Qed.

Lemma output_is_all_or_nothing_witness :
  main nl world_with_locked_directory =
    (Raise ListingError, world_with_locked_directory)
  /\ main nl world_with_undecodable_document =
       (Raise UnicodeDecodeError, world_with_undecodable_document).
Proof.
  destruct output_is_all_or_nothing as [_ [Habort _]].
  split.
  - exact (Habort nl world_with_locked_directory _ ListingError
             eq_refl eq_refl).
  - exact (Habort nl world_with_undecodable_document _ UnicodeDecodeError
             eq_refl eq_refl).
Defined.

(** ** Running twice *)

Lemma dict_set_idem (V : Type) (k : string) (v : V) (d : list (string * V)) :
  dict_set k v (dict_set k v d) = dict_set k v d.
Proof.
  induction d as [| [k' v'] d IH]; simpl.
  - rewrite String.eqb_refl. reflexivity.
  - destruct (String.eqb k k') eqn:E; simpl.
    + rewrite String.eqb_refl. reflexivity.
    + rewrite E, IH. reflexivity.
Qed.

Lemma filter_dict_set_file (p : string * fsnode -> bool) (k : string)
  (lines : list line_result) (listing : list (string * fsnode)) :
  (forall name node, is_dir node = false -> p (name, node) = false) ->
  (forall l, dict_get k listing <> Some (Directory l)) ->
  filter p (dict_set k (RegularFile lines) listing) = filter p listing.
Proof.
  intros Hp.
  induction listing as [| [k' v'] listing IH]; simpl; intros Hget.
  - rewrite Hp by reflexivity. reflexivity.
  - destruct (String.eqb k k') eqn:E; simpl.
    + rewrite Hp by reflexivity.
      destruct v' as [lines' | l]; [| exfalso; apply (Hget l); reflexivity].
      rewrite Hp by reflexivity. reflexivity.
    + rewrite IH by exact Hget. reflexivity.
Qed.

Lemma topic_dirs_of_written (content_lines : list line_result)
  (listing : list (string * fsnode)) :
  (forall l, dict_get README_NAME listing <> Some (Directory l)) ->
  topic_dirs_of (dict_set README_NAME (RegularFile content_lines) listing) =
    topic_dirs_of listing.
Proof.
  intros H. unfold topic_dirs_of.
  rewrite filter_dict_set_file; [reflexivity | | exact H].
  intros name node Hdir. cbn [fst snd]. rewrite Hdir. reflexivity.
Qed.

(** C8. The index is a function of the input tree alone, and writing it
    does not change what the next run reads: equal hierarchies render and
    assemble to equal texts, and a second run over the tree left by a first
    one writes the same bytes again. *)
Theorem regeneration_is_idempotent :
  (forall tree1 tree2 heading_level parent_path,
      tree1 = tree2 ->
      render_subtree tree1 heading_level parent_path =
        render_subtree tree2 heading_level parent_path)
  /\ (forall linesep data1 data2,
         data1 = data2 ->
         generate_readme linesep data1 = generate_readme linesep data2)
  /\ (forall linesep w w1,
         main linesep w = (Ok tt, w1) ->
         main linesep w1 =
           (Ok tt, mk_world (root_dir w1) (stdout w1 ++ [INFO_MESSAGE])%list))
  /\ (forall linesep w e w1,
         main linesep w = (Raise e, w1) ->
         main linesep w1 = (Raise e, w1)).
Proof.
  split; [| split; [| split]].
  - intros tree1 tree2 heading_level parent_path ->. reflexivity.
  - intros linesep data1 data2 ->. reflexivity.
  - intros linesep w w1 H.
    rewrite main_unfold in H.
    destruct (root_dir w) as [lines | [listing |]]; try discriminate.
    destruct (scan_build_render linesep listing) as [content |] eqn:Escan;
      [| discriminate].
    assert (Hfile : forall l, dict_get README_NAME listing <>
                              Some (Directory l)).
    { intros l Hl. rewrite Hl in H. discriminate. }
    assert (Hw1 : w1 = mk_world
                         (Directory
                            (Some (dict_set README_NAME
                                     (RegularFile
                                        (map Line (text_lines content)))
                                     listing)))
                         (stdout w ++ [INFO_MESSAGE])%list).
    { destruct (dict_get README_NAME listing) as [[lines | l] |];
        inversion H; reflexivity. }
    clear H. subst w1.
    rewrite main_unfold. cbn [root_dir stdout].
    unfold scan_build_render in *.
    rewrite topic_dirs_of_written by exact Hfile.
    rewrite Escan, dict_get_set_same, dict_set_idem. reflexivity.
  - intros linesep w e w1 H.
    pose proof (main_raise_unchanged _ _ H) as Hw. subst w1. exact H.
Qed.

Lemma regeneration_is_idempotent_witness :
  main nl (snd (main nl world_with_one_topic)) =
    (Ok tt,
     mk_world (root_dir (snd (main nl world_with_one_topic)))
       (stdout (snd (main nl world_with_one_topic)) ++ [INFO_MESSAGE])%list)
  /\ main nl world_with_locked_directory =
       (Raise ListingError, world_with_locked_directory).
Proof.
  destruct regeneration_is_idempotent as [_ [_ [Hagain Hfail]]].
  split.
  - exact (Hagain nl world_with_one_topic
             (snd (main nl world_with_one_topic)) eq_refl).
  - exact (Hfail nl world_with_locked_directory ListingError
             world_with_locked_directory eq_refl).
Defined.

(** ** A folder named like the reserved key *)

Lemma render_subtree_reserved_dict (items : pydict) (subtree : pyval)
  (heading_level : nat) (parent_path : string) :
  built subtree ->
  dict_get FILES_KEY items = Some subtree ->
  render_subtree (PyDict items) heading_level parent_path = Raise ValueError.
Proof.
  intros Hbuilt Hget.
  rewrite render_subtree_unfold,
    (@render_documents_built items subtree Hbuilt Hget).
  reflexivity.
Qed.

(** C6, on the code. The tree keeps the documents under the key
    ["__files__"] of the same dict that holds the sub-directories, so a
    folder of that name takes the place of the document list: the documents
    met before it are lost, a document met after it makes the builder raise,
    and the renderer raises on what is left.  The run writes nothing. *)
Theorem reserved_key_folder_replaces_documents :
  build_directory_tree "t" topic_with_reserved_name =
    Ok (PyDict [(FILES_KEY, PyDict [(FILES_KEY, PyList [])])])
  /\ (tree <- build_directory_tree "t" topic_with_reserved_name ;;
      render_subtree tree 4 "t") = Raise ValueError
  /\ build_directory_tree "t"
       (Directory
          (Some [("a.md", RegularFile [Line "# A"]);
                 ("__files__", Directory (Some []))])) =
     Raise AttributeError
  /\ fst (main nl (mk_world
                     (Directory (Some [("t", topic_with_reserved_name)]))
                     [])) =
     Raise ValueError
  /\ (forall rel listing child tree heading_level,
         NoDup (map fst listing) ->
         In (FILES_KEY, Directory child) listing ->
         build_directory_tree rel (Directory (Some listing)) = Ok tree ->
         render_subtree tree heading_level rel = Raise ValueError).
Proof.
  split; [reflexivity |].
  split; [reflexivity |].
  split; [reflexivity |].
  split; [reflexivity |].
  intros rel listing child tree heading_level Hnd Hin H.
  destruct (@build_inserts_subdir rel listing FILES_KEY (Directory child)
              tree Hnd Hin eq_refl H)
    as [items [subtree [-> [Hbuild Hget]]]].
  apply render_subtree_reserved_dict with (subtree := subtree);
    [eapply build_directory_tree_built, Hbuild | exact Hget].
Qed.

Lemma reserved_key_folder_replaces_documents_witness :
  render_subtree
    (PyDict [(FILES_KEY, PyDict [(FILES_KEY, PyList [])])]) 4 "t" =
    Raise ValueError.
Proof.
  destruct reserved_key_folder_replaces_documents as [_ [_ [_ [_ H]]]].
  assert (Hnd : NoDup (map fst [("1.md", RegularFile [Line "# One"]);
                                (FILES_KEY, Directory (Some []))])).
  { repeat (constructor; [cbn; intuition discriminate |]). constructor. }
  exact (H "t" [("1.md", RegularFile [Line "# One"]);
                (FILES_KEY, Directory (Some []))]
           (Some []) _ 4 Hnd (or_intror (or_introl eq_refl)) eq_refl).
Defined.

(** * Further properties *)

(** ** [make_anchor] *)

Lemma lower_char_idem (c : ascii) : lower_char (lower_char c) = lower_char c.
Proof.
  destruct c as [[] [] [] [] [] [] [] []]; reflexivity.
Qed.

Lemma lower_idem (s : string) : lower (lower s) = lower s.
Proof.
  induction s as [| c s IH]; simpl; [reflexivity |].
  rewrite lower_char_idem, IH. reflexivity.
Qed.

Lemma re_sub_spaces_dash_lower (in_run : bool) (text : string) :
  re_sub_spaces_dash_from in_run (lower text) =
    lower (re_sub_spaces_dash_from in_run text).
Proof.
  revert in_run.
  induction text as [| c text IH]; intros in_run; simpl; [reflexivity |].
  rewrite isspace_lower_char.
  destruct (isspace c); [destruct in_run |]; simpl; rewrite IH; reflexivity.
Qed.

Lemma re_sub_spaces_dash_no_space (in_run : bool) (text : string) :
  string_forall (fun c => negb (isspace c))
    (re_sub_spaces_dash_from in_run text) = true.
Proof.
  revert in_run.
  induction text as [| c text IH]; intros in_run; simpl; [reflexivity |].
  destruct (isspace c) eqn:E; [destruct in_run |]; simpl; rewrite ?E, IH;
    reflexivity.
Qed.

Lemma re_sub_spaces_dash_fixed (in_run : bool) (text : string) :
  string_forall (fun c => negb (isspace c)) text = true ->
  re_sub_spaces_dash_from in_run text = text.
Proof.
  revert in_run.
  induction text as [| c text IH]; intros in_run; simpl; [reflexivity |].
  intros H. apply andb_true_iff in H. destruct H as [Hc Hrest].
  apply negb_true_iff in Hc. rewrite Hc, IH by exact Hrest. reflexivity.
Qed.

(** X1. An anchor holds no whitespace character, whatever the topic name. *)
Theorem make_anchor_has_no_whitespace (text : string) :
  string_forall (fun c => negb (isspace c)) (make_anchor text) = true.
Proof.
  unfold make_anchor, re_sub_spaces_dash.
  apply re_sub_spaces_dash_no_space.
Qed.

(** X2. Lower-casing and collapsing the whitespace runs commute, and an
    anchor is its own anchor. *)
Theorem make_anchor_idempotent (text : string) :
  make_anchor text = lower (re_sub_spaces_dash text)
  /\ make_anchor (make_anchor text) = make_anchor text.
Proof.
  split.
  - apply re_sub_spaces_dash_lower.
  - unfold make_anchor, re_sub_spaces_dash.
    rewrite (re_sub_spaces_dash_lower false text), lower_idem.
    rewrite re_sub_spaces_dash_lower. f_equal.
    apply re_sub_spaces_dash_fixed, re_sub_spaces_dash_no_space.
Qed.

(** ** Names of documents: suffix and stem *)

Lemma string_app_empty (s : string) : s ++ "" = s.
Proof.
  induction s as [| c s IH]; simpl; [reflexivity | rewrite IH; reflexivity].
Qed.

Lemma rsplit_dot_md (base : string) :
  rsplit_dot (base ++ ".md") = Some (base, ".md").
Proof.
  induction base as [| c base IH]; [reflexivity |].
  cbn [append rsplit_dot]. rewrite IH. reflexivity.
Qed.

(** X3. A name and its two parts: the stem followed by the suffix is the
    name again; the suffix is [".md"] exactly for the names made of a
    non-empty base followed by [".md"], whose stem is that base; so a
    regular file is taken as a document exactly when its name has that form
    and is not [README.md], and a directory never is. *)
Theorem document_names (name : string) :
  stem name ++ suffix name = name
  /\ (suffix name = ".md" <->
      exists base, base <> "" /\ name = base ++ ".md")
  /\ (forall base, base <> "" -> stem (base ++ ".md") = base)
  /\ (forall lines,
         is_document name (RegularFile lines) = true <->
         (exists base, base <> "" /\ name = base ++ ".md")
         /\ name <> "README.md")
  /\ (forall listing, is_document name (Directory listing) = false).
Proof.
  assert (Hsplit : forall base, base <> "" ->
            has_suffix_split (base ++ ".md") = Some (base, ".md")).
  { intros base Hbase. unfold has_suffix_split. rewrite rsplit_dot_md.
    destruct base; [contradiction | reflexivity]. }
  assert (Hiff : suffix name = ".md" <->
                 exists base, base <> "" /\ name = base ++ ".md").
  { split.
    - unfold suffix, has_suffix_split.
      destruct (rsplit_dot name) as [[b f] |] eqn:E; [| discriminate].
      destruct b as [| c b]; [discriminate |].
      destruct ((0 <? String.length (String c b))
                && (1 <? String.length f))%nat; [| discriminate].
      intros ->. exists (String c b). split; [discriminate |].
      apply rsplit_dot_app, E.
    - intros [base [Hbase ->]]. unfold suffix.
      rewrite (Hsplit base Hbase). reflexivity. }
  split; [| split; [exact Hiff | split; [| split]]].
  - unfold stem, suffix, has_suffix_split.
    destruct (rsplit_dot name) as [[b f] |] eqn:E;
      [| apply string_app_empty].
    destruct ((0 <? String.length b) && (1 <? String.length f))%nat;
      [| apply string_app_empty].
    symmetry. apply rsplit_dot_app, E.
  - intros base Hbase. unfold stem. rewrite (Hsplit base Hbase). reflexivity.
  - intros lines. unfold is_document. cbn [is_dir negb andb].
    rewrite andb_true_iff, negb_true_iff, String.eqb_eq, Hiff.
    unfold mem, IGNORE_FILES. cbn [existsb]. rewrite orb_false_r.
    rewrite String.eqb_neq. reflexivity.
  - intros listing. reflexivity.
Qed.

(** ** The title extractor, case by case *)

Lemma first_heading_cases (lines : list line_result) :
  (exists pre text rest,
      lines = (map Line pre ++ Line text :: rest)%list
      /\ (forall p, In p pre -> startswith_hash (strip p) = false)
      /\ startswith_hash (strip text) = true
      /\ first_heading lines =
           Ok (Some (strip (re_sub_heading_prefix (strip text)))))
  \/ (exists pre,
         lines = map Line pre
         /\ (forall p, In p pre -> startswith_hash (strip p) = false)
         /\ first_heading lines = Ok None)
  \/ (exists pre rest,
         lines = (map Line pre ++ Undecodable :: rest)%list
         /\ (forall p, In p pre -> startswith_hash (strip p) = false)
         /\ first_heading lines = Raise UnicodeDecodeError)
  \/ (exists pre rest,
         lines = (map Line pre ++ Unreadable :: rest)%list
         /\ (forall p, In p pre -> startswith_hash (strip p) = false)
         /\ first_heading lines = Raise FileError).
Proof.
  induction lines as [| [text | |] lines IH].
  - right. left. exists []. repeat split. intros p [].
  - destruct (startswith_hash (strip text)) eqn:E.
    + left. exists [], text, lines.
      repeat split; [intros p [] | exact E |].
      cbn [first_heading]. rewrite E. reflexivity.
    + assert (Hcons : forall pre, (forall p, In p pre ->
                         startswith_hash (strip p) = false) ->
                       forall p, In p (text :: pre) ->
                         startswith_hash (strip p) = false).
      { intros pre Hpre p [<- | Hp]; [exact E | apply Hpre, Hp]. }
      cbn [first_heading]. rewrite E.
      destruct IH as [[pre [t [rest [-> [Hpre [Ht Hf]]]]]]
                     | [[pre [-> [Hpre Hf]]]
                       | [[pre [rest [-> [Hpre Hf]]]]
                         | [pre [rest [-> [Hpre Hf]]]]]]].
      * left. exists (text :: pre), t, rest.
        repeat split; [apply Hcons, Hpre | exact Ht | exact Hf].
      * right. left. exists (text :: pre).
        repeat split; [apply Hcons, Hpre | exact Hf].
      * right. right. left. exists (text :: pre), rest.
        repeat split; [apply Hcons, Hpre | exact Hf].
      * right. right. right. exists (text :: pre), rest.
        repeat split; [apply Hcons, Hpre | exact Hf].
  - right. right. left. exists [], lines. repeat split. intros p [].
  - right. right. right. exists [], lines. repeat split. intros p [].
Qed.

Lemma extract_title_raises (name : string) (lines : list line_result)
  (e : exn) :
  extract_title_from_md name lines = Raise e ->
  e = UnicodeDecodeError \/ e = FileError.
Proof.
  intros He. unfold extract_title_from_md in He.
  destruct (first_heading_cases lines)
    as [[pre [t [rest [_ [_ [_ Hf]]]]]]
       | [[pre [_ [_ Hf]]]
         | [[pre [rest [_ [_ Hf]]]] | [pre [rest [_ [_ Hf]]]]]]];
    rewrite Hf in He; cbn in He; inversion He; auto.
Qed.

(** X4. The extractor is decided by what opening the file and reading its
    lines give, in order, and it does one of four things.  It returns the
    title of the first heading line read, and reads no further.  Or, every
    read having given a line that is no heading, it returns the stem of the
    name.  Or it raises the decoding error of a read made before any
    heading line was read.  Or it raises the system error of the open, or
    of a read made before any heading line was read.  It raises nothing
    else. *)
Theorem extract_title_outcomes (name : string) (lines : list line_result) :
  ((exists pre text rest,
       lines = (map Line pre ++ Line text :: rest)%list
       /\ (forall p, In p pre -> startswith_hash (strip p) = false)
       /\ startswith_hash (strip text) = true
       /\ extract_title_from_md name lines =
            Ok (strip (drop_while is_hash (strip text))))
   \/ (exists pre,
          lines = map Line pre
          /\ (forall p, In p pre -> startswith_hash (strip p) = false)
          /\ extract_title_from_md name lines = Ok (stem name))
   \/ (exists pre rest,
          lines = (map Line pre ++ Undecodable :: rest)%list
          /\ (forall p, In p pre -> startswith_hash (strip p) = false)
          /\ extract_title_from_md name lines = Raise UnicodeDecodeError)
   \/ (exists pre rest,
          lines = (map Line pre ++ Unreadable :: rest)%list
          /\ (forall p, In p pre -> startswith_hash (strip p) = false)
          /\ extract_title_from_md name lines = Raise FileError))
  /\ (forall e, extract_title_from_md name lines = Raise e ->
                e = UnicodeDecodeError \/ e = FileError)
  /\ extract_title_from_md name [Unreadable] = Raise FileError.
Proof.
  assert (Hcases := first_heading_cases lines).
  split; [| split; [| reflexivity]].
  - destruct Hcases as [[pre [t [rest [Hl [Hpre [Ht Hf]]]]]]
                       | [[pre [Hl [Hpre Hf]]]
                         | [[pre [rest [Hl [Hpre Hf]]]]
                           | [pre [rest [Hl [Hpre Hf]]]]]]].
    + left. exists pre, t, rest. repeat split; try assumption.
      subst lines. apply extract_title_at_heading; assumption.
    + right. left. exists pre. repeat split; try assumption.
      unfold extract_title_from_md. rewrite Hf. reflexivity.
    + right. right. left. exists pre, rest. repeat split; try assumption.
      unfold extract_title_from_md. rewrite Hf. reflexivity.
    + right. right. right. exists pre, rest. repeat split; try assumption.
      unfold extract_title_from_md. rewrite Hf. reflexivity.
  - intros e. apply extract_title_raises.
Qed.

Lemma document_names_witness :
  suffix "intro.md" = ".md" /\ stem "intro.md" = "intro"
  /\ is_document "intro.md" (RegularFile []) = true.
Proof.
  destruct (document_names "intro.md") as [_ [Hsuffix [Hstem [Hdoc _]]]].
  assert (Hform : exists base, base <> "" /\ "intro.md" = base ++ ".md").
  { exists "intro". split; [discriminate | reflexivity]. }
  split; [exact (proj2 Hsuffix Hform) |].
  split.
  - apply (Hstem "intro"). discriminate.
  - apply (proj2 (Hdoc [])). split; [exact Hform | discriminate].
Defined.

(** ** Trimming *)

Lemma string_rev_onto_app (s acc : string) :
  string_rev_onto s acc = string_rev s ++ acc.
Proof.
  revert acc.
  induction s as [| c s IH]; intros acc; [reflexivity |].
  unfold string_rev. cbn [string_rev_onto].
  rewrite (IH (String c acc)), (IH (String c "")), append_assoc.
  reflexivity.
Qed.

Lemma string_rev_cons (c : ascii) (s : string) :
  string_rev (String c s) = string_rev s ++ String c "".
Proof.
  unfold string_rev at 1. cbn [string_rev_onto].
  apply string_rev_onto_app.
Qed.

Lemma string_rev_app (a b : string) :
  string_rev (a ++ b) = string_rev b ++ string_rev a.
Proof.
  induction a as [| c a IH]; cbn [append].
  - cbn. rewrite string_app_empty. reflexivity.
  - rewrite !string_rev_cons, IH, append_assoc. reflexivity.
Qed.

Lemma string_rev_involutive (s : string) : string_rev (string_rev s) = s.
Proof.
  induction s as [| c s IH]; [reflexivity |].
  rewrite string_rev_cons, string_rev_app, IH. reflexivity.
Qed.

Lemma first_char_app (a b : string) :
  a <> "" -> first_char (a ++ b) = first_char a.
Proof. destruct a; [contradiction | reflexivity]. Qed.

Lemma first_char_rev (s : string) : first_char (string_rev s) = last_char s.
Proof.
  induction s as [| c s IH]; [reflexivity |].
  rewrite string_rev_cons.
  destruct s as [| d s]; [reflexivity |].
  rewrite first_char_app.
  - rewrite IH. reflexivity.
  - rewrite string_rev_cons. destruct (string_rev s); discriminate.
Qed.

Lemma last_char_rev (s : string) : last_char (string_rev s) = first_char s.
Proof.
  rewrite <- first_char_rev, string_rev_involutive. reflexivity.
Qed.

Lemma drop_while_first (p : ascii -> bool) (s : string) (c : ascii) :
  first_char (drop_while p s) = Some c -> p c = false.
Proof.
  induction s as [| d s IH]; cbn [drop_while]; [discriminate |].
  destruct (p d) eqn:E; [exact IH |].
  intros H. inversion H; subst. exact E.
Qed.

Lemma drop_while_fixed (p : ascii -> bool) (s : string) :
  (forall c, first_char s = Some c -> p c = false) -> drop_while p s = s.
Proof.
  destruct s as [| d s]; [reflexivity |].
  intros H. cbn [drop_while]. rewrite (H d eq_refl). reflexivity.
Qed.

Lemma drop_while_split (p : ascii -> bool) (s : string) :
  exists dropped, s = dropped ++ drop_while p s.
Proof.
  induction s as [| d s [dropped IH]]; [exists ""; reflexivity |].
  cbn [drop_while]. destruct (p d).
  - exists (String d dropped). cbn [append]. rewrite <- IH. reflexivity.
  - exists "". reflexivity.
Qed.

Lemma strip_trimmed (s : string) : trimmed (strip s).
Proof.
  unfold strip, rstrip, lstrip.
  set (u := drop_while isspace s).
  set (v := drop_while isspace (string_rev u)).
  split.
  - intros c Hc.
    destruct (drop_while_split isspace (string_rev u)) as [w Hw].
    fold v in Hw.
    assert (Hu : u = string_rev v ++ string_rev w).
    { rewrite <- string_rev_app, <- Hw, string_rev_involutive. reflexivity. }
    apply (@drop_while_first isspace s c). fold u. rewrite Hu.
    rewrite first_char_app; [exact Hc |].
    intros E. rewrite E in Hc. discriminate.
  - intros c Hc. rewrite last_char_rev in Hc.
    apply (@drop_while_first isspace (string_rev u) c). exact Hc.
Qed.

Lemma strip_fixed (s : string) : trimmed s -> strip s = s.
Proof.
  intros [Hfirst Hlast].
  unfold strip, rstrip, lstrip.
  rewrite (drop_while_fixed isspace s Hfirst).
  rewrite drop_while_fixed; [apply string_rev_involutive |].
  intros c Hc. rewrite first_char_rev in Hc. apply Hlast, Hc.
Qed.

(** X5. A title taken from a heading line neither begins nor ends with
    whitespace, and trimming it again changes nothing. *)
Theorem heading_title_is_trimmed (name : string) (pre : list string)
  (text : string) (rest : list line_result) (title : string)
  (Hpre : forall p, In p pre -> startswith_hash (strip p) = false)
  (Hhead : startswith_hash (strip text) = true)
  (Htitle : extract_title_from_md name
              (map Line pre ++ Line text :: rest)%list = Ok title) :
  trimmed title /\ strip title = title.
Proof.
  rewrite (@extract_title_at_heading name pre text rest Hpre Hhead) in Htitle.
  inversion Htitle; subst title.
  split; [apply strip_trimmed | apply strip_fixed, strip_trimmed].
Qed.

Lemma heading_title_is_trimmed_witness :
  trimmed "Hello World" /\ strip "Hello World" = "Hello World".
Proof.
  assert (Hpre : forall p, In p ["intro"] ->
                           startswith_hash (strip p) = false).
  { intros p [<- | []]; reflexivity. }
  exact (@heading_title_is_trimmed "notes.md" ["intro"] "  ##  Hello World  "
           [Undecodable] "Hello World" Hpre eq_refl eq_refl).
Defined.

(** ** The renderer and its path argument *)

Lemma render_subtree_any_path (tree : pyval) :
  forall heading_level path1 path2,
    render_subtree tree heading_level path1 =
      render_subtree tree heading_level path2.
Proof.
  induction tree as [elems | items IH] using pyval_induction;
    intros heading_level path1 path2; [reflexivity |].
  rewrite !render_subtree_unfold.
  rewrite (mapM_ext (render_child items heading_level path1)
             (render_child items heading_level path2)); [reflexivity |].
  intros subdir _. unfold render_child.
  destruct (dict_get subdir items) as [subtree |] eqn:Eget; [| reflexivity].
  rewrite Forall_forall in IH.
  specialize (IH _ (dict_get_In _ _ Eget)). cbn [snd] in IH.
  rewrite (IH (heading_level + 1) (path1 ++ "/" ++ subdir)
             (path2 ++ "/" ++ subdir)).
  reflexivity.
Qed.

(** X6. The text rendered for a tree does not depend on the parent path
    handed to the renderer: headings carry bare names, links the paths
    stored in the tree. *)
Theorem render_subtree_ignores_parent_path
  (tree : pyval) (heading_level : nat) (path1 path2 : string) :
  render_subtree tree heading_level path1 =
    render_subtree tree heading_level path2.
Proof. apply render_subtree_any_path. Qed.

(** ** The builder: what it returns and what it raises *)

Lemma reserved_free_entry (listing : list (string * fsnode))
  (entry : string * fsnode) :
  reserved_free (Directory (Some listing)) = true ->
  In entry listing ->
  is_subdir (fst entry) (snd entry) = true ->
  fst entry <> FILES_KEY /\ reserved_free (snd entry) = true.
Proof.
  cbn [reserved_free]. rewrite forallb_forall.
  intros H Hin Hsub. specialize (H entry Hin).
  rewrite Hsub in H. cbn [negb orb] in H.
  apply andb_true_iff in H. destruct H as [Hname Hfree].
  split; [| exact Hfree].
  apply String.eqb_neq, negb_true_iff, Hname.
Qed.

(** While no sub-directory bears the reserved name, the reserved key keeps
    holding a list. *)
Lemma build_loop_files_stay_list (rel : string) (items : list dir_item)
  (tree tree' : pydict) :
  Forall (fun item =>
            is_subdir (item_name item) (item_node item) = true ->
            item_name item <> FILES_KEY) items ->
  (exists docs, dict_get FILES_KEY tree = Some (PyList docs)) ->
  build_loop rel items tree = Ok tree' ->
  exists docs, dict_get FILES_KEY tree' = Some (PyList docs).
Proof.
  intros HP HI H.
  apply (@build_loop_invariant rel
           (fun item =>
              is_subdir (item_name item) (item_node item) = true ->
              item_name item <> FILES_KEY)
           (fun _ tr => exists docs, dict_get FILES_KEY tr = Some (PyList docs)))
    with (items := items) (done := []) (tree := tree); try assumption.
  clear. intros _ item tree tree' HP [docs Hdocs] Hstep.
  destruct Hstep as [_ _ -> | subtree Hsub _ ->
                    | lines title elems _ _ _ _ ->].
  - exists docs. exact Hdocs.
  - exists docs. rewrite dict_get_set_other; [exact Hdocs |].
    intros E. apply (HP Hsub). symmetry. exact E.
  - eexists. apply dict_get_set_same.
Qed.

Lemma build_gives_node (node : fsnode) :
  forall rel tree,
    reserved_free node = true ->
    build_directory_tree rel node = Ok tree ->
    is_node tree = true.
Proof.
  induction node as [lines | | listing IH] using fsnode_induction;
    intros rel tree Hfree H; try discriminate.
  rewrite build_directory_tree_unfold in H.
  destruct (build_loop rel _ _) as [items |] eqn:Eloop; [| discriminate].
  inversion H; subst tree. clear H.
  cbn [is_node]. apply andb_true_iff. split.
  - destruct (@build_loop_files_stay_list rel
                (sorted_by item_key (map (attach rel) listing))
                [(FILES_KEY, PyList [])] items) as [docs Hdocs].
    + apply attached_items_forall. intros entry Hentry Hsub.
      rewrite attach_name, attach_node in *.
      apply (reserved_free_entry _ _ Hfree Hentry Hsub).
    + exists []. reflexivity.
    + exact Eloop.
    + rewrite Hdocs. reflexivity.
  - apply forallb_forall. intros [k v] Hin. cbn [fst snd].
    destruct (String.eqb k FILES_KEY) eqn:Ek; [reflexivity |].
    apply String.eqb_neq in Ek. cbn [orb].
    apply (@build_loop_children rel (fun _ v => is_node v = true)
             (sorted_by item_key (map (attach rel) listing))
             [(FILES_KEY, PyList [])] items) with (k := k);
      [| | exact Eloop | exact Hin | exact Ek].
    + apply attached_items_forall. intros entry Hentry Hsub t Ht.
      rewrite attach_name, attach_node in Hsub. rewrite attach_tree in Ht.
      rewrite Forall_forall in IH.
      apply (IH entry Hentry _ _
               (proj2 (reserved_free_entry _ _ Hfree Hentry Hsub)) Ht).
    + intros k0 v0 [Heq | []] Hne. inversion Heq; subst. contradiction.
Qed.

Lemma mapM_all_ok (A B : Type) (f : A -> result B) (l : list A) :
  (forall x, In x l -> exists y, f x = Ok y) ->
  exists ys, mapM f l = Ok ys.
Proof.
  induction l as [| x l IH]; intros H; [exists []; reflexivity |].
  destruct (H x (or_introl eq_refl)) as [y Hy].
  destruct IH as [ys Hys]; [intros z Hz; apply H; right; exact Hz |].
  exists (y :: ys). cbn [mapM]. rewrite Hy. cbn [bind]. rewrite Hys.
  reflexivity.
Qed.

Lemma render_node_returns (tree : pyval) :
  forall heading_level parent_path,
    is_node tree = true ->
    exists text, render_subtree tree heading_level parent_path = Ok text.
Proof.
  induction tree as [elems | items IH] using pyval_induction;
    intros heading_level parent_path Hnode; [discriminate |].
  cbn [is_node] in Hnode.
  apply andb_true_iff in Hnode. destruct Hnode as [Hfiles Hkids].
  destruct (dict_get FILES_KEY items) as [[docs | ?] |] eqn:Eget;
    try discriminate.
  rewrite forallb_forall in Hkids. rewrite Forall_forall in IH.
  rewrite render_subtree_unfold, (render_documents_list _ Eget).
  cbn [bind].
  destruct (@mapM_all_ok _ _ (render_child items heading_level parent_path)
              (subdirs_of items)) as [blocks Hblocks].
  - intros child Hchild.
    apply subdirs_of_In in Hchild. destruct Hchild as [Hkey Hne].
    destruct (dict_get_key_In _ _ Hkey) as [subtree Hsub].
    unfold render_child. rewrite Hsub.
    pose proof (dict_get_In _ _ Hsub) as Hin.
    specialize (Hkids _ Hin). cbn [fst snd] in Hkids.
    apply orb_true_iff in Hkids. destruct Hkids as [Heq | Hsubnode].
    + apply String.eqb_eq in Heq. contradiction.
    + destruct (IH _ Hin (heading_level + 1)
                  (parent_path ++ "/" ++ child) Hsubnode) as [body Hbody].
      cbn [snd] in Hbody. rewrite Hbody. eexists. reflexivity.
  - rewrite Hblocks. eexists. reflexivity.
Qed.

(** X7. When no sub-directory of the tree bears the reserved name, what
    the builder returns is a DirectoryNode, and the renderer returns a text
    for it: after a build that returned, the render cannot raise. *)
Theorem built_tree_renders (node : fsnode) (rel : string) (tree : pyval)
  (heading_level : nat)
  (Hfree : reserved_free node = true)
  (Hbuild : build_directory_tree rel node = Ok tree) :
  is_node tree = true
  /\ exists text, render_subtree tree heading_level rel = Ok text.
Proof.
  assert (Hnode := build_gives_node node rel Hfree Hbuild).
  split; [exact Hnode |].
  apply render_node_returns, Hnode.
Qed.

Lemma built_tree_renders_witness :
  is_node (PyDict [(FILES_KEY, PyList [("Intro", "go/intro.md")]);
                   ("deep", EMPTY_NODE)]) = true
  /\ exists text,
      render_subtree
        (PyDict [(FILES_KEY, PyList [("Intro", "go/intro.md")]);
                 ("deep", EMPTY_NODE)]) 4 "go" = Ok text.
Proof.
  exact (@built_tree_renders
           (Directory (Some [("intro.md", RegularFile [Line "# Intro"]);
                             ("deep", Directory (Some []))]))
           "go" _ 4 eq_refl eq_refl).
Defined.

(** Why a turn of the loop raises. *)
Lemma build_step_raises (rel : string) (tree : pydict) (item : dir_item)
  (e : exn) :
  build_step rel tree item = Raise e ->
  (is_subdir (item_name item) (item_node item) = true
   /\ item_tree item = Raise e)
  \/ (item_is_document item = true
      /\ ((e = UnicodeDecodeError \/ e = FileError)
          \/ (dict_get FILES_KEY tree = None /\ e = KeyError)
          \/ ((exists d, dict_get FILES_KEY tree = Some (PyDict d))
              /\ e = AttributeError))).
Proof.
  intros H.
  destruct (build_step_kind rel tree item)
    as [Hdir Hign | Hdir Hign | lines Hnode Hdoc | Hdir Hdoc];
    try discriminate.
  - left. split.
    + unfold is_subdir. rewrite Hdir, Hign. reflexivity.
    + destruct (item_tree item) as [subtree | e0]; [discriminate |].
      cbn [bind] in H. inversion H. reflexivity.
  - right. split; [exact Hdoc |].
    destruct (extract_title_from_md (item_name item) lines) as [title |]
      eqn:Etitle.
    + cbn [bind] in H. unfold list_append in H.
      destruct (dict_get FILES_KEY tree) as [[elems | d] |];
        inversion H; subst.
      * right. right. split; [exists d |]; reflexivity.
      * right. left. split; reflexivity.
    + cbn [bind] in H. inversion H; subst.
      left. apply (extract_title_raises _ _ Etitle).
Qed.

Lemma build_loop_raises (rel : string) (P : dir_item -> Prop)
  (I : pydict -> Prop) (E : exn -> Prop) :
  (forall item tree tree',
      P item -> I tree -> step_ok rel tree item tree' -> I tree') ->
  (forall item tree e,
      P item -> I tree -> build_step rel tree item = Raise e -> E e) ->
  forall items tree e,
    Forall P items -> I tree ->
    build_loop rel items tree = Raise e -> E e.
Proof.
  intros Hkeep Hraise.
  induction items as [| item items IH]; intros tree e HP HI H;
    [discriminate |].
  inversion HP as [| ? ? Hitem Hrest]; subst.
  cbn [build_loop] in H.
  destruct (build_step rel tree item) as [tree1 |] eqn:Estep.
  - cbn [bind] in H.
    apply (IH tree1 e Hrest); [| exact H].
    apply (Hkeep item tree tree1 Hitem HI), build_step_ok, Estep.
  - cbn [bind] in H. inversion H; subst.
    apply (Hraise item tree e Hitem HI Estep).
Qed.

Lemma build_raises_scan_or_attribute (node : fsnode) :
  forall rel e,
    build_directory_tree rel node = Raise e ->
    scan_error e \/ e = AttributeError.
Proof.
  induction node as [lines | | listing IH] using fsnode_induction;
    intros rel e H.
  - inversion H. left. left. reflexivity.
  - inversion H. left. left. reflexivity.
  - rewrite build_directory_tree_unfold in H.
    destruct (build_loop rel _ _) as [items |] eqn:Eloop; [discriminate |].
    cbn [bind] in H. inversion H; subst e0. clear H.
    apply (@build_loop_raises rel
             (fun item => forall e', item_tree item = Raise e' ->
                                     scan_error e' \/ e' = AttributeError)
             (fun tr => exists v, dict_get FILES_KEY tr = Some v)
             (fun e' => scan_error e' \/ e' = AttributeError))
      with (items := sorted_by item_key (map (attach rel) listing))
           (tree := [(FILES_KEY, PyList [])]).
    + intros item tree tree' _ [v Hv] Hstep.
      destruct Hstep as [_ _ -> | subtree _ _ -> | lines title elems _ _ _ _ ->].
      * exists v. exact Hv.
      * destruct (String.eqb FILES_KEY (item_name item)) eqn:Ek.
        -- apply String.eqb_eq in Ek. rewrite <- Ek.
           eexists. apply dict_get_set_same.
        -- apply String.eqb_neq in Ek. exists v.
           rewrite dict_get_set_other; assumption.
      * eexists. apply dict_get_set_same.
    + intros item tree e' HP [v Hv] Hstep.
      apply build_step_raises in Hstep.
      destruct Hstep as [[_ Htree] | [_ [[-> | ->] | [[Hnone _] | [_ ->]]]]].
      * apply HP, Htree.
      * left. right. right. reflexivity.
      * left. right. left. reflexivity.
      * rewrite Hv in Hnone. discriminate.
      * right. reflexivity.
    + apply attached_items_forall. intros entry Hentry e' He'.
      rewrite attach_tree in He'. rewrite Forall_forall in IH.
      apply (IH entry Hentry _ _ He').
    + exists (PyList []). reflexivity.
    + exact Eloop.
Qed.

Lemma build_raises_scan (node : fsnode) :
  forall rel e,
    reserved_free node = true ->
    build_directory_tree rel node = Raise e ->
    scan_error e.
Proof.
  induction node as [lines | | listing IH] using fsnode_induction;
    intros rel e Hfree H.
  - inversion H. left. reflexivity.
  - inversion H. left. reflexivity.
  - rewrite build_directory_tree_unfold in H.
    destruct (build_loop rel _ _) as [items |] eqn:Eloop; [discriminate |].
    cbn [bind] in H. inversion H; subst e0. clear H.
    apply (@build_loop_raises rel
             (fun item =>
                is_subdir (item_name item) (item_node item) = true ->
                item_name item <> FILES_KEY
                /\ forall e', item_tree item = Raise e' -> scan_error e')
             (fun tr => exists docs, dict_get FILES_KEY tr = Some (PyList docs))
             scan_error)
      with (items := sorted_by item_key (map (attach rel) listing))
           (tree := [(FILES_KEY, PyList [])]).
    + intros item tree tree' HP [docs Hdocs] Hstep.
      destruct Hstep as [_ _ -> | subtree Hsub _ ->
                        | lines title elems _ _ _ _ ->].
      * exists docs. exact Hdocs.
      * exists docs. rewrite dict_get_set_other; [exact Hdocs |].
        intros E. apply (proj1 (HP Hsub)). symmetry. exact E.
      * eexists. apply dict_get_set_same.
    + intros item tree e' HP [docs Hdocs] Hstep.
      apply build_step_raises in Hstep.
      destruct Hstep
        as [[Hsub Htree] | [_ [[-> | ->] | [[Hnone _] | [[d Hd] _]]]]].
      * apply (proj2 (HP Hsub)), Htree.
      * right. right. reflexivity.
      * right. left. reflexivity.
      * rewrite Hdocs in Hnone. discriminate.
      * rewrite Hdocs in Hd. discriminate.
    + apply attached_items_forall. intros entry Hentry Hsub.
      rewrite attach_name, attach_node in Hsub.
      destruct (reserved_free_entry _ _ Hfree Hentry Hsub) as [Hname Hchild].
      rewrite attach_name. split; [exact Hname |].
      intros e' He'. rewrite attach_tree in He'.
      rewrite Forall_forall in IH. apply (IH entry Hentry _ _ Hchild He').
    + exists []. reflexivity.
    + exact Eloop.
Qed.

(** X8. The builder raises only the error of a directory that cannot be
    listed, the system error of a document that cannot be opened or read,
    the error of a document that cannot be decoded, or an
    [AttributeError]; and the last one only when some sub-directory bears
    the reserved name.  It never raises [KeyError] or [ValueError]. *)
Theorem build_directory_tree_raises_only (node : fsnode) (rel : string)
  (e : exn)
  (Hraise : build_directory_tree rel node = Raise e) :
  (e = ListingError \/ e = FileError \/ e = UnicodeDecodeError
   \/ e = AttributeError)
  /\ (reserved_free node = true ->
      e = ListingError \/ e = FileError \/ e = UnicodeDecodeError).
Proof.
  split.
  - destruct (build_raises_scan_or_attribute node rel Hraise)
      as [[-> | [-> | ->]] | ->]; auto.
  - intros Hfree. apply (build_raises_scan node rel Hfree Hraise).
Qed.

Lemma build_directory_tree_raises_only_witness :
  (AttributeError = ListingError \/ AttributeError = FileError
   \/ AttributeError = UnicodeDecodeError
   \/ AttributeError = AttributeError)
  /\ (FileError = ListingError \/ FileError = FileError
      \/ FileError = UnicodeDecodeError).
Proof.
  split.
  - exact (proj1 (@build_directory_tree_raises_only
                    (Directory
                       (Some [("a.md", RegularFile [Line "# A"]);
                              ("__files__", Directory (Some []))]))
                    "t" AttributeError eq_refl)).
  - exact (proj2 (@build_directory_tree_raises_only
                    (Directory
                       (Some [("dangling.md", RegularFile [Unreadable])]))
                    "t" FileError eq_refl) eq_refl).
Defined.

(** ** When the builder returns *)

Lemma readable_entry (listing : list (string * fsnode))
  (entry : string * fsnode) :
  readable (Directory (Some listing)) = true ->
  In entry listing ->
  (is_subdir (fst entry) (snd entry) = true -> readable (snd entry) = true)
  /\ (is_document (fst entry) (snd entry) = true ->
      decodes (snd entry) = true).
Proof.
  cbn [readable]. rewrite forallb_forall.
  intros H Hin. specialize (H entry Hin).
  apply andb_true_iff in H. destruct H as [Hsub Hdoc].
  split; intros E; rewrite E in *; [exact Hsub | exact Hdoc].
Qed.

Lemma extract_title_returns_iff (name : string) (lines : list line_result) :
  (exists title, extract_title_from_md name lines = Ok title) <->
  decodes (RegularFile lines) = true.
Proof.
  unfold extract_title_from_md, decodes.
  destruct (first_heading lines) as [[title |] | e]; cbn [bind].
  - split; [reflexivity | intros _; eexists; reflexivity].
  - split; [reflexivity | intros _; eexists; reflexivity].
  - split; [intros [title H]; discriminate | discriminate].
Qed.

Lemma build_loop_returns (rel : string) (I : pydict -> Prop)
  (items : list dir_item) :
  Forall (fun item =>
            forall tree, I tree ->
              exists tree', build_step rel tree item = Ok tree' /\ I tree')
    items ->
  forall tree, I tree -> exists tree', build_loop rel items tree = Ok tree'.
Proof.
  induction items as [| item items IH]; intros HP tree HI.
  - exists tree. reflexivity.
  - inversion HP as [| ? ? Hitem Hrest]; subst.
    destruct (Hitem tree HI) as [tree1 [Hstep HI1]].
    destruct (IH Hrest tree1 HI1) as [tree' Hloop].
    exists tree'. cbn [build_loop]. rewrite Hstep. exact Hloop.
Qed.

Lemma build_loop_every_step (rel : string) (items : list dir_item) :
  forall tree tree',
    build_loop rel items tree = Ok tree' ->
    Forall (fun item => exists tr tr', step_ok rel tr item tr') items.
Proof.
  induction items as [| item items IH]; intros tree tree' H; [constructor |].
  cbn [build_loop] in H.
  destruct (build_step rel tree item) as [tree1 |] eqn:Estep;
    [| discriminate].
  constructor.
  - exists tree, tree1. apply build_step_ok, Estep.
  - apply (IH tree1 tree' H).
Qed.

Lemma readable_builds (node : fsnode) :
  forall rel,
    is_dir node = true ->
    reserved_free node = true ->
    readable node = true ->
    exists tree, build_directory_tree rel node = Ok tree.
Proof.
  induction node as [lines | | listing IH] using fsnode_induction;
    intros rel Hdir Hfree Hread; try discriminate.
  rewrite build_directory_tree_unfold.
  destruct (@build_loop_returns rel
              (fun tr => exists docs, dict_get FILES_KEY tr = Some (PyList docs))
              (sorted_by item_key (map (attach rel) listing)))
    with (tree := [(FILES_KEY, PyList [])]) as [tree Htree].
  - apply attached_items_forall. intros entry Hentry tree [docs Hdocs].
    destruct (readable_entry _ _ Hread Hentry) as [Hsubread Hdocread].
    destruct (build_step_kind rel tree (attach rel entry))
      as [_ _ | Hd Hign | lines Hnode Hdoc | _ _].
    + exists tree. split; [reflexivity | exists docs; exact Hdocs].
    + rewrite attach_node in Hd. rewrite attach_name in Hign.
      assert (Hsub : is_subdir (fst entry) (snd entry) = true)
        by (unfold is_subdir; rewrite Hd, Hign; reflexivity).
      destruct (reserved_free_entry _ _ Hfree Hentry Hsub) as [Hname Hchild].
      rewrite Forall_forall in IH.
      destruct (IH entry Hentry (rel ++ "/" ++ fst entry) Hd Hchild
                  (Hsubread Hsub)) as [subtree Hsubtree].
      rewrite attach_tree, Hsubtree, attach_name. cbn [bind].
      eexists. split; [reflexivity |].
      exists docs. rewrite dict_get_set_other; [exact Hdocs |].
      intros E. apply Hname. symmetry. exact E.
    + unfold item_is_document in Hdoc.
      rewrite attach_name, attach_node in Hdoc. rewrite attach_node in Hnode.
      specialize (Hdocread Hdoc). rewrite Hnode in Hdocread.
      apply extract_title_returns_iff with (name := fst entry) in Hdocread.
      destruct Hdocread as [title Htitle].
      rewrite attach_name, Htitle. cbn [bind].
      unfold list_append. rewrite Hdocs.
      eexists. split; [reflexivity |].
      eexists. apply dict_get_set_same.
    + exists tree. split; [reflexivity | exists docs; exact Hdocs].
  - exists []. reflexivity.
  - rewrite Htree. eexists. reflexivity.
Qed.

Lemma built_is_readable (node : fsnode) :
  forall rel tree,
    build_directory_tree rel node = Ok tree -> readable node = true.
Proof.
  induction node as [lines | | listing IH] using fsnode_induction;
    intros rel tree H; try discriminate.
  rewrite build_directory_tree_unfold in H.
  destruct (build_loop rel _ _) as [items |] eqn:Eloop; [| discriminate].
  apply build_loop_every_step in Eloop.
  rewrite Forall_forall in Eloop, IH.
  cbn [readable]. apply forallb_forall. intros entry Hentry.
  destruct (Eloop (attach rel entry)) as [tr [tr' Hstep]];
    [apply sorted_by_In, in_map, Hentry |].
  destruct Hstep as [Hdoc Hsub _ | subtree Hsub Htree _
                    | lines title elems Hnode Hdoc Htitle _ _];
    unfold item_is_document in *;
    rewrite ?attach_name, ?attach_node, ?attach_tree in *.
  - rewrite Hdoc, Hsub. reflexivity.
  - rewrite Hsub, (IH entry Hentry _ _ Htree). cbn [negb orb andb].
    assert (Hnd : is_document (fst entry) (snd entry) = false).
    { unfold is_subdir in Hsub. unfold is_document.
      destruct (is_dir (snd entry)); [reflexivity | discriminate]. }
    rewrite Hnd. reflexivity.
  - assert (Hns : is_subdir (fst entry) (snd entry) = false)
      by (unfold is_subdir; rewrite Hnode; reflexivity).
    rewrite Hns, Hdoc, Hnode. cbn [negb orb andb].
    apply extract_title_returns_iff with (name := fst entry).
    exists title. exact Htitle.
Qed.

(** X9. For a directory in which no sub-directory bears the reserved name,
    the builder returns a tree exactly when every directory it enters can be
    listed and, for every document, opening it and reading its lines raise
    nothing before a heading line is read or the end of the file is met;
    directories of the deny-list are not entered and files that are not
    documents are not opened, so neither plays a part. *)
Theorem build_returns_iff_readable
  (listing : option (list (string * fsnode))) (rel : string)
  (Hfree : reserved_free (Directory listing) = true) :
  (exists tree, build_directory_tree rel (Directory listing) = Ok tree) <->
  readable (Directory listing) = true.
Proof.
  split.
  - intros [tree H]. apply (built_is_readable _ _ H).
  - intros H. apply readable_builds; [reflexivity | exact Hfree | exact H].
Qed.

Lemma build_returns_iff_readable_witness :
  (exists tree,
      build_directory_tree "go"
        (Directory
           (Some [(".git", Directory None);
                  ("notes.txt", RegularFile [Unreadable]);
                  ("intro.md", RegularFile [Line "text"; Line "# Intro"])])) =
        Ok tree)
  /\ readable
       (Directory
          (Some [("intro.md", RegularFile [Line "text"; Undecodable])])) =
       false.
Proof.
  split.
  - exact (proj2 (@build_returns_iff_readable
                    (Some [(".git", Directory None);
                           ("notes.txt", RegularFile [Unreadable]);
                           ("intro.md",
                            RegularFile [Line "text"; Line "# Intro"])])
                    "go" eq_refl) eq_refl).
  - reflexivity.
Defined.

(** ** One document per qualifying file, one key per sub-directory *)

Lemma dict_set_fresh (V : Type) (k : string) (v : V) (d : list (string * V)) :
  ~ In k (map fst d) -> dict_set k v d = (d ++ [(k, v)])%list.
Proof.
  induction d as [| [k' v'] d IH]; intros Hfresh; [reflexivity |].
  cbn [dict_set map fst In] in *.
  destruct (String.eqb k k') eqn:E.
  - apply String.eqb_eq in E. exfalso. apply Hfresh. left. symmetry. exact E.
  - rewrite IH by (intros Hin; apply Hfresh; right; exact Hin). reflexivity.
Qed.

Lemma Forall2_snoc (A B : Type) (R : A -> B -> Prop) (l : list A)
  (l' : list B) (x : A) (y : B) :
  Forall2 R l l' -> R x y -> Forall2 R (l ++ [x])%list (l' ++ [y])%list.
Proof.
  intros H Hxy. apply Forall2_app; [exact H |].
  constructor; [exact Hxy | constructor].
Qed.

Lemma Forall2_map_right (A B C : Type) (R : A -> C -> Prop) (f : B -> C)
  (l : list A) (l' : list B) :
  Forall2 R l (map f l') -> Forall2 (fun a b => R a (f b)) l l'.
Proof.
  revert l.
  induction l' as [| b l' IH]; intros l H; inversion H; subst;
    constructor; auto.
Qed.

Lemma Forall2_left_in (A B : Type) (R : A -> B -> Prop) (l : list A)
  (l' : list B) (x : A) :
  Forall2 R l l' -> In x l -> exists y, In y l' /\ R x y.
Proof.
  induction 1 as [| a b l l' Hab H IH]; intros Hin; [destruct Hin |].
  destruct Hin as [<- | Hin].
  - exists b. split; [left; reflexivity | exact Hab].
  - destruct (IH Hin) as [y [Hy Hxy]]. exists y.
    split; [right; exact Hy | exact Hxy].
Qed.

Lemma children_keys_in_done (children : pydict) (done : list dir_item) :
  Forall2 (fun kv item => fst kv = item_name item
                          /\ item_tree item = Ok (snd kv))
    children (filter item_is_subdir done) ->
  forall k, In k (map fst children) -> In k (map item_name done).
Proof.
  intros H k Hk.
  apply in_map_iff in Hk. destruct Hk as [kv [<- Hkv]].
  destruct (@Forall2_left_in _ _ _ _ _ _ H Hkv) as [item [Hitem [Hname _]]].
  rewrite Hname. apply in_map.
  apply filter_In in Hitem. exact (proj1 Hitem).
Qed.

Lemma build_loop_partition (rel : string) (items : list dir_item) :
  forall done docs children tree',
    NoDup (map item_name (done ++ items)) ->
    Forall (fun item => item_is_subdir item = true ->
                        item_name item <> FILES_KEY) items ->
    Forall2 (fun d item =>
               snd d = rel ++ "/" ++ item_name item
               /\ exists lines,
                   item_node item = RegularFile lines
                   /\ extract_title_from_md (item_name item) lines =
                        Ok (fst d))
      docs (filter item_is_document done) ->
    Forall2 (fun kv item => fst kv = item_name item
                            /\ item_tree item = Ok (snd kv))
      children (filter item_is_subdir done) ->
    build_loop rel items ((FILES_KEY, PyList docs) :: children) = Ok tree' ->
    exists docs' children',
      tree' = (FILES_KEY, PyList docs') :: children'
      /\ Forall2 (fun d item =>
                    snd d = rel ++ "/" ++ item_name item
                    /\ exists lines,
                        item_node item = RegularFile lines
                        /\ extract_title_from_md (item_name item) lines =
                             Ok (fst d))
           docs' (filter item_is_document (done ++ items))
      /\ Forall2 (fun kv item => fst kv = item_name item
                                 /\ item_tree item = Ok (snd kv))
           children' (filter item_is_subdir (done ++ items)).
Proof.
  induction items as [| item items IH];
    intros done docs children tree' Hnd Hnames Hdocs Hkids H.
  - inversion H; subst. rewrite app_nil_r.
    exists docs, children. auto.
  - cbn [build_loop] in H.
    destruct (build_step rel ((FILES_KEY, PyList docs) :: children) item)
      as [tree1 |] eqn:Estep; [| discriminate].
    cbn [bind] in H.
    inversion Hnames as [| ? ? Hname Hrest]; subst.
    assert (Hfresh : ~ In (item_name item) (map item_name done)).
    { rewrite map_app in Hnd. cbn [map] in Hnd.
      apply NoDup_remove_2 in Hnd.
      intros Hin. apply Hnd, in_or_app. left. exact Hin. }
    replace (done ++ item :: items)%list
      with ((done ++ [item]) ++ items)%list in *
      by (rewrite <- app_assoc; reflexivity).
    apply build_step_ok in Estep.
    destruct Estep as [Hdoc Hsub -> | subtree Hsub Htree ->
                      | lines title elems Hnode Hdoc Htitle Hget ->].
    + apply (IH (done ++ [item])%list docs children tree' Hnd Hrest);
        [| | exact H]; rewrite filter_app; cbn [filter].
      * rewrite Hdoc, app_nil_r. exact Hdocs.
      * unfold item_is_subdir. rewrite Hsub, app_nil_r. exact Hkids.
    + assert (Hdoc : item_is_document item = false).
      { unfold item_is_document, is_document. unfold is_subdir in Hsub.
        destruct (is_dir (item_node item)); [reflexivity | discriminate]. }
      cbn [dict_set] in H.
      assert (Hne : String.eqb (item_name item) FILES_KEY = false)
        by (apply String.eqb_neq, Hname, Hsub).
      rewrite Hne in H.
      rewrite dict_set_fresh in H
        by (intros Hin; apply Hfresh;
            apply (@children_keys_in_done _ _ Hkids), Hin).
      apply (IH (done ++ [item])%list docs
               (children ++ [(item_name item, subtree)])%list tree' Hnd Hrest);
        [| | exact H]; rewrite filter_app; cbn [filter].
      * rewrite Hdoc, app_nil_r. exact Hdocs.
      * unfold item_is_subdir at 2. rewrite Hsub.
        apply Forall2_snoc; [exact Hkids |]. split; [reflexivity | exact Htree].
    + cbn [dict_get] in Hget. rewrite String.eqb_refl in Hget.
      inversion Hget; subst elems.
      cbn [dict_set] in H. rewrite String.eqb_refl in H.
      assert (Hsub : item_is_subdir item = false)
        by (unfold item_is_subdir, is_subdir; rewrite Hnode; reflexivity).
      apply (IH (done ++ [item])%list
               (docs ++ [(title, (rel ++ "/" ++ item_name item)%string)])%list
               children tree' Hnd Hrest);
        [| | exact H]; rewrite filter_app; cbn [filter].
      * rewrite Hdoc. apply Forall2_snoc; [exact Hdocs |].
        split; [reflexivity |]. exists lines. split; assumption.
      * rewrite Hsub, app_nil_r. exact Hkids.
Qed.

Lemma attached_sorted (rel : string) (listing : list (string * fsnode)) :
  sorted_by item_key (map (attach rel) listing) =
    map (attach rel) (sorted_entries listing).
Proof.
  rewrite sorted_by_map. unfold sorted_entries. f_equal.
  apply sorted_by_ext. intros entry. unfold item_key.
  rewrite attach_name. reflexivity.
Qed.

Lemma attached_filter (rel : string) (p : dir_item -> bool)
  (q : string * fsnode -> bool) (listing : list (string * fsnode)) :
  (forall entry, p (attach rel entry) = q entry) ->
  filter p (map (attach rel) listing) = map (attach rel) (filter q listing).
Proof.
  intros H. rewrite filter_map_swap. f_equal.
  apply filter_ext. exact H.
Qed.

(** X10. When the names of a directory are distinct and no sub-directory
    bears the reserved name, the tree built for it holds, under the reserved
    key, exactly one document for each qualifying file, in the order of the
    lower-cased names, with the title extracted from that file and the path
    of that file below the root; and after it exactly one key for each
    sub-directory that is kept, in the same order, holding the tree built
    for that sub-directory.  Nothing else is in the tree. *)
Theorem build_partitions_entries (rel : string)
  (listing : list (string * fsnode)) (tree : pyval)
  (Hnd : NoDup (map fst listing))
  (Hnames : forall entry, In entry listing ->
              is_subdir (fst entry) (snd entry) = true ->
              fst entry <> FILES_KEY)
  (Hbuild : build_directory_tree rel (Directory (Some listing)) = Ok tree) :
  exists docs children,
    tree = PyDict ((FILES_KEY, PyList docs) :: children)
    /\ Forall2 (document_of rel) docs
         (filter (fun entry => is_document (fst entry) (snd entry))
            (sorted_entries listing))
    /\ Forall2 (child_of rel) children
         (filter (fun entry => is_subdir (fst entry) (snd entry))
            (sorted_entries listing)).
Proof.
  rewrite build_directory_tree_unfold, attached_sorted in Hbuild.
  destruct (build_loop rel _ _) as [items |] eqn:Eloop; [| discriminate].
  inversion Hbuild; subst tree. clear Hbuild.
  destruct (@build_loop_partition rel
              (map (attach rel) (sorted_entries listing))
              [] [] [] items)
    as [docs [children [-> [Hdocs Hkids]]]].
  - cbn [app]. rewrite attached_names.
    apply names_distinct_sorted, Hnd.
  - apply Forall_forall. intros item Hitem Hsub.
    apply in_map_iff in Hitem. destruct Hitem as [entry [<- Hentry]].
    unfold item_is_subdir in Hsub. rewrite attach_name, attach_node in *.
    apply Hnames; [| exact Hsub].
    apply (sorted_by_In (fun e => lower (fst e)) entry listing), Hentry.
  - constructor.
  - constructor.
  - exact Eloop.
  - exists docs, children. split; [reflexivity |].
    cbn [app] in Hdocs, Hkids. split.
    + rewrite (@attached_filter rel item_is_document
                 (fun entry => is_document (fst entry) (snd entry))) in Hdocs
        by (intros entry; unfold item_is_document;
            rewrite attach_name, attach_node; reflexivity).
      apply Forall2_map_right in Hdocs.
      eapply Forall2_impl; [| exact Hdocs].
      intros d entry [Hpath [lines [Hnode Htitle]]].
      rewrite attach_name in *. rewrite attach_node in Hnode.
      split; [exact Hpath |]. exists lines. split; assumption.
    + rewrite (@attached_filter rel item_is_subdir
                 (fun entry => is_subdir (fst entry) (snd entry))) in Hkids
        by (intros entry; unfold item_is_subdir;
            rewrite attach_name, attach_node; reflexivity).
      apply Forall2_map_right in Hkids.
      eapply Forall2_impl; [| exact Hkids].
      intros kv entry [Hkey Htree].
      rewrite attach_name in Hkey. rewrite attach_tree in Htree.
      split; assumption.
Qed.

Lemma build_partitions_entries_witness :
  exists docs children,
    PyDict [(FILES_KEY, PyList [("a", "t/a.md"); ("Bee", "t/B.md")]);
            ("c", EMPTY_NODE); ("Z", EMPTY_NODE)] =
      PyDict ((FILES_KEY, PyList docs) :: children)
    /\ List.length docs = 2 /\ List.length children = 2.
Proof.
  assert (Hnd : NoDup (map fst
                         (example_listing [Line "text"] [Line "# Bee"]
                            (Some []) (Some [])))).
  { repeat (constructor; [cbn; intuition discriminate |]). constructor. }
  assert (Hnames : forall entry,
             In entry (example_listing [Line "text"] [Line "# Bee"]
                         (Some []) (Some [])) ->
             is_subdir (fst entry) (snd entry) = true ->
             fst entry <> FILES_KEY).
  { intros entry [<- | [<- | [<- | [<- | []]]]] _; discriminate. }
  destruct (@build_partitions_entries "t"
              (example_listing [Line "text"] [Line "# Bee"]
                 (Some []) (Some []))
              _ Hnd Hnames eq_refl)
    as [docs [children [Htree [Hdocs Hkids]]]].
  exists docs, children.
  split; [exact Htree |].
  split.
  - apply Forall2_length in Hdocs. exact Hdocs.
  - apply Forall2_length in Hkids. exact Hkids.
Defined.

(** ** The order in which the system lists a directory *)

Lemma insert_by_related (A B : Type) (R : A -> B -> Prop)
  (key : A -> string) (key' : B -> string) (x : A) (y : B)
  (l : list A) (l' : list B) :
  (forall a b, R a b -> key a = key' b) ->
  R x y -> Forall2 R l l' ->
  Forall2 R (insert_by key x l) (insert_by key' y l').
Proof.
  intros Hkey Hxy H.
  induction H as [| a b l l' Hab H IH]; cbn [insert_by].
  - constructor; [exact Hxy | constructor].
  - rewrite (Hkey x y Hxy), (Hkey a b Hab).
    destruct (String.leb (key' y) (key' b)).
    + constructor; [exact Hxy |]. constructor; assumption.
    + constructor; assumption.
Qed.

Lemma sorted_by_related (A B : Type) (R : A -> B -> Prop)
  (key : A -> string) (key' : B -> string) (l : list A) (l' : list B) :
  (forall a b, R a b -> key a = key' b) ->
  Forall2 R l l' -> Forall2 R (sorted_by key l) (sorted_by key' l').
Proof.
  intros Hkey H.
  induction H as [| a b l l' Hab H IH]; cbn; [constructor |].
  apply insert_by_related; assumption.
Qed.

Lemma filter_related (A B : Type) (R : A -> B -> Prop)
  (p : A -> bool) (q : B -> bool) (l : list A) (l' : list B) :
  (forall a b, R a b -> p a = q b) ->
  Forall2 R l l' -> Forall2 R (filter p l) (filter q l').
Proof.
  intros Hpq H.
  induction H as [| a b l l' Hab H IH]; cbn [filter]; [constructor |].
  rewrite (Hpq a b Hab). destruct (q b); [constructor |]; assumption.
Qed.

Lemma filter_permuted (A : Type) (p : A -> bool) (l l' : list A) :
  Permutation l l' -> Permutation (filter p l) (filter p l').
Proof.
  induction 1 as [| x l l' H IH | x y l | l l' l'' H IH H' IH'];
    cbn [filter].
  - constructor.
  - destruct (p x); [constructor |]; exact IH.
  - destruct (p x); destruct (p y); try apply Permutation_refl.
    apply perm_swap.
  - eapply perm_trans; eassumption.
Qed.

Lemma Forall2_with_left (A B : Type) (R R' : A -> B -> Prop)
  (l : list A) (l' : list B) :
  (forall a b, In a l -> R a b -> R' a b) ->
  Forall2 R l l' -> Forall2 R' l l'.
Proof.
  intros Himp H.
  induction H as [| a b l l' Hab H IH]; constructor.
  - apply Himp; [left; reflexivity | exact Hab].
  - apply IH. intros x y Hx. apply Himp. right. exact Hx.
Qed.

Lemma same_entries_is_dir (node node' : fsnode) :
  same_entries node node' -> is_dir node = is_dir node'.
Proof. destruct 1; reflexivity. Qed.

Lemma build_step_same_entry (rel : string) (tree : pydict)
  (entry entry' : string * fsnode) :
  fst entry = fst entry' ->
  same_entries (snd entry) (snd entry') ->
  build_directory_tree (rel ++ "/" ++ fst entry) (snd entry) =
    build_directory_tree (rel ++ "/" ++ fst entry') (snd entry') ->
  build_step rel tree (attach rel entry) =
    build_step rel tree (attach rel entry').
Proof.
  destruct entry as [name node], entry' as [name' node'].
  cbn [fst snd]. intros <- Hsame Hbuild.
  unfold build_step. cbn [attach item_name item_node item_tree].
  rewrite Hbuild. destruct Hsame; reflexivity.
Qed.

Lemma build_loop_related (rel : string)
  (entries entries' : list (string * fsnode)) (tree : pydict) :
  Forall2 (fun entry entry' =>
             forall tr, build_step rel tr (attach rel entry) =
                        build_step rel tr (attach rel entry'))
    entries entries' ->
  build_loop rel (map (attach rel) entries) tree =
    build_loop rel (map (attach rel) entries') tree.
Proof.
  intros H. revert tree.
  induction H as [| entry entry' l l' Hstep H IH]; intros tree;
    [reflexivity |].
  cbn [map build_loop]. rewrite Hstep.
  destruct (build_step rel tree (attach rel entry')); cbn [bind];
    [apply IH | reflexivity].
Qed.

Lemma lower_names_attached (rel : string) (listing : list (string * fsnode)) :
  map item_key (map (attach rel) listing) =
    map (fun entry => lower (fst entry)) listing.
Proof.
  rewrite map_map. apply map_ext. intros entry.
  unfold item_key. rewrite attach_name. reflexivity.
Qed.

Lemma build_same_entries (node : fsnode) :
  forall node' rel,
    same_entries node node' -> case_distinct node ->
    build_directory_tree rel node = build_directory_tree rel node'.
Proof.
  induction node as [lines | | listing IH] using fsnode_induction;
    intros node' rel Hsame Hdistinct.
  - inversion Hsame; subst. reflexivity.
  - inversion Hsame; subst. reflexivity.
  - inversion Hsame as [| | ? reordered listing' Hperm Hpairs]; subst.
    inversion Hdistinct as [| | ? Hnd Hkids]; subst.
    rewrite !build_directory_tree_unfold. f_equal.
    rewrite (@sorted_by_perm_unique _ item_key
               (map (attach rel) listing) (map (attach rel) reordered))
      by (try apply Permutation_map; try rewrite lower_names_attached;
          assumption).
    rewrite !attached_sorted.
    apply build_loop_related.
    apply Forall2_impl
      with (R1 := fun entry entry' : string * fsnode =>
                    fst entry = fst entry'
                    /\ forall tr, build_step rel tr (attach rel entry) =
                                  build_step rel tr (attach rel entry'));
      [intros a b [_ Hstep]; exact Hstep |].
    apply sorted_by_related;
      [intros a b [Hname _]; rewrite Hname; reflexivity |].
    eapply Forall2_with_left; [| exact Hpairs].
    intros entry entry' Hin [Hname Hsub]. cbn beta.
    assert (Hin' : In entry listing)
      by (eapply Permutation_in; [apply Permutation_sym, Hperm | exact Hin]).
    rewrite Forall_forall in IH, Hkids.
    split; [exact Hname |].
    intros tr. apply build_step_same_entry; [exact Hname | exact Hsub |].
    rewrite <- Hname.
    apply (IH entry Hin' _ _ Hsub (Hkids entry Hin')).
Qed.

Lemma topics_loop_related (topic_dirs topic_dirs' : list (string * fsnode))
  (acc : pydict) :
  Forall2 (fun entry entry' =>
             fst entry = fst entry'
             /\ build_directory_tree (fst entry) (snd entry) =
                  build_directory_tree (fst entry') (snd entry'))
    topic_dirs topic_dirs' ->
  topics_loop topic_dirs acc = topics_loop topic_dirs' acc.
Proof.
  intros H. revert acc.
  induction H as [| [name node] [name' node'] l l' [Hname Hbuild] H IH];
    intros acc; [reflexivity |].
  cbn [fst snd] in Hname, Hbuild. subst name'.
  cbn [topics_loop]. rewrite Hbuild.
  destruct (build_directory_tree name node'); cbn [bind];
    [apply IH | reflexivity].
Qed.

Lemma topic_dirs_of_topics (listing : list (string * fsnode)) :
  topic_dirs_of listing =
    sorted_by (fun d : string * fsnode => lower (fst d))
      (filter is_topic listing).
Proof. reflexivity. Qed.

Lemma scan_build_render_same_entries (linesep : string)
  (listing listing' : list (string * fsnode)) :
  same_entries (Directory (Some listing)) (Directory (Some listing')) ->
  case_distinct (Directory (Some listing)) ->
  scan_build_render linesep listing = scan_build_render linesep listing'.
Proof.
  intros Hsame Hdistinct.
  inversion Hsame as [| | ? reordered ? Hperm Hpairs]; subst.
  inversion Hdistinct as [| | ? Hnd Hkids]; subst.
  unfold scan_build_render. f_equal.
  rewrite !topic_dirs_of_topics.
  rewrite (@sorted_by_perm_unique _ (fun d : string * fsnode => lower (fst d))
             (filter is_topic listing) (filter is_topic reordered))
    by (try apply filter_permuted; try apply names_distinct_filter;
        assumption).
  apply topics_loop_related.
  apply Forall2_impl
    with (R1 := fun entry entry' : string * fsnode =>
                  fst entry = fst entry'
                  /\ same_entries (snd entry) (snd entry')
                  /\ forall rel, build_directory_tree rel (snd entry) =
                                 build_directory_tree rel (snd entry')).
  - intros a b [Hname [_ Hbuild]]. split; [exact Hname |].
    rewrite <- Hname. apply Hbuild.
  - apply sorted_by_related;
      [intros a b [Hname _]; rewrite Hname; reflexivity |].
    apply filter_related.
    + intros a b [Hname [Hsub _]]. unfold is_topic.
      rewrite Hname, (same_entries_is_dir Hsub). reflexivity.
    + eapply Forall2_with_left; [| exact Hpairs].
      intros entry entry' Hin [Hname Hsub]. cbn beta.
      split; [exact Hname |]. split; [exact Hsub |].
      intros rel. apply build_same_entries; [exact Hsub |].
      rewrite Forall_forall in Hkids. apply Hkids.
      eapply Permutation_in; [apply Permutation_sym, Hperm | exact Hin].
Qed.

(** X11. When no two names of a directory differ by case only, the order
    in which the system lists the entries, at any depth, changes neither
    the tree built nor the text of the index. *)
Theorem listing_order_is_irrelevant :
  (forall node node' rel,
      same_entries node node' -> case_distinct node ->
      build_directory_tree rel node = build_directory_tree rel node')
  /\ (forall linesep listing listing',
         same_entries (Directory (Some listing))
           (Directory (Some listing')) ->
         case_distinct (Directory (Some listing)) ->
         scan_build_render linesep listing =
           scan_build_render linesep listing').
Proof.
  split.
  - intros node. apply build_same_entries.
  - apply scan_build_render_same_entries.
Qed.

Lemma listing_order_is_irrelevant_witness :
  scan_build_render nl
    [("rust", Directory (Some [])); ("go", Directory (Some []))] =
    scan_build_render nl
      [("go", Directory (Some [])); ("rust", Directory (Some []))].
Proof.
  assert (Hempty : same_entries (Directory (Some [])) (Directory (Some [])))
    by (apply same_dir with (reordered := []); constructor).
  assert (Hleaf : case_distinct (Directory (Some [])))
    by (constructor; constructor).
  apply (proj2 listing_order_is_irrelevant).
  - apply same_dir
      with (reordered := [("go", Directory (Some []));
                          ("rust", Directory (Some []))]).
    + apply perm_swap.
    + repeat (constructor; [split; [reflexivity | exact Hempty] |]).
      constructor.
  - constructor.
    + repeat (constructor; [cbn; intuition discriminate |]). constructor.
    + repeat (constructor; [exact Hleaf |]). constructor.
Defined.

(** ** The whole document *)

Lemma sorted_by_sorted (A : Type) (key : A -> string) (l : list A) :
  StronglySorted (key_le key) l -> sorted_by key l = l.
Proof.
  induction 1 as [| x l Hl IH Hx]; cbn [sorted_by fold_right];
    [reflexivity |].
  fold (sorted_by key l). rewrite IH.
  destruct l as [| y l]; [reflexivity |].
  cbn [insert_by]. inversion Hx as [| ? ? Hxy _]; subst.
  unfold key_le in Hxy. rewrite Hxy. reflexivity.
Qed.

Lemma topics_loop_keys (topic_dirs : list (string * fsnode)) :
  forall acc all_topics_data,
    NoDup (map fst acc ++ map fst topic_dirs) ->
    topics_loop topic_dirs acc = Ok all_topics_data ->
    dict_keys all_topics_data = (map fst acc ++ map fst topic_dirs)%list.
Proof.
  induction topic_dirs as [| [name node] rest IH];
    intros acc all_topics_data Hnd H.
  - inversion H; subst. cbn [map]. rewrite app_nil_r. reflexivity.
  - cbn [topics_loop] in H.
    destruct (build_directory_tree name node) as [tree |]; [| discriminate].
    cbn [bind] in H. cbn [map fst] in *.
    assert (Hfresh : ~ In name (map fst acc)).
    { apply NoDup_remove_2 in Hnd. intros Hin. apply Hnd, in_or_app.
      left. exact Hin. }
    rewrite dict_set_fresh in H by exact Hfresh.
    assert (Hnd' : NoDup (map fst (acc ++ [(name, tree)])%list
                          ++ map fst rest))
      by (rewrite map_app, <- app_assoc; exact Hnd).
    rewrite (IH _ _ Hnd' H), map_app, <- app_assoc. reflexivity.
Qed.

Lemma mapM_related (A B : Type) (f : A -> result B) (l : list A)
  (ys : list B) :
  mapM f l = Ok ys -> Forall2 (fun y x => f x = Ok y) ys l.
Proof.
  revert ys.
  induction l as [| x l IH]; intros ys H; cbn [mapM] in H.
  - inversion H. constructor.
  - destruct (f x) as [y |] eqn:Ey; [| discriminate]. cbn [bind] in H.
    destruct (mapM f l) as [ys' |]; [| discriminate].
    inversion H; subst. constructor; [exact Ey | apply IH; reflexivity].
Qed.

Lemma blocks_of_topics (all_topics_data : pydict)
  (topic_dirs : list (string * fsnode)) (blocks : list (list string)) :
  (forall d, In d topic_dirs ->
     exists tree,
       build_directory_tree (fst d) (snd d) = Ok tree
       /\ dict_get (fst d) all_topics_data = Some tree) ->
  Forall2 (fun block d =>
             match dict_get (fst d) all_topics_data with
             | None => Raise KeyError
             | Some topic_tree =>
                 subtree_md <- render_subtree topic_tree 4 (fst d) ;;
                 Ok [topic_heading (fst d); subtree_md]
             end = Ok block)
    blocks topic_dirs ->
  Forall2 topic_block blocks topic_dirs.
Proof.
  intros Hall H.
  induction H as [| block d bs dirs Hblock H IH]; constructor.
  - destruct (Hall d (or_introl eq_refl)) as [tree [Hbuild Hget]].
    rewrite Hget in Hblock.
    destruct (render_subtree tree 4 (fst d)) as [body |] eqn:Ebody;
      [| discriminate].
    inversion Hblock; subst block.
    exists tree, body. repeat split; assumption.
  - apply IH. intros d' Hd'. apply Hall. right. exact Hd'.
Qed.

Lemma topic_names_of_listing (listing : list (string * fsnode))
  (all_topics_data : pydict) :
  NoDup (map fst listing) ->
  topics_loop (topic_dirs_of listing) [] = Ok all_topics_data ->
  topic_names all_topics_data = map fst (topic_dirs_of listing).
Proof.
  intros Hnd H. unfold topic_names.
  rewrite (@topics_loop_keys (topic_dirs_of listing) [] all_topics_data);
    [| | exact H]; cbn [map app].
  - apply sorted_by_sorted, strongly_sorted_map.
    unfold topic_dirs_of.
    apply (sorted_by_strongly_sorted (fun d : string * fsnode => lower (fst d))).
  - unfold topic_dirs_of.
    apply names_distinct_sorted, names_distinct_filter, Hnd.
Qed.

(** X12. The text of the index, read off the root directory: with distinct
    names at the root, the Categories section holds one link for each
    top-level directory outside the deny-list, in the order of the
    lower-cased names, and the Articles section holds for each of them, in
    the same order, its heading at level three followed by the render, from
    level four, of the tree built for it. *)
Theorem index_text_of_root (linesep : string)
  (listing : list (string * fsnode)) (text : string)
  (Hnd : NoDup (map fst listing))
  (Hrun : scan_build_render linesep listing = Ok text) :
  exists blocks,
    Forall2 topic_block blocks (topic_dirs_of listing)
    /\ text =
         preamble ++ "## Categories" ++ nl ++
         join linesep
           (map (fun topic_dir => category_line (fst topic_dir))
              (topic_dirs_of listing)) ++ nl ++ nl ++
         "## Articles" ++ nl ++
         join linesep (List.concat blocks) ++ nl.
Proof.
  unfold scan_build_render in Hrun.
  destruct (topics_loop (topic_dirs_of listing) []) as [all_topics_data |]
    eqn:Etopics; [| discriminate].
  cbn [bind] in Hrun. unfold generate_readme in Hrun.
  destruct (articles_lines all_topics_data) as [articles |] eqn:Earticles;
    [| discriminate].
  cbn [bind] in Hrun. inversion Hrun; subst text. clear Hrun.
  unfold articles_lines in Earticles.
  rewrite articles_loop_blocks in Earticles.
  destruct (mapM _ (topic_names all_topics_data)) as [blocks |] eqn:Eblocks;
    [| discriminate].
  cbn [bind app] in Earticles. inversion Earticles; subst articles.
  pose proof (topic_names_of_listing _ Hnd Etopics) as Hnames.
  exists blocks. split.
  - apply mapM_related in Eblocks. rewrite Hnames in Eblocks.
    apply Forall2_map_right in Eblocks.
    apply (blocks_of_topics all_topics_data); [| exact Eblocks].
    intros [name node] Hd.
    apply (@topics_loop_inserted (topic_dirs_of listing)) with (acc := [] : pydict);
      [| exact Hd | exact Etopics].
    unfold topic_dirs_of.
    apply names_distinct_sorted, names_distinct_filter, Hnd.
  - unfold categories_lines. rewrite Hnames, map_map. reflexivity.
Qed.

Lemma index_text_of_root_witness :
  exists blocks,
    Forall2 topic_block blocks (topic_dirs_of one_topic_listing)
    /\ one_topic_text =
         preamble ++ "## Categories" ++ nl ++
         join nl
           (map (fun topic_dir => category_line (fst topic_dir))
              (topic_dirs_of one_topic_listing)) ++ nl ++ nl ++
         "## Articles" ++ nl ++
         join nl (List.concat blocks) ++ nl.
Proof.
  assert (Hnd : NoDup (map fst one_topic_listing))
    by (repeat (constructor; [cbn; intuition discriminate |]); constructor).
  exact (@index_text_of_root nl one_topic_listing one_topic_text Hnd eq_refl).
Defined.

(** ** A run that returns *)

Lemma topics_loop_returns (topic_dirs : list (string * fsnode)) :
  Forall (fun d => exists tree,
                     build_directory_tree (fst d) (snd d) = Ok tree)
    topic_dirs ->
  forall acc, exists all_topics_data,
    topics_loop topic_dirs acc = Ok all_topics_data.
Proof.
  induction 1 as [| [name node] rest [tree Htree] H IH]; intros acc.
  - exists acc. reflexivity.
  - cbn [fst snd] in Htree. cbn [topics_loop]. rewrite Htree. cbn [bind].
    apply IH.
Qed.

Lemma scannable_run_returns (linesep : string)
  (listing : list (string * fsnode)) :
  NoDup (map fst listing) ->
  topics_scannable listing ->
  exists text, scan_build_render linesep listing = Ok text.
Proof.
  intros Hnd Hscan.
  assert (Htopic : forall d, In d (topic_dirs_of listing) ->
                     In d listing /\ is_topic d = true).
  { intros d Hd. rewrite topic_dirs_of_topics in Hd.
    apply sorted_by_In, filter_In in Hd. exact Hd. }
  destruct (@topics_loop_returns (topic_dirs_of listing)) with (acc := [] : pydict)
    as [all_topics_data Etopics].
  { apply Forall_forall. intros d Hd.
    destruct (Htopic d Hd) as [Hin Hist].
    destruct (Hscan d Hin Hist) as [Hread Hfree].
    apply readable_builds; [| exact Hfree | exact Hread].
    unfold is_topic in Hist. apply andb_true_iff in Hist. exact (proj1 Hist). }
  unfold scan_build_render. rewrite Etopics. cbn [bind].
  unfold generate_readme, articles_lines.
  rewrite articles_loop_blocks.
  destruct (@mapM_all_ok _ _
              (fun topic_name =>
                 match dict_get topic_name all_topics_data with
                 | None => Raise KeyError
                 | Some topic_tree =>
                     subtree_md <- render_subtree topic_tree 4 topic_name ;;
                     Ok [topic_heading topic_name; subtree_md]
                 end)
              (topic_names all_topics_data)) as [blocks Hblocks].
  - intros name Hname.
    rewrite (topic_names_of_listing _ Hnd Etopics) in Hname.
    apply in_map_iff in Hname. destruct Hname as [[n node] [<- Hd]].
    cbn [fst].
    destruct (@topics_loop_inserted (topic_dirs_of listing))
      with (acc := [] : pydict) (all_topics_data := all_topics_data)
           (name := n) (node := node) as [tree [Hbuild Hget]];
      [| exact Hd | exact Etopics |].
    { unfold topic_dirs_of.
      apply names_distinct_sorted, names_distinct_filter, Hnd. }
    rewrite Hget.
    destruct (Htopic _ Hd) as [Hin Hist].
    destruct (Hscan _ Hin Hist) as [_ Hfree]. cbn [snd] in Hfree.
    destruct (@render_node_returns tree 4 n
                (build_gives_node node n Hfree Hbuild)) as [body Hbody].
    rewrite Hbody. eexists. reflexivity.
  - rewrite Hblocks. cbn [bind]. eexists. reflexivity.
Qed.

(** X13. Scanning, building and rendering cannot fail once every topic can
    be scanned: when the names at the root are distinct, every directory
    entered can be listed, for every document opening it and reading its
    lines raise nothing before a heading line is read or the end of the file
    is met, and no sub-directory of a topic bears the reserved name, the
    text of the index is produced and [main] reaches the write of
    [README.md] with that text; what the run does from there is what the
    write and the message do. *)
Theorem main_reaches_write_when_scannable (linesep : string) (w : world)
  (listing : list (string * fsnode))
  (Hroot : root_dir w = Directory (Some listing))
  (Hnd : NoDup (map fst listing))
  (Hscan : topics_scannable listing) :
  exists text,
    scan_build_render linesep listing = Ok text
    /\ main linesep w = (_ <~ write_readme text ;; print INFO_MESSAGE) w.
Proof.
  destruct (scannable_run_returns linesep Hnd Hscan) as [text Htext].
  exists text. split; [exact Htext |].
  unfold scan_build_render in Htext.
  unfold main, io_bind at 1 2 3, iterdir_root, io_lift.
  rewrite Hroot.
  destruct (topics_loop (topic_dirs_of listing) []) as [all_topics_data |];
    [| discriminate].
  cbn [bind] in Htext. rewrite Htext. reflexivity.
Qed.

Lemma main_reaches_write_when_scannable_witness :
  scan_build_render nl one_topic_listing = Ok one_topic_text
  /\ exists text,
      scan_build_render nl one_topic_listing = Ok text
      /\ main nl (mk_world (Directory (Some one_topic_listing)) []) =
           (_ <~ write_readme text ;; print INFO_MESSAGE)
             (mk_world (Directory (Some one_topic_listing)) []).
Proof.
  assert (Hnd : NoDup (map fst one_topic_listing))
    by (repeat (constructor; [cbn; intuition discriminate |]); constructor).
  assert (Hscan : topics_scannable one_topic_listing).
  { intros d [<- | []] _. split; reflexivity. }
  split; [reflexivity |].
  exact (@main_reaches_write_when_scannable nl
           (mk_world (Directory (Some one_topic_listing)) [])
           one_topic_listing eq_refl Hnd Hscan).
Defined.

(** ** Names that differ by case only *)

Lemma equal_keys_sorted (A : Type) (key : A -> string) (k : string)
  (l : list A) :
  Forall (fun x => key x = k) l -> StronglySorted (key_le key) l.
Proof.
  induction 1 as [| x l Hx H IH]; constructor; [exact IH |].
  eapply Forall_impl; [| exact H].
  intros y Hy. unfold key_le. rewrite Hx, Hy.
  destruct (String.leb_total k k) as [E | E]; exact E.
Qed.

(** X14. The sort of the builder is stable: the entries of a directory
    whose names are equal once lower-cased are taken by the loop in the
    order in which the system listed them. *)
Theorem equal_names_keep_listing_order
  (listing : list (string * fsnode)) (k : string) :
  filter (fun entry => String.eqb (lower (fst entry)) k)
    (sorted_entries listing) =
    filter (fun entry => String.eqb (lower (fst entry)) k) listing.
Proof.
  unfold sorted_entries.
  rewrite <- sorted_by_filter.
  apply sorted_by_sorted, equal_keys_sorted with (k := k).
  apply Forall_forall. intros entry Hentry.
  apply filter_In in Hentry. apply String.eqb_eq, (proj2 Hentry).
Qed.

(** ** What a run leaves behind *)

Lemma join_empty_cons (line : string) (more : list string) :
  join "" (line :: more) = line ++ join "" more.
Proof.
  destruct more as [| line' more]; cbn [join]; [| reflexivity].
  symmetry. apply string_app_empty.
Qed.

Lemma text_lines_join (text : string) : join "" (text_lines text) = text.
Proof.
  induction text as [| c text IH]; [reflexivity |].
  cbn [text_lines].
  destruct (Ascii.eqb c (ascii_of_nat 10)).
  - rewrite join_empty_cons, IH. reflexivity.
  - destruct (text_lines text) as [| line more].
    + cbn in IH. subst text. reflexivity.
    + rewrite join_empty_cons in *. cbn [append]. rewrite IH. reflexivity.
Qed.

(** X15. A run that returns has changed one thing in the root: the entry
    [README.md] is now a file holding the generated text, all of it; every
    other entry is as it was, and one message was printed. *)
Theorem main_touches_only_readme (linesep : string) (w w' : world)
  (Hrun : main linesep w = (Ok tt, w')) :
  exists listing listing' text,
    root_dir w = Directory (Some listing)
    /\ root_dir w' = Directory (Some listing')
    /\ scan_build_render linesep listing = Ok text
    /\ (exists lines,
          dict_get README_NAME listing' = Some (RegularFile (map Line lines))
          /\ join "" lines = text)
    /\ (forall name, name <> README_NAME ->
          dict_get name listing' = dict_get name listing)
    /\ stdout w' = (stdout w ++ [INFO_MESSAGE])%list.
Proof.
  rewrite main_unfold in Hrun.
  destruct (root_dir w) as [lines | [listing |]] eqn:Eroot; try discriminate.
  destruct (scan_build_render linesep listing) as [text |] eqn:Escan;
    [| discriminate].
  assert (Hw' : w' = mk_world
                       (Directory
                          (Some (dict_set README_NAME
                                   (RegularFile (map Line (text_lines text)))
                                   listing)))
                       (stdout w ++ [INFO_MESSAGE])%list).
  { destruct (dict_get README_NAME listing) as [[lines | l] |];
      inversion Hrun; reflexivity. }
  subst w'. cbn [root_dir stdout].
  exists listing,
    (dict_set README_NAME (RegularFile (map Line (text_lines text))) listing),
    text.
  split; [reflexivity |]. split; [reflexivity |]. split; [exact Escan |].
  split; [| split; [| reflexivity]].
  - exists (text_lines text).
    split; [apply dict_get_set_same | apply text_lines_join].
  - intros name Hname. apply dict_get_set_other. exact Hname.
Qed.

Lemma main_touches_only_readme_witness :
  exists listing listing' text,
    root_dir world_with_one_topic = Directory (Some listing)
    /\ root_dir (snd (main nl world_with_one_topic)) =
         Directory (Some listing')
    /\ scan_build_render nl listing = Ok text
    /\ (exists lines,
          dict_get README_NAME listing' = Some (RegularFile (map Line lines))
          /\ join "" lines = text)
    /\ (forall name, name <> README_NAME ->
          dict_get name listing' = dict_get name listing)
    /\ stdout (snd (main nl world_with_one_topic)) =
         (stdout world_with_one_topic ++ [INFO_MESSAGE])%list.
Proof.
  exact (@main_touches_only_readme nl world_with_one_topic
           (snd (main nl world_with_one_topic)) eq_refl).
Defined.
